(** * stock_tracker: the crawl / enrich / persist pipeline

    A shallow embedding of the Scrapy project under [scraper/stockscraper]:
    the ticker resolver [to_cik], the two spiders ([sec_fillings.py],
    [yahoo_news_rss.py]) and the three item pipelines of [pipelines.py]
    (OpenAI enrichment, DuckDB store, Parquet archive), with the ticker
    list of the dashboard ([dashboard/app.py]), followed by the properties
    proved about them.

    Conventions.
    - Python [str] is [string]; one [ascii] stands for one character.
      [is_space] follows Python on the codes 0..255 (NEL and the no-break
      space are blanks); [upper_char] follows Python on the ASCII range and
      treats the codes above 127 as caseless letters.
    - Python [dict]s and Scrapy items are [gmap string pyval]: a key that is
      absent is absent from the map.
    - Python [float] is [pyfloat]: a rational, an infinity or NaN.  Only
      comparisons with constants and equality with a literal are used, which
      rounding to a double does not change.
    - A function that can raise returns [result]; a generator returns the
      list of what it yields.
    - What lives outside the repository (the builtin number parsers, the
      cell conversions of pandas, the HTML and feed parsers, the analysis
      service and the database engine) is an explicit argument: a [Runtime]
      record or the already parsed input of the function. *)

From Stdlib Require Import ZArith QArith Qround String Ascii List Lia.
From stdpp Require Import gmap strings list fin_maps sorting.

Set Warnings "-register-all".
#[local] Open Scope string_scope.
#[local] Open Scope Z_scope.

(* ===================================================================== *)
(** ** Python values and builtins                                         *)
(* ===================================================================== *)

Module Py.

(** [float]: finite values as rationals, the two infinities, NaN. *)
Inductive pyfloat :=
| FFin (q : Q)
| FInf (negative : bool)
| FNaN.

(** The values a dict or an item field holds: what [json.loads] can return
    ([None], [bool], [int], [float], [str], [list], [dict]). *)
Inductive pyval :=
| VNone
| VBool (b : bool)
| VInt (z : Z)
| VFloat (f : pyfloat)
| VStr (s : string)
| VList (l : list pyval)
| VDict (m : gmap string pyval).

(** Outcome of code that may raise. *)
Inductive result (A : Type) :=
| Ok (a : A)
| Raise (exn : string).
Arguments Ok {A} a.
Arguments Raise {A} exn.

(** Sequencing of code that may raise. *)
Definition bind {A B : Type} (r : result A) (k : A -> result B) : result B :=
  match r with
  | Ok a => k a
  | Raise exn => Raise exn
  end.

(** The literal [0.0] and the literal [1.0]. *)
Definition f0 : pyfloat := FFin 0.
Definition f1 : pyfloat := FFin 1.

(** [-1.0 <= f <= 1.0] as Python evaluates it: false on NaN and on the
    infinities. *)
Definition in_unit_range (f : pyfloat) : bool :=
  match f with
  | FFin q => Qle_bool (-1) q && Qle_bool q 1
  | FInf _ => false
  | FNaN => false
  end.

(** [f != f]: the NaN test. *)
Definition is_nan (f : pyfloat) : bool :=
  match f with FNaN => true | _ => false end.

(** Truth value of an object ([bool(x)], the test of [if], [or], [not]). *)
Definition float_is_zero (f : pyfloat) : bool :=
  match f with FFin q => Qeq_bool q 0 | _ => false end.

Definition truthy (v : pyval) : bool :=
  match v with
  | VNone => false
  | VBool b => b
  | VInt z => negb (z =? 0)
  | VFloat f => negb (float_is_zero f)
  | VStr s => negb (String.eqb s "")
  | VList l => match l with [] => false | _ => true end
  | VDict m => negb (bool_decide (m = ∅))
  end.

(** [a or b]. *)
Definition py_or (a b : pyval) : pyval := if truthy a then a else b.

(** [d.get(k)] and [d.get(k, default)]. *)
Definition dict_get (d : gmap string pyval) (k : string) : pyval :=
  default VNone (d !! k).
Definition dict_get_or (d : gmap string pyval) (k : string) (dflt : pyval) : pyval :=
  default dflt (d !! k).

(** *** Characters and strings *)

(** [c.isspace()], the blanks of [str.split()] and [str.strip()], on the
    codes 0..255: tab, LF, VT, FF, CR, the four separators 0x1c..0x1f, the
    blank, NEL (0x85) and the no-break space (0xa0). *)
Definition is_space (c : ascii) : bool :=
  let n := nat_of_ascii c in
  ((9 <=? n) && (n <=? 13) || (28 <=? n) && (n <=? 32)
   || (n =? 133) || (n =? 160))%nat.

(** [c.upper()] on the ASCII range. *)
Definition upper_char (c : ascii) : ascii :=
  let n := nat_of_ascii c in
  if ((97 <=? n) && (n <=? 122))%nat then ascii_of_nat (n - 32) else c.

(** [s.upper()]. *)
Fixpoint upper (s : string) : string :=
  match s with
  | EmptyString => EmptyString
  | String c s' => String (upper_char c) (upper s')
  end.

(** [s.lstrip()], [s.rstrip()], [s.strip()]. *)
Fixpoint lstrip (s : string) : string :=
  match s with
  | EmptyString => EmptyString
  | String c s' => if is_space c then lstrip s' else s
  end.

Fixpoint rstrip (s : string) : string :=
  match s with
  | EmptyString => EmptyString
  | String c s' =>
      match rstrip s' with
      | EmptyString => if is_space c then EmptyString else String c EmptyString
      | t => String c t
      end
  end.

Definition strip (s : string) : string := rstrip (lstrip s).

(** [s.split()]: the maximal runs of non-blank characters, in order.
    [cur] holds the characters of the run being read, last one first. *)
Fixpoint split_from (cur : string) (s : string) : list string :=
  match s with
  | EmptyString =>
      match cur with EmptyString => [] | _ => [String.rev cur] end
  | String c s' =>
      if is_space c then
        match cur with
        | EmptyString => split_from EmptyString s'
        | _ => String.rev cur :: split_from EmptyString s'
        end
      else split_from (String c cur) s'
  end.

Definition split (s : string) : list string := split_from EmptyString s.

(** [sep.join(parts)]. *)
Fixpoint join (sep : string) (parts : list string) : string :=
  match parts with
  | [] => EmptyString
  | [p] => p
  | p :: rest => p ++ sep ++ join sep rest
  end.

(** [s[:n]]. *)
Fixpoint str_take (n : nat) (s : string) : string :=
  match n, s with
  | O, _ => EmptyString
  | _, EmptyString => EmptyString
  | S n', String c s' => String c (str_take n' s')
  end.

(** [s.replace(old, "")] for a one-character [old]. *)
Fixpoint remove_char (old : ascii) (s : string) : string :=
  match s with
  | EmptyString => EmptyString
  | String c s' =>
      if Ascii.eqb c old then remove_char old s' else String c (remove_char old s')
  end.

(** [" ".join(text.split()[:n])]: the first [n] blank-separated tokens. *)
Definition truncate_tokens (n : nat) (text : string) : string :=
  join " " (take n (split text)).

(** *** Integers as text *)

(** [c.isdigit()] on the ASCII range, and the texts made of digits only. *)
Definition is_digit (c : ascii) : bool :=
  let n := nat_of_ascii c in ((48 <=? n) && (n <=? 57))%nat.

Fixpoint all_digits (s : string) : bool :=
  match s with
  | EmptyString => true
  | String c s' => is_digit c && all_digits s'
  end.

Definition digit_char (d : Z) : ascii := ascii_of_nat (48 + Z.to_nat d).

(** Decimal digits of a non-negative integer, most significant first, put
    in front of [acc]; [fuel] bounds the number of digits. *)
Fixpoint digits_onto (fuel : nat) (n : Z) (acc : string) : string :=
  match fuel with
  | O => acc
  | S fuel' =>
      let acc' := String (digit_char (n mod 10)) acc in
      if n <? 10 then acc' else digits_onto fuel' (n / 10) acc'
  end.

(** [str(n)] for an [int]. *)
Definition str_of_int (n : Z) : string :=
  if n <? 0
  then String "-" (digits_onto (S (Z.to_nat (Z.log2 (- n)))) (- n) EmptyString)
  else digits_onto (S (Z.to_nat (Z.log2 n))) n EmptyString.

Fixpoint zeros (n : nat) : string :=
  match n with
  | O => EmptyString
  | S n' => String "0" (zeros n')
  end.

(** [s.zfill(width)]: zeros are added on the left, after a leading sign,
    until the text is [width] characters long; a text that is already that
    long is returned as it is. *)
Definition zfill (width : nat) (s : string) : string :=
  let len := String.length s in
  if (width <=? len)%nat then s
  else
    match s with
    | String c rest =>
        if Ascii.eqb c "+" || Ascii.eqb c "-"
        then String c (zeros (width - len) ++ rest)
        else zeros (width - len) ++ s
    | EmptyString => zeros width
    end.

(** *** What the interpreter and its libraries provide

    The parsers of numbers and dates in text are not code of this
    repository; the pipeline is stated for any of them. *)
Record Runtime := {
  (** [float(s)] for a [str]; [None] stands for [ValueError]. *)
  float_of_str : string -> option pyfloat;
  (** [int(s)] for a [str]; [None] stands for [ValueError]. *)
  int_of_str : string -> option Z;
  (** [format(v, "")] for the values that are neither [str], [None],
      [bool] nor [int]. *)
  repr_of : pyval -> string;
  (** [pd.to_numeric(..., errors="coerce")] on one cell that is neither
      null nor a [float]: the number read (NaN when the value is coerced),
      or the exception raised on a value it does not convert. *)
  numeric_of : pyval -> result pyfloat;
  (** [pd.to_datetime(..., errors="coerce")] on one cell that is not null:
      the instant in nanoseconds since the epoch, or [None] for [NaT]. *)
  datetime_of : pyval -> option Z;
  (** [hasattr(item, name)] for a Scrapy item and a [name] that is not one
      of its declared fields (the methods of [scrapy.Item]). *)
  item_has_attr : string -> bool;
}.

(** Largest magnitude an [int] may have for [float(int)] not to raise
    [OverflowError]: it must round below [2^1024]. *)
Definition float_int_limit : Z := 2 ^ 1024 - 2 ^ 970.

(** [float(v)]. *)
Definition py_float (rt : Runtime) (v : pyval) : result pyfloat :=
  match v with
  | VFloat f => Ok f
  | VInt z =>
      if Z.abs z <? float_int_limit then Ok (FFin (inject_Z z))
      else Raise "OverflowError"
  | VBool b => Ok (if b then f1 else f0)
  | VStr s =>
      match float_of_str rt s with
      | Some f => Ok f
      | None => Raise "ValueError"
      end
  | VNone | VList _ | VDict _ => Raise "TypeError"
  end.

(** [int(f)] for a finite [float]: truncation towards zero. *)
Definition trunc_Q (q : Q) : Z :=
  if Qle_bool 0 q then Qfloor q else Qceiling q.

(** [int(v)]. *)
Definition py_int (rt : Runtime) (v : pyval) : result Z :=
  match v with
  | VInt z => Ok z
  | VBool b => Ok (if b then 1 else 0)
  | VFloat (FFin q) => Ok (trunc_Q q)
  | VFloat (FInf _) => Raise "OverflowError"
  | VFloat FNaN => Raise "ValueError"
  | VStr s =>
      match int_of_str rt s with
      | Some z => Ok z
      | None => Raise "ValueError"
      end
  | VNone | VList _ | VDict _ => Raise "TypeError"
  end.

(** [format(v, "")], the conversion an f-string applies to a field; it is
    [str(v)] for the values listed. *)
Definition py_format (rt : Runtime) (v : pyval) : string :=
  match v with
  | VStr s => s
  | VNone => "None"
  | VBool b => if b then "True" else "False"
  | VInt z => str_of_int z
  | _ => repr_of rt v
  end.

End Py.

Notation "x <~ r ;; k" := (Py.bind r (fun x => k))
  (at level 100, r at next level, right associativity).

Import Py.

(* ===================================================================== *)
(** ** TickerResolver: [to_cik] and the spider's constructor              *)
(* ===================================================================== *)

Module Resolver.

(** One value of [company_tickers.json]:
    [{"cik_str": 320193, "ticker": "AAPL", "title": "Apple Inc."}]. *)
Record company := {
  cik_str : Z;
  ticker : string;
  title : string;
}.

(** The [for company_data in companies.values()] loop of [to_cik]: the
    first entry whose ticker matches, ignoring case, decides. *)
Fixpoint search_ticker (companies : list company) (tk : string) : option string :=
  match companies with
  | [] => None
  | company_data :: rest =>
      if String.eqb (upper (ticker company_data)) (upper tk)
      then Some (zfill 10 (str_of_int (cik_str company_data)))
      else search_ticker rest tk
  end.

(** [to_cik(ticker)].  [table] is what [requests.get(...)],
    [raise_for_status()] and [response.json()] produced: the values of the
    reference table in order, or the exception one of them raised (which
    the [except] turns into [None]). *)
Definition to_cik (table : result (list company)) (tk : string) : option string :=
  match table with
  | Raise _ => None
  | Ok companies => search_ticker companies tk
  end.

(** The state [SecFilingsSpider.__init__] leaves behind. *)
Record spider := {
  self_ticker : string;
  self_cik : string;
}.

(** [if arg:] for a command-line argument: given and not empty. *)
Definition given (arg : option string) : bool :=
  match arg with
  | Some text => negb (String.eqb text "")
  | None => false
  end.

(** [SecFilingsSpider.__init__(cik=None, ticker=None)].  The arguments
    arrive as text from the command line ([-a ticker=AAPL]). *)
Definition spider_init (table : result (list company))
    (cik : option string) (tk : option string) : result spider :=
  if given cik then
    let padded := zfill 10 (default "" cik) in
    Ok {| self_ticker := if given tk then default "" tk else padded;
          self_cik := padded |}
  else if given tk then
    let t := upper (default "" tk) in
    match to_cik table t with
    | Some found =>
        if String.eqb found "" then Raise "ValueError"
        else Ok {| self_ticker := t; self_cik := found |}
    | None => Raise "ValueError"
    end
  else Raise "ValueError".

End Resolver.

(* ===================================================================== *)
(** ** Scrapy: requests, responses and items                              *)
(* ===================================================================== *)

Module Scrapy.

(** What a callback yields to follow a link: the target and the [meta]
    dict handed to the next callback. *)
Record request := {
  req_url : string;
  req_meta : gmap string pyval;
}.

(** The fields declared by [SecFilingItem] and by [NewsItem] ([items.py]). *)
Definition sec_fields : list string :=
  [ "cik"; "ticker"; "company_name"; "form"; "filing_date"; "accession_no";
    "primary_doc"; "report_url"; "report_text"; "summary_ai"; "sentiment";
    "sentiment_score" ].

Definition news_fields : list string :=
  [ "ticker"; "source"; "title"; "link"; "published"; "summary";
    "article_text"; "summary_ai"; "sentiment"; "sentiment_score" ].

(** [name in names] for a tuple, list or set of [str]. *)
Definition str_in (name : string) (names : list string) : bool :=
  existsb (String.eqb name) names.

(** [{k: v for k, v in d.items() if k in names}]. *)
Definition restrict_keys (names : list string) (d : gmap string pyval)
    : gmap string pyval :=
  filter (fun kv => str_in kv.1 names = true) d.

(** [CLOSESPIDER_ITEMCOUNT] of [settings.py]. *)
Definition CLOSESPIDER_ITEMCOUNT : Z := 20.

End Scrapy.

(* ===================================================================== *)
(** ** FilingCrawler: [SecFilingsSpider]                                  *)
(* ===================================================================== *)

Module Filings.
Import Scrapy.

(** [filings["recent"]] of the submissions document: four parallel
    arrays of text (a key that is missing reads as the empty list). *)
Record recent := {
  form : list string;
  filingDate : list string;
  accessionNumber : list string;
  primaryDocument : list string;
}.

(** The submissions document after [json.loads]. *)
Record submissions := {
  (** [data.get("cik")] *)
  sub_cik : pyval;
  (** [data.get("name")] *)
  sub_name : pyval;
  (** [data.get("filings", {}).get("recent", {})] when both are present
      and not empty *)
  sub_recent : option recent;
}.

(** The response handed to [parse]: its status and the outcome of
    [json.loads(response.text)]. *)
Record index_response := {
  idx_status : Z;
  idx_json : result submissions;
}.

(** The allow-list of [parse]: [("10-K", "10-Q", "8-K")]. *)
Definition relevant_forms : list string := [ "10-K"; "10-Q"; "8-K" ].

(** The form of a candidate is one of the three of the allow-list. *)
Definition has_relevant_form (item : gmap string pyval) : bool :=
  match item !! "form" with
  | Some (VStr fm) => str_in fm relevant_forms
  | _ => false
  end.

(** [zip(forms, dates, accessions, primary_docs)]: as long as the shortest. *)
Fixpoint zip4 (a b c d : list string) : list (string * string * string * string) :=
  match a, b, c, d with
  | x :: a', y :: b', z :: c', w :: d' => (x, y, z, w) :: zip4 a' b' c' d'
  | _, _, _, _ => []
  end.

(** The request [parse] yields for one retained entry. *)
Definition report_request (self_ticker : string) (cik company : pyval)
    (cik_number : Z) (rt : Runtime) (entry : string * string * string * string)
    : request :=
  let '(fm, date, acc, pdoc) := entry in
  let acc_nodashes := remove_char "-" acc in
  let report_url :=
    "https://www.sec.gov/Archives/edgar/data/" ++ str_of_int cik_number
      ++ "/" ++ acc_nodashes ++ "/" ++ pdoc in
  {| req_url := report_url;
     req_meta :=
       <["cik" := VStr (py_format rt cik)]>
       (<["ticker" := VStr self_ticker]>
       (<["company_name" := company]>
       (<["form" := VStr fm]>
       (<["filing_date" := VStr date]>
       (<["accession_no" := VStr acc]>
       (<["primary_doc" := VStr pdoc]>
       (<["report_url" := VStr report_url]> ∅))))))) |}.

(** The [for ... in enumerate(zip(...))] loop of [parse]: the requests it
    yields, and whether it ended by an exception ([int(cik)] raising at the
    first retained entry ends the generator). *)
Fixpoint parse_entries (rt : Runtime) (self_ticker : string) (cik company : pyval)
    (entries : list (string * string * string * string)) : list request * bool :=
  match entries with
  | [] => ([], false)
  | entry :: rest =>
      if negb (str_in entry.1.1.1 relevant_forms) then
        parse_entries rt self_ticker cik company rest
      else
        match py_int rt cik with
        | Raise _ => ([], true)
        | Ok n =>
            let '(more, raised) := parse_entries rt self_ticker cik company rest in
            (report_request self_ticker cik company n rt entry :: more, raised)
        end
  end.

(** [SecFilingsSpider.parse(response)]: the requests it yields. *)
Definition parse (rt : Runtime) (self_ticker : string) (response : index_response)
    : list request :=
  if negb (idx_status response =? 200) then []
  else
    match idx_json response with
    | Raise _ => []
    | Ok data =>
        match sub_recent data with
        | None => []
        | Some rec =>
            (parse_entries rt self_ticker (sub_cik data) (sub_name data)
               (zip4 (form rec) (filingDate rec) (accessionNumber rec)
                  (primaryDocument rec))).1
        end
    end.

(** The response handed to [parse_report]: its status, the outcome of
    [BeautifulSoup(response.body, "lxml").get_text(separator="\n",
    strip=True)], and [response.meta]. *)
Record report_response := {
  rep_status : Z;
  rep_text : result string;
  rep_meta : gmap string pyval;
}.

(** A key of [meta] that passes [hasattr(item, key)] without being a
    declared field: [item[key] = value] raises [KeyError] on it. *)
Definition rejected_key (rt : Runtime) (key : string) : bool :=
  negb (str_in key sec_fields) && item_has_attr rt key.

(** [SecFilingsSpider.parse_report(response)]: the items it yields. *)
Definition parse_report (rt : Runtime) (response : report_response)
    : list (gmap string pyval) :=
  if negb (rep_status response =? 200) then []
  else
    match rep_text response with
    | Raise _ => []
    | Ok report_text =>
        if String.eqb report_text "" then []
        else
          let truncated_text := truncate_tokens 4000 report_text in
          let meta_data := rep_meta response in
          if bool_decide (map_Exists (fun key _ => rejected_key rt key = true) meta_data)
          then []
          else [ <["report_text" := VStr truncated_text]>
                   (restrict_keys sec_fields meta_data) ]
    end.

(** The engine between the two callbacks.  [download] is the downloader
    with its middlewares: for a request it gives the response that reaches
    the callback, or nothing (the fetch failed, was filtered, or the spider
    was closed first).  [response.meta] is the request's [meta] plus the
    keys the engine adds. *)
Record fetched := {
  fetched_status : Z;
  fetched_text : result string;
  fetched_extra_meta : gmap string pyval;
}.

Definition deliver (req : request) (got : fetched) : report_response :=
  {| rep_status := fetched_status got;
     rep_text := fetched_text got;
     rep_meta := req_meta req ∪ fetched_extra_meta got |}.

(** The FilingCandidates of one run, in index order. *)
Definition crawl (rt : Runtime) (self_ticker : string)
    (download : request -> option fetched) (response : index_response)
    : list (gmap string pyval) :=
  flat_map
    (fun req =>
       match download req with
       | Some got => parse_report rt (deliver req got)
       | None => []
       end)
    (parse rt self_ticker response).

End Filings.

(* ===================================================================== *)
(** ** NewsCrawler: [YahooNewsRSSSpider]                                  *)
(* ===================================================================== *)

Module News.
Import Scrapy.

(** One entry of [feedparser.parse(response.body).entries]. *)
Record feed_entry := {
  e_title : string;
  e_link : string;
  (** [getattr(e, "published", None)] *)
  e_published : option string;
  (** the ISO text of [e.published_parsed] read as a UTC [datetime], or
      the exception the conversion raised *)
  e_published_iso : result string;
  (** the [summary] attribute, when the entry has one *)
  e_summary : option string;
}.

(** The [published] value computed at the top of the loop of [parse_rss]. *)
Definition published_of (e : feed_entry) : pyval :=
  if Resolver.given (e_published e) then
    match e_published_iso e with
    | Ok iso => VStr iso
    | Raise _ => VNone
    end
  else VNone.

(** [YahooNewsRSSSpider.parse_rss(response)]: one request per entry. *)
Definition parse_rss (self_ticker : string) (entries : list feed_entry)
    : list request :=
  map
    (fun e =>
       {| req_url := e_link e;
          req_meta :=
            <["ticker" := VStr self_ticker]>
            (<["source" := VStr "YahooFinanceRSS"]>
            (<["title" := VStr (e_title e)]>
            (<["link" := VStr (e_link e)]>
            (<["published" := published_of e]>
            (<["summary" := VStr (default "" (e_summary e))]> ∅))))) |})
    entries.

(** The response handed to [parse_article]: the text of the first
    [<div class="caas-body">] as [get_text(separator="\n", strip=True)]
    gives it, or [None] when [soup.find] finds no such element, and
    [response.meta]. *)
Record article_response := {
  art_body : option string;
  art_meta : gmap string pyval;
}.

(** The [allowed] set of [parse_article]. *)
Definition allowed : list string :=
  [ "ticker"; "source"; "title"; "link"; "published"; "summary"; "article_text" ].

(** [YahooNewsRSSSpider.parse_article(response)]: the items it yields. *)
Definition parse_article (response : article_response) : list (gmap string pyval) :=
  let article_text := default "" (art_body response) in
  let truncated_text := truncate_tokens 2000 article_text in
  let data := restrict_keys allowed (art_meta response) in
  [ <["article_text" := VStr truncated_text]> data ].

(** The article text of a candidate, from what [soup.find] found. *)
Definition article_text_of (body : option string) : string :=
  match body with
  | None => ""
  | Some text => truncate_tokens 2000 text
  end.

(** What the downloader brings back for an article request. *)
Record fetched := {
  fetched_body : option string;
  fetched_extra_meta : gmap string pyval;
}.

Definition deliver (req : request) (got : fetched) : article_response :=
  {| art_body := fetched_body got;
     art_meta := req_meta req ∪ fetched_extra_meta got |}.

(** The candidate made from one entry and the body found on the page its
    link led to. *)
Definition candidate_of (tk : string) (e : feed_entry) (body : option string)
    (item : gmap string pyval) : Prop :=
  item !! "article_text" = Some (VStr (article_text_of body))
  /\ item !! "summary" = Some (VStr (default "" (e_summary e)))
  /\ item !! "title" = Some (VStr (e_title e))
  /\ item !! "link" = Some (VStr (e_link e))
  /\ item !! "ticker" = Some (VStr tk).

(** The NewsCandidates of one run, in feed order. *)
Definition crawl (self_ticker : string) (download : request -> option fetched)
    (entries : list feed_entry) : list (gmap string pyval) :=
  flat_map
    (fun req =>
       match download req with
       | Some got => parse_article (deliver req got)
       | None => []
       end)
    (parse_rss self_ticker entries).

End News.

(* ===================================================================== *)
(** ** EnrichmentStage: [OpenAIPipeline]                                  *)
(* ===================================================================== *)

Module Enrich.

(** What [openai.chat.completions.create(...)] followed by
    [json.loads(response.choices[0].message.content)] comes to. *)
Inductive api_outcome :=
| TransportError                (* the request raised *)
| Malformed                     (* the reply is not JSON text *)
| Decoded (analysis : pyval).   (* the decoded reply *)

(** The text between the title and the summary in the third choice of
    [text_content]: a blank, the three characters of the source file (none
    of them a blank), a blank. *)
Definition title_separator : string :=
  String " "
    (String (ascii_of_nat 226) (String (ascii_of_nat 128) (String (ascii_of_nat 148)
      (String " " EmptyString)))).

(** [text_content] of [process_item]. *)
Definition text_content (rt : Runtime) (item : gmap string pyval) : pyval :=
  py_or (dict_get item "report_text")
    (py_or (dict_get item "article_text")
       (VStr (py_format rt (dict_get_or item "title" (VStr ""))
                ++ title_separator
                ++ py_format rt (dict_get_or item "summary" (VStr ""))))).

(** The [except] branch: the three fields set to the fallback values. *)
Definition fallback (item : gmap string pyval) : gmap string pyval :=
  <["sentiment_score" := VFloat f0]>
    (<["sentiment" := VStr "Unknown"]>
       (<["summary_ai" := VStr "Error in analysis."]> item)).

(** The [try] body after the call: the three assignments in order; an
    exception at any of them runs the [except] branch on the item as it
    stands. *)
Definition apply_analysis (rt : Runtime) (item : gmap string pyval)
    (reply : api_outcome) : gmap string pyval :=
  match reply with
  | TransportError | Malformed => fallback item
  | Decoded (VDict analysis) =>
      let item1 := <["summary_ai" := dict_get_or analysis "summary" (VStr "")]> item in
      let item2 := <["sentiment" := dict_get_or analysis "sentiment" (VStr "Unknown")]> item1 in
      match py_float rt (dict_get_or analysis "sentiment_score" (VFloat f0)) with
      | Ok score => <["sentiment_score" := VFloat score]> item2
      | Raise _ => fallback item2
      end
  | Decoded _ => fallback item     (* [analysis.get] raises [AttributeError] *)
  end.

(** The replies on which the [try] body raises: everything but a JSON
    object whose score [float] accepts. *)
Definition analysis_failed (rt : Runtime) (reply : api_outcome) : bool :=
  match reply with
  | Decoded (VDict analysis) =>
      match py_float rt (dict_get_or analysis "sentiment_score" (VFloat f0)) with
      | Ok _ => false
      | Raise _ => true
      end
  | _ => true
  end.

(** What one call of [process_item] did: the item it returned (or the
    exception that escaped), and the texts it sent to the service. *)
Record processed := {
  returned : result (gmap string pyval);
  calls : list string;
}.

(** A field of the item a call returned. *)
Definition output_field (p : processed) (key : string) : option pyval :=
  match returned p with
  | Ok item => item !! key
  | Raise _ => None
  end.

(** [if not openai.api_key]. *)
Definition no_api_key (api_key : option string) : bool :=
  negb (Resolver.given api_key).

(** [OpenAIPipeline.process_item(item, spider)].  [api] answers a call by
    the excerpt of text it is given. *)
Definition process_item (rt : Runtime) (api_key : option string)
    (api : string -> api_outcome) (item : gmap string pyval) : processed :=
  if no_api_key api_key then {| returned := Ok item; calls := [] |}
  else
    let text := text_content rt item in
    if negb (truthy text) then {| returned := Ok item; calls := [] |}
    else
      match text with
      | VStr s =>
          if (String.length (strip s) <? 10)%nat
          then {| returned := Ok item; calls := [] |}
          else
            let excerpt := str_take 1000 s in
            {| returned := Ok (apply_analysis rt item (api excerpt));
               calls := [excerpt] |}
      | _ => {| returned := Raise "AttributeError"; calls := [] |}
      end.

End Enrich.

(* ===================================================================== *)
(** ** PersistenceStage: [DuckDBPipeline] and [ParquetPipeline]           *)
(* ===================================================================== *)

Module Persist.
Import Scrapy.
#[local] Open Scope list_scope.

(** One cell of a pandas frame.  [CNA] is the null of any column ([None],
    NaN or [NaT]: what [fillna] fills and the store writes as NULL). *)
Inductive cell :=
| CNA
| CVal (v : pyval)
| CDate (day : Z)        (* a [datetime.date], in days since the epoch *)
| CStamp (ns : Z).       (* a [Timestamp], in nanoseconds since the epoch *)

(** A [pd.DataFrame]: the column labels in order, and for each row the
    cell under each label. *)
Record frame := {
  columns : list string;
  rows : list (gmap string cell);
}.

(** The cell holding a value of a dict. *)
Definition cell_of (v : pyval) : cell :=
  match v with
  | VNone => CNA
  | VFloat FNaN => CNA
  | _ => CVal v
  end.

(** The keys of all the dicts of a list. *)
Definition all_keys (items : list (gmap string pyval)) : gset string :=
  ⋃ (dom <$> items).

(** [pd.DataFrame(items)] for a list of dicts: one column per key that
    occurs, one row per dict, null where the dict has no such key.  (A
    [gmap] does not keep the order in which keys were inserted, so the
    order of the columns of this raw frame is that of [elements]; the store
    selects its columns by name.) *)
Definition DataFrame (items : list (gmap string pyval)) : frame :=
  let keys := all_keys items in
  {| columns := elements keys;
     rows := (fun item => (cell_of <$> item) ∪ gset_to_gmap CNA keys) <$> items |}.

(** [col in df.columns]. *)
Definition has_column (df : frame) (col : string) : bool :=
  str_in col (columns df).

(** [df[col] = None] for a label that is not a column yet. *)
Definition add_null_column (col : string) (df : frame) : frame :=
  {| columns := columns df ++ [col];
     rows := insert col CNA <$> rows df |}.

(** [for col in cols: if col not in df.columns: df[col] = None]. *)
Definition ensure_columns (cols : list string) (df : frame) : frame :=
  fold_left
    (fun d col => if has_column d col then d else add_null_column col d)
    cols df.

(** [df[cols]]: the listed columns in the listed order; [KeyError] when one
    is missing. *)
Definition select (cols : list string) (df : frame) : result frame :=
  if forallb (has_column df) cols
  then Ok {| columns := cols;
             rows := filter (fun kv => str_in kv.1 cols = true) <$> rows df |}
  else Raise "KeyError".

(** [df[col] = f(df[col])] for a conversion that works cell by cell. *)
Definition map_column (f : cell -> cell) (col : string) (df : frame) : frame :=
  {| columns := columns df;
     rows := alter f col <$> rows df |}.

(** The same for a conversion that may raise: the first cell it raises on
    ends the conversion. *)
Fixpoint convert_rows (f : cell -> result cell) (col : string)
    (rs : list (gmap string cell)) : result (list (gmap string cell)) :=
  match rs with
  | [] => Ok []
  | r :: rest =>
      c <~ f (default CNA (r !! col)) ;;
      rest' <~ convert_rows f col rest ;;
      Ok (<[col := c]> r :: rest')
  end.

Definition convert_column (f : cell -> result cell) (col : string) (df : frame)
    : result frame :=
  rs <~ convert_rows f col (rows df) ;;
  Ok {| columns := columns df; rows := rs |}.

(** [pd.to_datetime(column, errors="coerce")], one cell. *)
Definition to_datetime_cell (rt : Runtime) (c : cell) : cell :=
  match c with
  | CNA => CNA
  | CVal v =>
      match datetime_of rt v with
      | Some ns => CStamp ns
      | None => CNA
      end
  | CDate day => CStamp (day * 86400000000000)
  | CStamp ns => CStamp ns
  end.

(** [.dt.date], one cell. *)
Definition date_cell (c : cell) : cell :=
  match c with
  | CStamp ns => CDate (ns / 86400000000000)
  | other => other
  end.

(** [pd.to_numeric(column, errors="coerce")], one cell. *)
Definition to_numeric_cell (rt : Runtime) (c : cell) : result cell :=
  match c with
  | CNA => Ok CNA
  | CVal (VFloat f) => Ok (CVal (VFloat f))
  | CVal v => f <~ numeric_of rt v ;; Ok (cell_of (VFloat f))
  | CDate _ | CStamp _ => Raise "TypeError"
  end.

(** [value] where the cell is null. *)
Definition fill_cell (value : pyval) (c : cell) : cell :=
  match c with
  | CNA => CVal value
  | other => other
  end.

(** [df.fillna({col: value, ...})]. *)
Definition fillna (values : list (string * pyval)) (df : frame) : frame :=
  {| columns := columns df;
     rows := (fun r => foldr (fun cv r' => alter (fill_cell cv.2) cv.1 r') r values)
               <$> rows df |}.

(** The column types of the [CREATE TABLE] statements. *)
Inductive sqltype := VARCHAR | TEXT | DATE | TIMESTAMP | DOUBLE.

(** [CREATE TABLE IF NOT EXISTS sec_filings (...)]. *)
Definition sec_filings_schema : list (string * sqltype) :=
  [ ("cik", VARCHAR); ("ticker", VARCHAR); ("company_name", VARCHAR);
    ("form", VARCHAR); ("filing_date", DATE); ("accession_no", VARCHAR);
    ("primary_doc", VARCHAR); ("report_url", VARCHAR); ("report_text", TEXT);
    ("summary_ai", TEXT); ("sentiment", VARCHAR); ("sentiment_score", DOUBLE) ].

(** [CREATE TABLE IF NOT EXISTS news (...)]. *)
Definition news_schema : list (string * sqltype) :=
  [ ("ticker", VARCHAR); ("source", VARCHAR); ("title", TEXT);
    ("link", VARCHAR); ("published", TIMESTAMP); ("summary", TEXT);
    ("article_text", TEXT); ("summary_ai", TEXT); ("sentiment", VARCHAR);
    ("sentiment_score", DOUBLE) ].

(** [sec_columns] and [news_columns] of [close_spider]. *)
Definition sec_columns : list string :=
  [ "cik"; "ticker"; "company_name"; "form"; "filing_date";
    "accession_no"; "primary_doc"; "report_url"; "report_text";
    "summary_ai"; "sentiment"; "sentiment_score" ].

Definition news_columns : list string :=
  [ "ticker"; "source"; "title"; "link"; "published";
    "summary"; "article_text"; "summary_ai"; "sentiment"; "sentiment_score" ].

(** The two dicts given to [fillna]. *)
Definition sec_fill : list (string * pyval) :=
  [ ("cik", VStr ""); ("ticker", VStr ""); ("company_name", VStr "");
    ("form", VStr ""); ("accession_no", VStr ""); ("primary_doc", VStr "");
    ("report_url", VStr ""); ("report_text", VStr ""); ("summary_ai", VStr "");
    ("sentiment", VStr "Unknown"); ("sentiment_score", VFloat f0) ].

Definition news_fill : list (string * pyval) :=
  [ ("ticker", VStr ""); ("source", VStr ""); ("title", VStr "");
    ("link", VStr ""); ("summary", VStr ""); ("article_text", VStr "");
    ("summary_ai", VStr ""); ("sentiment", VStr "Unknown");
    ("sentiment_score", VFloat f0) ].

(** Whether a cell can be written to a column of the given type as it
    is: text in a text column, a number that is not NaN in a [DOUBLE]
    column, a date or NULL in a [DATE] column, an instant or NULL in a
    [TIMESTAMP] column. *)
Definition cell_fits (ty : sqltype) (x : cell) : bool :=
  match ty, x with
  | (VARCHAR | TEXT), CVal (VStr _) => true
  | DOUBLE, CVal (VFloat f) => negb (is_nan f)
  | DATE, (CNA | CDate _) => true
  | TIMESTAMP, (CNA | CStamp _) => true
  | _, _ => false
  end.

Definition text_type (ty : sqltype) : bool :=
  match ty with
  | VARCHAR | TEXT => true
  | _ => false
  end.

(** A value of a candidate that is text, or missing, or null. *)
Definition text_or_missing (v : option pyval) : bool :=
  match v with
  | None | Some VNone | Some (VFloat FNaN) | Some (VStr _) => true
  | _ => false
  end.

(** The cell a dict contributes to a column: null when the key is missing
    or holds [None] or NaN. *)
Definition raw_cell (item : gmap string pyval) (col : string) : cell :=
  match item !! col with
  | Some v => cell_of v
  | None => CNA
  end.

(** What [fillna] does to the cell of one column: each entry of its dict
    for that column fills the cell if it is null. *)
Definition fill_all (values : list (string * pyval)) (col : string) (x : cell) : cell :=
  foldr (fun cv x' => if String.eqb cv.1 col then fill_cell cv.2 x' else x') x values.

(** A frame ready for a table: its columns are those of the table, in
    order, and each row holds, for its candidate and under every column, a
    cell that is filled when the column has a fill value (with that value
    when the candidate gave none) and that fits the type of the column (as
    far as a text column goes: when the candidate gave text or nothing). *)
Definition store_ready (schema : list (string * sqltype))
    (fills : list (string * pyval)) (items : list (gmap string pyval))
    (df : frame) : Prop :=
  columns df = schema.*1
  /\ Forall2
       (fun item row => forall col ty, (col, ty) ∈ schema ->
          exists x,
            row !! col = Some x
            /\ (forall v, (col, v) ∈ fills ->
                  x <> CNA /\ (raw_cell item col = CNA -> x = CVal v))
            /\ ((text_type ty = true -> text_or_missing (item !! col) = true) ->
                cell_fits ty x = true))
       items (rows df).

(** A frame whose rows are those of [items], one for one: each row holds,
    under each column of the frame, the cell of its dict, and the keys that
    are not columns occur in no dict. *)
Definition aligned (df : frame) (items : list (gmap string pyval)) : Prop :=
  Forall2
    (fun item row => forall col,
       row !! col = if has_column df col then Some (raw_cell item col) else None)
    items (rows df)
  /\ forall col item, has_column df col = false -> item ∈ items -> item !! col = None.

(** A frame with the columns [cols] whose rows are those of [items], one
    for one, each cell being related to its dict by [R]. *)
Definition holds (df : frame) (items : list (gmap string pyval)) (cols : list string)
    (R : gmap string pyval -> string -> cell -> Prop) : Prop :=
  columns df = cols
  /\ Forall2
       (fun item row => forall col,
          if str_in col cols
          then exists x, row !! col = Some x /\ R item col x
          else row !! col = None)
       items (rows df).

(** The cell the reconciliation leaves under [col] for a dict: the date
    column is converted, the score column is read as a number, and every
    column is filled as the dict given to [fillna] says. *)
Definition reconciled_cell (rt : Runtime) (date_conv : cell -> cell) (date_col : string)
    (fills : list (string * pyval))
    (item : gmap string pyval) (col : string) (x : cell) : Prop :=
  if String.eqb col date_col then
    x = fill_all fills col (date_conv (raw_cell item col))
  else if String.eqb col "sentiment_score" then
    exists y, to_numeric_cell rt (raw_cell item col) = Ok y /\ x = fill_all fills col y
  else x = fill_all fills col (raw_cell item col).

(** The body of the first [try] of [close_spider] after the frame is
    built, up to the insertion: the frame it registers as [sec_temp]. *)
Definition conform_sec (rt : Runtime) (df : frame) : result frame :=
  let df := ensure_columns sec_columns df in
  df <~ select sec_columns df ;;
  let df := map_column (to_datetime_cell rt) "filing_date" df in
  let df := map_column date_cell "filing_date" df in
  df <~ convert_column (to_numeric_cell rt) "sentiment_score" df ;;
  Ok (fillna sec_fill df).

Definition reconcile_sec (rt : Runtime) (sec_items : list (gmap string pyval))
    : result frame :=
  conform_sec rt (DataFrame sec_items).

(** The same for the second [try]: the frame registered as [news_temp]. *)
Definition conform_news (rt : Runtime) (df : frame) : result frame :=
  let df := ensure_columns news_columns df in
  df <~ select news_columns df ;;
  let df := map_column (to_datetime_cell rt) "published" df in
  df <~ convert_column (to_numeric_cell rt) "sentiment_score" df ;;
  Ok (fillna news_fill df).

Definition reconcile_news (rt : Runtime) (news_items : list (gmap string pyval))
    : result frame :=
  conform_news rt (DataFrame news_items).

(** ["form" in item]. *)
Definition is_filing (item : gmap string pyval) : bool :=
  bool_decide (is_Some (item !! "form")).

(** The loop of [DuckDBPipeline.close_spider] that separates the filings
    from the news. *)
Definition separate (items : list (gmap string pyval))
    : list (gmap string pyval) * list (gmap string pyval) :=
  fold_left
    (fun acc item =>
       if is_filing item then (acc.1 ++ [item], acc.2) else (acc.1, acc.2 ++ [item]))
    items ([], []).

(** The rows of a frame by position, as [INSERT INTO t SELECT * FROM df]
    reads them. *)
Definition positional (df : frame) : list (list cell) :=
  (fun r => (fun col => default CNA (r !! col)) <$> columns df) <$> rows df.

(** A frame as a reader sees it: the labels and the rows by position
    (nothing for a frame that could not be built). *)
Definition frame_table (r : result frame) : list string * list (list cell) :=
  match r with
  | Ok df => (columns df, positional df)
  | Raise _ => ([], [])
  end.

(** The two tables of [warehouse.duckdb]. *)
Record warehouse := {
  sec_filings : list (list cell);
  news : list (list cell);
}.

(** The block [if sec_items: try: ... except: ...] of
    [DuckDBPipeline.close_spider]: the frame is built and inserted, or the
    exception is logged and the table is left as it was.  [accepts] tells
    whether the engine carries out the insertion of a frame or raises. *)
Definition insert_sec (rt : Runtime) (accepts : frame -> bool)
    (db : warehouse) (sec_items : list (gmap string pyval)) : warehouse :=
  match sec_items with
  | [] => db
  | _ =>
      match reconcile_sec rt sec_items with
      | Ok df =>
          if accepts df
          then {| sec_filings := sec_filings db ++ positional df; news := news db |}
          else db
      | Raise _ => db
      end
  end.

(** The block [if news_items: try: ... except: ...]. *)
Definition insert_news (rt : Runtime) (accepts : frame -> bool)
    (db : warehouse) (news_items : list (gmap string pyval)) : warehouse :=
  match news_items with
  | [] => db
  | _ =>
      match reconcile_news rt news_items with
      | Ok df =>
          if accepts df
          then {| sec_filings := sec_filings db; news := news db ++ positional df |}
          else db
      | Raise _ => db
      end
  end.

(** [DuckDBPipeline.close_spider(spider)] on the items collected by
    [process_item]. *)
Definition close_spider (rt : Runtime) (accepts : frame -> bool)
    (db : warehouse) (items : list (gmap string pyval)) : warehouse :=
  match items with
  | [] => db
  | _ =>
      let '(sec_items, news_items) := separate items in
      insert_news rt accepts (insert_sec rt accepts db sec_items) news_items
  end.

(** The second write of [ParquetPipeline.close_spider]: the file of the
    news, when there are news and [to_parquet] succeeds.  [writes] tells
    whether [to_parquet] succeeds on a frame. *)
Definition news_file (writes : frame -> bool) (ts : string)
    (news_items : list (gmap string pyval)) : list (string * frame) :=
  match news_items with
  | [] => []
  | _ =>
      if writes (DataFrame news_items)
      then [ (("news_" ++ ts ++ ".parquet")%string, DataFrame news_items) ]
      else []
  end.

(** [ParquetPipeline.close_spider(spider)]: the files it creates in the
    lake, by name.  [ts] is the UTC time of the call as text.  Both writes
    stand in one [try]: when the first raises, the second is not
    attempted. *)
Definition archive (writes : frame -> bool) (ts : string)
    (items : list (gmap string pyval)) : list (string * frame) :=
  match items with
  | [] => []
  | _ =>
      let sec_items := List.filter is_filing items in
      let news_items := List.filter (fun item => negb (is_filing item)) items in
      match sec_items with
      | [] => news_file writes ts news_items
      | _ =>
          if writes (DataFrame sec_items)
          then (("sec_filings_" ++ ts ++ ".parquet")%string, DataFrame sec_items)
                 :: news_file writes ts news_items
          else []
      end
  end.

End Persist.

(* ===================================================================== *)
(** ** One run: the three pipelines in the order of [ITEM_PIPELINES]      *)
(* ===================================================================== *)

Module Pipeline.
#[local] Open Scope list_scope.

(** What the pipelines hold while the spider runs. *)
Record state := {
  duckdb_items : list (gmap string pyval);    (* [DuckDBPipeline.items] *)
  parquet_items : list (gmap string pyval);   (* [ParquetPipeline.items] *)
  api_calls : list string;
}.

Definition initial : state :=
  {| duckdb_items := []; parquet_items := []; api_calls := [] |}.

(** One item through [OpenAIPipeline] (200), [DuckDBPipeline] (300) and
    [ParquetPipeline] (400): each of the last two appends
    [dict(ItemAdapter(item))].  An item on which the first raises is
    dropped by the engine and reaches neither. *)
Definition process_item (rt : Runtime) (api_key : option string)
    (api : string -> Enrich.api_outcome) (st : state) (item : gmap string pyval)
    : state :=
  let p := Enrich.process_item rt api_key api item in
  match Enrich.returned p with
  | Ok item' =>
      {| duckdb_items := duckdb_items st ++ [item'];
         parquet_items := parquet_items st ++ [item'];
         api_calls := api_calls st ++ Enrich.calls p |}
  | Raise _ =>
      {| duckdb_items := duckdb_items st;
         parquet_items := parquet_items st;
         api_calls := api_calls st ++ Enrich.calls p |}
  end.

(** All the items of a run, in the order the spider yields them. *)
Definition run (rt : Runtime) (api_key : option string)
    (api : string -> Enrich.api_outcome) (items : list (gmap string pyval)) : state :=
  fold_left (process_item rt api_key api) items initial.

End Pipeline.


(* ===================================================================== *)
(** ** Texts as tokens and numbers, the news spider, the dashboard        *)
(* ===================================================================== *)

Module Text.

(** No character of the text is a blank. *)
Fixpoint no_space (s : string) : bool :=
  match s with
  | EmptyString => true
  | String c s' => negb (is_space c) && no_space s'
  end.

(** A token: a non-empty text without a blank. *)
Definition is_token (s : string) : Prop := s <> "" /\ no_space s = true.

(** The number a text of decimal digits denotes ([int(s)] on such a
    text); nothing for the empty text or another character. *)
Fixpoint decimal_from (acc : Z) (s : string) : option Z :=
  match s with
  | EmptyString => Some acc
  | String c s' =>
      if is_digit c
      then decimal_from (10 * acc + (Z.of_nat (nat_of_ascii c) - 48)) s'
      else None
  end.

Definition decimal_value (s : string) : option Z :=
  match s with
  | EmptyString => None
  | _ => decimal_from 0 s
  end.

End Text.

Module TextSpec.

(** The whitespace-delimited tokens of a text, in the words of the
    specification: the maximal runs of characters that are not blanks, in
    order.  The text is read from its end: a character that is not a blank
    starts a token when a blank or the end follows it, and otherwise
    extends the token that follows it. *)
Fixpoint tokens (s : string) : list string :=
  match s with
  | EmptyString => []
  | String c s' =>
      if is_space c then tokens s'
      else
        match s' with
        | EmptyString => [String c EmptyString]
        | String c' _ =>
            if is_space c' then String c EmptyString :: tokens s'
            else
              match tokens s' with
              | w :: ws => String c w :: ws
              | [] => [String c EmptyString]
              end
        end
  end.

(** [t] is [text] truncated to its first [n] whitespace-delimited tokens:
    its tokens are the first [n] tokens of [text], and it consists of them
    with one blank between two of them. *)
Definition truncated_to (n : nat) (text t : string) : Prop :=
  tokens t = take n (tokens text) /\ t = join " " (tokens t).

(** The article text of a candidate whose page gave the body [body]
    ([None] when the content container is absent). *)
Definition article_text_is (body : option string) (t : string) : Prop :=
  match body with
  | None => t = ""
  | Some text => truncated_to 2000 text t
  end.

End TextSpec.

Module NewsSpider.

(** [YahooNewsRSSSpider.__init__(ticker=None)]: the ticker it keeps, or
    the [ValueError] it raises. *)
Definition spider_init (tk : option string) : result string :=
  if Resolver.given tk then Ok (upper (default "" tk))
  else Raise "ValueError".

End NewsSpider.

Module Dashboard.

(** The tickers [load_ticker_list] adds to those of the warehouse, and
    returns alone when the query fails. *)
Definition default_tickers : list string :=
  [ "AAPL"; "MSFT"; "NVDA"; "AMZN"; "GOOGL" ].

(** [load_ticker_list()].  [queried] is the list
    [df["t"].dropna().astype(str).tolist()] of the tickers the warehouse
    holds, or the exception raised on the way to it. *)
Definition load_ticker_list (queried : result (list string)) : list string :=
  match queried with
  | Ok items => merge_sort String.le (remove_dups (items ++ default_tickers)%list)
  | Raise _ => default_tickers
  end.

End Dashboard.
(* ===================================================================== *)
(** ** Concrete inputs                                                    *)
(* ===================================================================== *)

Module Sample.

(** The text of a non-empty run of decimal digits as a number. *)
Fixpoint digits_value (acc : Z) (s : string) : option Z :=
  match s with
  | EmptyString => Some acc
  | String c s' =>
      let n := nat_of_ascii c in
      if ((48 <=? n) && (n <=? 57))%nat
      then digits_value (10 * acc + Z.of_nat (n - 48)) s'
      else None
  end.

Definition plain_number (s : string) : option Z :=
  match s with
  | EmptyString => None
  | _ => digits_value 0 s
  end.

(** A runtime that reads the plain decimal numbers and the two dates of
    the samples below; it is used to run the pipeline on concrete inputs. *)
Definition runtime : Runtime :=
  {| float_of_str := fun s => FFin ∘ inject_Z <$> plain_number s;
     int_of_str := plain_number;
     repr_of := fun _ => "<object>";
     numeric_of := fun v =>
       match v with
       | VInt z => Ok (FFin (inject_Z z))
       | VBool b => Ok (if b then f1 else f0)
       | VStr s => Ok (default FNaN (FFin ∘ inject_Z <$> plain_number s))
       | _ => Raise "TypeError"
       end;
     datetime_of := fun v =>
       match v with
       | VInt ns => Some ns
       | VStr "2024-11-01" => Some 1730419200000000000
       | VStr "2024-11-04T14:00:00+00:00" => Some 1730728800000000000
       | _ => None
       end;
     item_has_attr := fun name => Scrapy.str_in name [ "fields"; "keys"; "values"; "items"; "get"; "copy" ] |}.

(** Two entries of the reference table. *)
Definition companies : list Resolver.company :=
  [ {| Resolver.cik_str := 789019; Resolver.ticker := "MSFT";
       Resolver.title := "MICROSOFT CORP" |};
    {| Resolver.cik_str := 320193; Resolver.ticker := "AAPL";
       Resolver.title := "Apple Inc." |} ].

(** An index document that lists one "10-K" and one "4". *)
Definition index : Filings.index_response :=
  {| Filings.idx_status := 200;
     Filings.idx_json :=
       Ok {| Filings.sub_cik := VStr "320193";
             Filings.sub_name := VStr "Apple Inc.";
             Filings.sub_recent :=
               Some {| Filings.form := [ "10-K"; "4" ];
                       Filings.filingDate := [ "2024-11-01"; "2024-11-04" ];
                       Filings.accessionNumber :=
                         [ "0000320193-24-000123"; "0000320193-24-000124" ];
                       Filings.primaryDocument := [ "aapl-10k.htm"; "form4.xml" ] |} |} |}.

(** A downloader that answers every report request with the same page. *)
Definition download_report (req : Scrapy.request) : option Filings.fetched :=
  Some {| Filings.fetched_status := 200;
          Filings.fetched_text := Ok "Annual report for the fiscal year";
          Filings.fetched_extra_meta := {[ "depth" := VInt 1 ]} |}.

(** Two feed entries: one with a summary and a date, one with neither. *)
Definition feed : list News.feed_entry :=
  [ {| News.e_title := "Apple unveils new chips";
       News.e_link := "https://finance.yahoo.com/news/apple-chips.html";
       News.e_published := Some "Mon, 04 Nov 2024 14:00:00 +0000";
       News.e_published_iso := Ok "2024-11-04T14:00:00+00:00";
       News.e_summary := Some "Apple announced new chips." |};
    {| News.e_title := "Markets wrap";
       News.e_link := "https://finance.yahoo.com/news/markets-wrap.html";
       News.e_published := None;
       News.e_published_iso := Raise "AttributeError";
       News.e_summary := None |} ].

(** A downloader that finds the article body on the first page only. *)
Definition download_article (req : Scrapy.request) : option News.fetched :=
  Some {| News.fetched_body :=
            if String.eqb (Scrapy.req_url req)
                 "https://finance.yahoo.com/news/apple-chips.html"
            then Some "Apple   unveiled
 new chips today"
            else None;
          News.fetched_extra_meta := {[ "depth" := VInt 1 ]} |}.

(** The FilingCandidate of the sample index, as the spider emits it. *)
Definition filing_items : list (gmap string pyval) :=
  Filings.crawl runtime "AAPL" download_report index.

(** An archive and an engine that never fail. *)
Definition always (df : Persist.frame) : bool := true.

(** The NewsCandidates of the sample feed; the second has no article body
    and no feed summary. *)
Definition news_items : list (gmap string pyval) :=
  News.crawl "AAPL" download_article feed.

Definition markets_wrap : gmap string pyval :=
  default ∅ (news_items !! 1%nat).

Definition filing : gmap string pyval :=
  default ∅ (filing_items !! 0%nat).

(** A filing whose report is a stub of three characters. *)
Definition stub_filing : gmap string pyval :=
  <["report_text" := VStr "N/A"]> filing.

(** Replies of the analysis service: a complete one, one without the
    sentiment keys, one with a score of 5, one with a null label. *)
Definition reply_complete (excerpt : string) : Enrich.api_outcome :=
  Enrich.Decoded (VDict (<["summary" := VStr "Apple reports its year."]>
                        (<["sentiment" := VStr "Positive"]>
                        (<["sentiment_score" := VFloat (FFin (1 # 2))]> ∅)))).

Definition reply_summary_only (excerpt : string) : Enrich.api_outcome :=
  Enrich.Decoded (VDict (<["summary" := VStr "Apple reports its year."]> ∅)).

Definition reply_score_5 (excerpt : string) : Enrich.api_outcome :=
  Enrich.Decoded (VDict (<["summary" := VStr "Apple reports its year."]>
                        (<["sentiment" := VStr "Positive"]>
                        (<["sentiment_score" := VInt 5]> ∅)))).

Definition reply_null_label (excerpt : string) : Enrich.api_outcome :=
  Enrich.Decoded (VDict (<["summary" := VStr "Apple reports its year."]>
                        (<["sentiment" := VNone]>
                        (<["sentiment_score" := VFloat (FFin (1 # 2))]> ∅)))).

Definition reply_timeout (excerpt : string) : Enrich.api_outcome :=
  Enrich.TransportError.

Definition api_key : option string := Some "sk-test".

End Sample.


Module MoreSamples.

(** A submissions document without a ["cik"] key that lists one "10-K". *)
Definition index_without_cik : Filings.index_response :=
  {| Filings.idx_status := 200;
     Filings.idx_json :=
       Ok {| Filings.sub_cik := VNone;
             Filings.sub_name := VStr "Apple Inc.";
             Filings.sub_recent :=
               Some {| Filings.form := [ "10-K" ];
                       Filings.filingDate := [ "2024-11-01" ];
                       Filings.accessionNumber := [ "0000320193-24-000123" ];
                       Filings.primaryDocument := [ "aapl-10k.htm" ] |} |} |}.

(** The no-break space (U+00A0), a blank for [str.split()] and
    [str.strip()]. *)
Definition nbsp : string := String (ascii_of_nat 160) EmptyString.

(** A filing whose report text is 8 letters followed by two no-break
    spaces: 10 characters, 8 once stripped. *)
Definition padded_text : string := "abcdefgh" ++ nbsp ++ nbsp.

Definition padded_stub : gmap string pyval :=
  <["report_text" := VStr padded_text]> Sample.filing.

(** A report page whose text has no-break spaces between its first
    words. *)
Definition nbsp_text : string :=
  "Annual" ++ nbsp ++ "report" ++ nbsp ++ "for the fiscal year".

Definition nbsp_report : Filings.report_response :=
  {| Filings.rep_status := 200;
     Filings.rep_text := Ok nbsp_text;
     Filings.rep_meta := {[ "form" := VStr "10-K" ]} |}.

Definition nbsp_article : News.article_response :=
  {| News.art_body := Some nbsp_text;
     News.art_meta := {[ "title" := VStr "Annual report" ]} |}.

(** A text of [n] words, each followed by a no-break space and a blank. *)
Fixpoint words_text (n : nat) : string :=
  match n with
  | O => EmptyString
  | S k => "chip" ++ nbsp ++ " " ++ words_text k
  end.

(** A feed of one entry and a downloader that finds an article body of
    2001 words on its page. *)
Definition long_feed : list News.feed_entry :=
  [ {| News.e_title := "Chips, chips, chips";
       News.e_link := "https://finance.yahoo.com/news/chips.html";
       News.e_published := None;
       News.e_published_iso := Raise "AttributeError";
       News.e_summary := Some "A long read." |} ].

Definition download_long (req : Scrapy.request) : option News.fetched :=
  Some {| News.fetched_body := Some (words_text 2001);
          News.fetched_extra_meta := ∅ |}.

End MoreSamples.
(* ===================================================================== *)
(** ** Properties of the resolver                                         *)
(* ===================================================================== *)

Section ResolverFacts.
Import Resolver.

Lemma digit_char_is_digit (d : Z) : 0 <= d < 10 -> is_digit (digit_char d) = true.
Proof.
  intros Hd.
  assert (Hcases : d = 0 \/ d = 1 \/ d = 2 \/ d = 3 \/ d = 4 \/ d = 5 \/ d = 6
                   \/ d = 7 \/ d = 8 \/ d = 9) by lia.
  repeat (destruct Hcases as [-> | Hcases]; [reflexivity |]).
  subst d. reflexivity.
Qed.

(** [++] on texts is kept folded by the library; its two equations. *)
Lemma append_cons (c : ascii) (s t : string) :
  String c s ++ t = String c (s ++ t).
Proof. reflexivity. Qed.

Lemma all_digits_app (s t : string) :
  all_digits (s ++ t) = all_digits s && all_digits t.
Proof.
  induction s as [| c s IH]; [reflexivity |].
  rewrite append_cons. cbn [all_digits]. rewrite IH. apply andb_assoc.
Qed.

Lemma all_digits_zeros (n : nat) : all_digits (zeros n) = true.
Proof. induction n; simpl; auto. Qed.

Lemma length_zeros (n : nat) : String.length (zeros n) = n.
Proof. induction n; simpl; auto. Qed.

Lemma string_length_app (s t : string) :
  String.length (s ++ t) = (String.length s + String.length t)%nat.
Proof.
  induction s as [| c s IH]; [reflexivity |].
  rewrite append_cons. cbn [String.length]. rewrite IH. reflexivity.
Qed.

Lemma digits_onto_step (fuel : nat) (n : Z) (acc : string) :
  digits_onto (S fuel) n acc
  = if n <? 10 then String (digit_char (n mod 10)) acc
    else digits_onto fuel (n / 10) (String (digit_char (n mod 10)) acc).
Proof. reflexivity. Qed.

(** The digits written by [digits_onto] are digits, and a number below
    [10 ^ k] takes at most [k] of them. *)
Lemma digits_onto_all_digits (fuel : nat) :
  forall n acc, 0 <= n -> all_digits acc = true ->
    all_digits (digits_onto fuel n acc) = true.
Proof.
  induction fuel as [| fuel IH]; intros n acc Hn Hacc; [exact Hacc |].
  rewrite digits_onto_step.
  assert (Hd : all_digits (String (digit_char (n mod 10)) acc) = true).
  { cbn [all_digits]. rewrite Hacc, digit_char_is_digit; [reflexivity |].
    apply Z.mod_pos_bound. lia. }
  destruct (n <? 10); [exact Hd |].
  apply IH; [apply Z.div_pos; lia | exact Hd].
Qed.

Lemma digits_onto_length (fuel : nat) :
  forall n acc (k : nat), 0 <= n < 10 ^ Z.of_nat (S k) ->
    (String.length (digits_onto fuel n acc) <= S k + String.length acc)%nat.
Proof.
  induction fuel as [| fuel IH]; intros n acc k Hn; [cbn [digits_onto]; lia |].
  rewrite digits_onto_step.
  destruct (n <? 10) eqn:Hlt; [cbn [String.length]; lia |].
  apply Z.ltb_ge in Hlt.
  rewrite Nat2Z.inj_succ, Z.pow_succ_r in Hn by lia.
  destruct k as [| k]; [change (10 ^ Z.of_nat 0) with 1 in Hn; lia |].
  assert (Hk : 0 <= n / 10 < 10 ^ Z.of_nat (S k)).
  { split; [apply Z.div_pos; lia |].
    apply Z.div_lt_upper_bound; lia. }
  specialize (IH (n / 10) (String (digit_char (n mod 10)) acc) k Hk).
  cbn [String.length] in IH. lia.
Qed.

Lemma digit_not_sign (c : ascii) :
  is_digit c = true -> Ascii.eqb c "+" || Ascii.eqb c "-" = false.
Proof.
  destruct c as [[] [] [] [] [] [] [] []]; try discriminate; reflexivity.
Qed.

Lemma string_app_empty_r (s : string) : s ++ "" = s.
Proof.
  induction s as [| c s IH]; [reflexivity |].
  rewrite append_cons, IH. reflexivity.
Qed.

(** On a text of digits that is not too long, [zfill] puts the missing
    zeros in front. *)
Lemma zfill_digits (width : nat) (s : string) :
  all_digits s = true -> (String.length s <= width)%nat ->
  zfill width s = zeros (width - String.length s) ++ s.
Proof.
  intros Hs Hlen. unfold zfill.
  destruct (width <=? String.length s)%nat eqn:Hle.
  - apply Nat.leb_le in Hle.
    replace (width - String.length s)%nat with 0%nat by lia. reflexivity.
  - destruct s as [| c rest]; simpl.
    + rewrite Nat.sub_0_r. symmetry. apply string_app_empty_r.
    + simpl in Hs. apply andb_prop in Hs as [Hc _].
      rewrite (digit_not_sign c Hc). reflexivity.
Qed.

(** [str(n)] for a number in the range of a ten-digit identifier. *)
Lemma str_of_int_digits (n : Z) :
  0 <= n < 10 ^ 10 ->
  all_digits (str_of_int n) = true /\ (String.length (str_of_int n) <= 10)%nat.
Proof.
  intros Hn. unfold str_of_int.
  destruct (n <? 0) eqn:Hneg; [apply Z.ltb_lt in Hneg; lia |].
  split.
  - apply digits_onto_all_digits; [lia | reflexivity].
  - pose proof (digits_onto_length (S (Z.to_nat (Z.log2 n))) n "" 9) as H.
    cbn [String.length] in H. rewrite Nat.add_0_r in H. apply H.
    change (Z.of_nat 10) with 10. exact Hn.
Qed.

(** The loop compares upper-cased tickers only. *)
Lemma search_ticker_upper (companies : list company) (t1 t2 : string) :
  upper t1 = upper t2 -> search_ticker companies t1 = search_ticker companies t2.
Proof.
  intros Heq. induction companies as [| c rest IH]; simpl; [reflexivity |].
  rewrite Heq, IH. reflexivity.
Qed.

(** A ticker of the table is found, at the first entry that carries it. *)
Lemma search_ticker_found (companies : list company) (tk : string) :
  (exists c, c ∈ companies /\ upper (ticker c) = upper tk) ->
  exists c, c ∈ companies /\ upper (ticker c) = upper tk
            /\ search_ticker companies tk = Some (zfill 10 (str_of_int (cik_str c))).
Proof.
  induction companies as [| c0 rest IH]; intros [c [Hin Hc]].
  - inversion Hin.
  - simpl. destruct (String.eqb (upper (ticker c0)) (upper tk)) eqn:Heq.
    + apply String.eqb_eq in Heq. exists c0. split; [left |]. auto.
    + apply String.eqb_neq in Heq.
      apply elem_of_cons in Hin as [-> | Hin]; [contradiction |].
      destruct IH as [c' [Hin' [Hc' Hfound]]]; [eauto |].
      exists c'. split; [right; exact Hin' |]. auto.
Qed.

(** C8. Resolution of a ticker does not depend on its case: two spellings
    with the same upper-case form, such as ["aapl"] and ["AAPL"], resolve
    alike on any table (it is a function of the table and the ticker); and
    a ticker present in the table resolves to the identifier of an entry
    that carries it, written with zeros on the left: for an identifier in
    the ten-digit range the result is exactly 10 digits long. *)
Theorem to_cik_case_insensitive_padded
    (companies : list company) (tk : string)
    (Hpresent : exists c, c ∈ companies /\ upper (ticker c) = upper tk) :
  (forall tk', upper tk' = upper tk ->
     to_cik (Ok companies) tk' = to_cik (Ok companies) tk)
  /\ to_cik (Ok companies) "aapl" = to_cik (Ok companies) "AAPL"
  /\ exists c, c ∈ companies /\ upper (ticker c) = upper tk
       /\ to_cik (Ok companies) tk = Some (zfill 10 (str_of_int (cik_str c)))
       /\ (0 <= cik_str c < 10 ^ 10 ->
           zfill 10 (str_of_int (cik_str c))
             = zeros (10 - String.length (str_of_int (cik_str c)))
                 ++ str_of_int (cik_str c)
           /\ String.length (zfill 10 (str_of_int (cik_str c))) = 10%nat
           /\ all_digits (zfill 10 (str_of_int (cik_str c))) = true).
Proof.
  split; [| split].
  - intros tk' Heq. simpl. apply search_ticker_upper. exact Heq.
  - simpl. apply search_ticker_upper. reflexivity.
  - destruct (search_ticker_found companies tk Hpresent) as [c [Hin [Hc Hfound]]].
    exists c. split; [exact Hin |]. split; [exact Hc |]. split; [exact Hfound |].
    intros Hrange. destruct (str_of_int_digits _ Hrange) as [Hdig Hlen].
    split; [| split].
    + apply zfill_digits; assumption.
    + rewrite zfill_digits by assumption.
      rewrite string_length_app, length_zeros. lia.
    + rewrite zfill_digits by assumption.
      rewrite all_digits_app, all_digits_zeros, Hdig. reflexivity.
Qed.

Lemma to_cik_case_insensitive_padded_witness :
  (exists c, c ∈ Sample.companies /\ upper (ticker c) = upper "aapl")
  /\ to_cik (Ok Sample.companies) "aapl" = Some "0000320193"
  /\ to_cik (Ok Sample.companies) "AAPL" = Some "0000320193".
Proof.
  assert (Hpresent : exists c, c ∈ Sample.companies /\ upper (ticker c) = upper "aapl").
  { exists {| cik_str := 320193; ticker := "AAPL"; title := "Apple Inc." |}.
    split; [| reflexivity]. unfold Sample.companies. right. left. }
  split; [exact Hpresent |].
  destruct (to_cik_case_insensitive_padded Sample.companies "aapl" Hpresent)
    as [Hcase _].
  rewrite (Hcase "AAPL" eq_refl). split; reflexivity.
Defined.

End ResolverFacts.

(* ===================================================================== *)
(** ** Properties of the filing crawler                                   *)
(* ===================================================================== *)

Section FilingFacts.
Import Scrapy Filings.
Context (rt : Runtime).

Lemma str_in_relevant (fm : string) :
  str_in fm relevant_forms = true -> fm = "10-K" \/ fm = "10-Q" \/ fm = "8-K".
Proof.
  unfold str_in, relevant_forms. cbn [existsb].
  intros H. repeat (apply orb_prop in H as [H | H]);
    try (apply String.eqb_eq in H; auto); discriminate.
Qed.

(** The request built for an entry carries the entry's form. *)
Lemma report_request_form (tk : string) (cik company : pyval) (n : Z)
    (entry : string * string * string * string) :
  req_meta (report_request tk cik company n rt entry) !! "form"
  = Some (VStr entry.1.1.1).
Proof.
  destruct entry as [[[fm date] acc] pdoc]. cbn [report_request req_meta fst].
  repeat (rewrite lookup_insert_ne by discriminate).
  apply lookup_insert_eq.
Qed.

(** What the loop of [parse] yields: a request for each entry of an
    allowed form, in order, unless [int(cik)] raises at the first of them. *)
Lemma parse_entries_spec (tk : string) (cik company : pyval)
    (entries : list (string * string * string * string)) :
  parse_entries rt tk cik company entries
  = match py_int rt cik with
    | Ok n =>
        (map (report_request tk cik company n rt)
           (List.filter (fun e => str_in e.1.1.1 relevant_forms) entries),
         false)
    | Raise _ =>
        ([], existsb (fun e => str_in e.1.1.1 relevant_forms) entries)
    end.
Proof.
  induction entries as [| entry rest IH]; cbn [parse_entries List.filter existsb map].
  - destruct (py_int rt cik); reflexivity.
  - rewrite IH. destruct (str_in entry.1.1.1 relevant_forms); cbn [negb orb];
      destruct (py_int rt cik); reflexivity.
Qed.

Lemma parse_requests_relevant (tk : string) (response : index_response) :
  Forall (fun req => exists fm, req_meta req !! "form" = Some (VStr fm)
                                /\ str_in fm relevant_forms = true)
    (parse rt tk response).
Proof.
  unfold parse.
  destruct (negb (idx_status response =? 200)); [constructor |].
  destruct (idx_json response) as [data |]; [| constructor].
  destruct (sub_recent data) as [rec |]; [| constructor].
  rewrite parse_entries_spec.
  destruct (py_int rt (sub_cik data)) as [n |]; [| constructor].
  cbn [fst]. apply Forall_forall. intros req Hreq.
  apply list_elem_of_In, in_map_iff in Hreq as [entry [<- Hentry]].
  apply filter_In in Hentry as [_ Hrel].
  exists entry.1.1.1. split; [apply report_request_form | exact Hrel].
Qed.

(** [parse_report] copies the form it finds in [meta]. *)
Lemma parse_report_form (response : report_response) (fm : pyval) :
  rep_meta response !! "form" = Some fm ->
  Forall (fun item => item !! "form" = Some fm) (parse_report rt response).
Proof.
  intros Hform. unfold parse_report.
  destruct (negb (rep_status response =? 200)); [constructor |].
  destruct (rep_text response) as [text |]; [| constructor].
  destruct (String.eqb text ""); [constructor |].
  destruct (bool_decide _); [constructor |].
  constructor; [| constructor].
  rewrite lookup_insert_ne by discriminate.
  unfold restrict_keys. apply map_lookup_filter_Some. split; [exact Hform | reflexivity].
Qed.

(** C2. Every FilingCandidate emitted by a run carries one of the three
    allowed forms ("10-K", "10-Q", "8-K"), whatever the index document
    lists: the requests [parse] yields are for such entries only, and the
    number of candidates with another form is 0. *)
Theorem crawl_emits_only_relevant_forms
    (tk : string) (download : request -> option fetched) (response : index_response) :
  Forall (fun req => exists fm, req_meta req !! "form" = Some (VStr fm)
                       /\ (fm = "10-K" \/ fm = "10-Q" \/ fm = "8-K"))
    (parse rt tk response)
  /\ Forall (fun item => exists fm, item !! "form" = Some (VStr fm)
                          /\ (fm = "10-K" \/ fm = "10-Q" \/ fm = "8-K"))
       (crawl rt tk download response)
  /\ length (List.filter (fun item => negb (has_relevant_form item))
               (crawl rt tk download response)) = 0%nat.
Proof.
  pose proof (parse_requests_relevant tk response) as Hreqs.
  assert (Hitems : Forall (fun item => exists fm, item !! "form" = Some (VStr fm)
                             /\ str_in fm relevant_forms = true)
                     (crawl rt tk download response)).
  { unfold crawl. induction Hreqs as [| req reqs [fm [Hfm Hrel]] _ IH];
      cbn [flat_map]; [constructor |].
    apply Forall_app. split; [| exact IH].
    destruct (download req) as [got |]; [| constructor].
    eapply Forall_impl; [apply (parse_report_form _ (VStr fm)) |].
    - cbn [deliver rep_meta]. apply lookup_union_Some_l. exact Hfm.
    - intros item Hitem. exists fm. split; assumption. }
  split; [| split].
  - eapply Forall_impl; [exact Hreqs |].
    intros req [fm [Hfm Hrel]]. exists fm. split; [exact Hfm |].
    apply str_in_relevant. exact Hrel.
  - eapply Forall_impl; [exact Hitems |].
    intros item [fm [Hfm Hrel]]. exists fm. split; [exact Hfm |].
    apply str_in_relevant. exact Hrel.
  - induction Hitems as [| item items [fm [Hfm Hrel]] _ IH]; [reflexivity |].
    cbn [List.filter]. unfold has_relevant_form at 1. rewrite Hfm, Hrel. exact IH.
Qed.

End FilingFacts.

(** The scenario of the specification: the index lists one "10-K" and one
    "4"; only the "10-K" becomes a candidate. *)
Example crawl_sample_index :
  (fun item => item !! "form")
    <$> Filings.crawl Sample.runtime "AAPL" Sample.download_report Sample.index
  = [ Some (VStr "10-K") ].
Proof. vm_compute. reflexivity. Qed.

(* ===================================================================== *)
(** ** Truncation to a number of tokens                                   *)
(* ===================================================================== *)

Section TokenFacts.
Import Text.

Lemma append_assoc_str (a b c : string) : (a ++ b) ++ c = a ++ (b ++ c).
Proof.
  induction a as [| x a IH]; [reflexivity |].
  rewrite !append_cons, IH. reflexivity.
Qed.

Lemma no_space_app (a b : string) : no_space (a ++ b) = no_space a && no_space b.
Proof.
  induction a as [| x a IH]; [reflexivity |].
  rewrite append_cons. cbn [no_space]. rewrite IH. apply andb_assoc.
Qed.

Lemma no_space_rev_app (s acc : string) :
  no_space (String.rev_app s acc) = no_space s && no_space acc.
Proof.
  revert acc. induction s as [| c s IH]; intros acc; [reflexivity |].
  cbn [String.rev_app no_space]. rewrite IH. cbn [no_space].
  destruct (is_space c), (no_space s), (no_space acc); reflexivity.
Qed.

Lemma no_space_rev (s : string) : no_space (String.rev s) = no_space s.
Proof. unfold String.rev. rewrite no_space_rev_app. apply andb_true_r. Qed.

Lemma rev_app_nonempty (s acc : string) : acc <> "" -> String.rev_app s acc <> "".
Proof.
  revert acc. induction s as [| c s IH]; intros acc Hacc; [exact Hacc |].
  cbn [String.rev_app]. apply IH. discriminate.
Qed.

Lemma rev_nonempty (c : ascii) (s : string) : String.rev (String c s) <> "".
Proof. unfold String.rev. cbn [String.rev_app]. apply rev_app_nonempty. discriminate. Qed.

Lemma rev_app_rev_app (t cur acc : string) :
  String.rev_app (String.rev_app t cur) acc = String.rev_app cur (t ++ acc).
Proof.
  revert cur acc. induction t as [| c t IH]; intros cur acc; [reflexivity |].
  cbn [String.rev_app]. rewrite IH. reflexivity.
Qed.

(** Reading a run of non-blank characters moves them onto the run being
    read. *)
Lemma split_from_run (t cur rest : string) :
  no_space t = true ->
  split_from cur (t ++ rest) = split_from (String.rev_app t cur) rest.
Proof.
  revert cur. induction t as [| c t IH]; intros cur Ht; [reflexivity |].
  cbn [no_space] in Ht. apply andb_prop in Ht as [Hc Ht].
  rewrite append_cons. cbn [split_from String.rev_app].
  apply negb_true_iff in Hc. rewrite Hc. apply IH. exact Ht.
Qed.

(** Splitting the tokens joined by single blanks gives them back. *)
Lemma split_join (tokens : list string) :
  Forall is_token tokens -> split (join " " tokens) = tokens.
Proof.
  unfold split. induction 1 as [| t rest [Hne Hns] Hrest IH]; [reflexivity |].
  assert (Hcur : String.rev_app t "" <> "").
  { destruct t as [| c t']; [contradiction |]. apply rev_nonempty. }
  assert (Hrev : String.rev (String.rev_app t "") = t).
  { unfold String.rev. rewrite rev_app_rev_app. cbn [String.rev_app].
    apply string_app_empty_r. }
  destruct rest as [| t2 rest'].
  - cbn [join]. rewrite <- (string_app_empty_r t) at 1.
    rewrite (split_from_run t "" "" Hns). cbn [split_from].
    destruct (String.rev_app t ""); [contradiction |]. rewrite Hrev. reflexivity.
  - change (join " " (t :: t2 :: rest')) with (t ++ " " ++ join " " (t2 :: rest')).
    rewrite (split_from_run t "" _ Hns).
    change (" " ++ join " " (t2 :: rest')) with (String " " (join " " (t2 :: rest'))).
    cbn [split_from]. change (is_space " ") with true. cbv iota.
    destruct (String.rev_app t ""); [contradiction |].
    rewrite Hrev, IH. reflexivity.
Qed.

(** What [split] returns are tokens. *)
Lemma split_from_tokens (s cur : string) :
  no_space cur = true -> Forall is_token (split_from cur s).
Proof.
  revert cur. induction s as [| c s IH]; intros cur Hcur; cbn [split_from].
  - destruct cur as [| x cur']; constructor; [| constructor].
    split; [apply rev_nonempty | rewrite no_space_rev; exact Hcur].
  - destruct (is_space c) eqn:Hc.
    + destruct cur as [| x cur']; [apply IH; reflexivity |].
      constructor; [| apply IH; reflexivity].
      split; [apply rev_nonempty | rewrite no_space_rev; exact Hcur].
    + apply IH. cbn [no_space]. rewrite Hc, Hcur. reflexivity.
Qed.

Lemma split_tokens (s : string) : Forall is_token (split s).
Proof. apply split_from_tokens. reflexivity. Qed.

(** The truncated text splits into the first [n] tokens of the text. *)
Lemma split_truncate_tokens (n : nat) (text : string) :
  split (truncate_tokens n text) = take n (split text).
Proof.
  unfold truncate_tokens. apply split_join. apply Forall_take, split_tokens.
Qed.

End TokenFacts.

Section TokenSpecFacts.
Import Text TextSpec.

Lemma rev_app_append (s acc : string) :
  String.rev_app s acc = String.rev s ++ acc.
Proof.
  unfold String.rev. revert acc. induction s as [| c s IH]; intros acc; [reflexivity |].
  cbn [String.rev_app]. rewrite IH, (IH (String c "")), append_assoc_str.
  reflexivity.
Qed.

(** A run of characters that are not blanks, followed by a blank, is the
    first token. *)
Lemma tokens_run_blank (p : string) (c : ascii) (rest : string) :
  p <> "" -> no_space p = true -> is_space c = true ->
  tokens (p ++ String c rest) = p :: tokens rest.
Proof.
  intros Hne Hp Hc. induction p as [| x p IH]; [contradiction |].
  cbn [no_space] in Hp. apply andb_prop in Hp as [Hx Hp].
  apply negb_true_iff in Hx. rewrite append_cons.
  destruct p as [| y p'].
  - change ("" ++ String c rest) with (String c rest).
    cbn [tokens]. rewrite Hx, Hc. reflexivity.
  - assert (Hy : is_space y = false).
    { cbn [no_space] in Hp. apply andb_prop in Hp as [Hy _].
      apply negb_true_iff in Hy. exact Hy. }
    specialize (IH ltac:(discriminate) Hp).
    rewrite append_cons in IH |- *.
    change (tokens (String x (String y (p' ++ String c rest))))
      with (if is_space x then tokens (String y (p' ++ String c rest))
            else if is_space y
                 then String x EmptyString :: tokens (String y (p' ++ String c rest))
                 else match tokens (String y (p' ++ String c rest)) with
                      | w :: ws => String x w :: ws
                      | [] => [String x EmptyString]
                      end).
    rewrite Hx, Hy, IH. reflexivity.
Qed.

(** A run of characters that are not blanks is one token. *)
Lemma tokens_run (p : string) :
  p <> "" -> no_space p = true -> tokens p = [p].
Proof.
  intros Hne Hp. induction p as [| x p IH]; [contradiction |].
  cbn [no_space] in Hp. apply andb_prop in Hp as [Hx Hp].
  apply negb_true_iff in Hx.
  destruct p as [| y p'].
  - cbn [tokens]. rewrite Hx. reflexivity.
  - assert (Hy : is_space y = false).
    { cbn [no_space] in Hp. apply andb_prop in Hp as [Hy _].
      apply negb_true_iff in Hy. exact Hy. }
    specialize (IH ltac:(discriminate) Hp).
    change (tokens (String x (String y p')))
      with (if is_space x then tokens (String y p')
            else if is_space y
                 then String x EmptyString :: tokens (String y p')
                 else match tokens (String y p') with
                      | w :: ws => String x w :: ws
                      | [] => [String x EmptyString]
                      end).
    rewrite Hx, Hy, IH. reflexivity.
Qed.

(** [split], which reads the text from its start, finds the tokens of the
    specification. *)
Lemma split_from_is_tokens (s : string) :
  forall cur, no_space cur = true ->
    split_from cur s = tokens (String.rev cur ++ s).
Proof.
  induction s as [| c s IH]; intros cur Hcur.
  - rewrite string_app_empty_r. cbn [split_from].
    destruct cur as [| x cur']; [reflexivity |].
    symmetry. apply tokens_run; [apply rev_nonempty |].
    rewrite no_space_rev. exact Hcur.
  - cbn [split_from]. destruct (is_space c) eqn:Hc.
    + rewrite (IH "" eq_refl). change (String.rev "" ++ s) with s.
      destruct cur as [| x cur'].
      * change (String.rev "" ++ String c s) with (String c s).
        cbn [tokens]. rewrite Hc. reflexivity.
      * symmetry. apply tokens_run_blank;
          [apply rev_nonempty | rewrite no_space_rev; exact Hcur | exact Hc].
    + rewrite IH by (cbn [no_space]; rewrite Hc, Hcur; reflexivity).
      unfold String.rev at 1. cbn [String.rev_app].
      rewrite rev_app_append, append_assoc_str. reflexivity.
Qed.

Lemma split_is_tokens (s : string) : split s = tokens s.
Proof. unfold split. rewrite split_from_is_tokens by reflexivity. reflexivity. Qed.

(** What [" ".join(text.split()[:n])] computes is the text truncated to its
    first [n] tokens. *)
Lemma truncate_tokens_truncated (n : nat) (text : string) :
  truncated_to n text (truncate_tokens n text).
Proof.
  unfold truncated_to. rewrite <- !split_is_tokens, split_truncate_tokens.
  split; reflexivity.
Qed.

End TokenSpecFacts.

(* ===================================================================== *)
(** ** Properties of the news crawler                                     *)
(* ===================================================================== *)

Section NewsFacts.
Import Scrapy News.

(** [parse_rss] yields one request per entry. *)
Lemma parse_rss_length (tk : string) (entries : list feed_entry) :
  length (parse_rss tk entries) = length entries.
Proof. unfold parse_rss. apply length_map. Qed.

(** [parse_article] yields exactly one item; it keeps the allowed keys of
    [meta] and sets the article text. *)
Lemma parse_article_one (response : article_response) :
  exists item,
    parse_article response = [item]
    /\ item !! "article_text" = Some (VStr (article_text_of (art_body response)))
    /\ forall key, key <> "article_text" -> str_in key allowed = true ->
         item !! key = art_meta response !! key.
Proof.
  unfold parse_article. eexists. split; [reflexivity |]. split.
  - rewrite lookup_insert_eq. destruct (art_body response); reflexivity.
  - intros key Hne Hallowed. rewrite lookup_insert_ne by congruence.
    unfold restrict_keys.
    destruct (art_meta response !! key) as [v |] eqn:Hkey.
    + apply map_lookup_filter_Some. split; [exact Hkey | exact Hallowed].
    + apply map_lookup_filter_None. left. exact Hkey.
Qed.

(** C7. One NewsCandidate per feed entry, in feed order, whether or not
    the article body was found: when every article request is answered,
    the candidates correspond one to one to the entries; the article text
    is empty when the page has no content container and is the first 2000
    blank-separated tokens of the body otherwise; and the candidate carries
    the summary of its feed entry.  [parse_article] itself yields exactly
    one item for any response.  The last part states the article text in
    the words of the specification, without the functions of the code: its
    tokens are the first 2000 tokens of the body, with one blank between
    them. *)
Theorem news_candidate_per_entry
    (tk : string) (download : request -> option fetched) (entries : list feed_entry)
    (Hanswered : forall req, is_Some (download req)) :
  (forall response, length (parse_article response) = 1%nat)
  /\ article_text_of None = ""
  /\ length (crawl tk download entries) = length entries
  /\ Forall2
       (fun e item =>
          exists req got,
            parse_rss tk [e] = [req] /\ download req = Some got
            /\ candidate_of tk e (fetched_body got) item)
       entries (crawl tk download entries)
  /\ Forall2
       (fun e item =>
          exists req got t,
            parse_rss tk [e] = [req] /\ download req = Some got
            /\ item !! "article_text" = Some (VStr t)
            /\ TextSpec.article_text_is (fetched_body got) t)
       entries (crawl tk download entries).
Proof.
  assert (Hall : Forall2
       (fun e item =>
          exists req got,
            parse_rss tk [e] = [req] /\ download req = Some got
            /\ candidate_of tk e (fetched_body got) item)
       entries (crawl tk download entries)).
  { unfold crawl. induction entries as [| e rest IH]; [constructor |].
    cbn [parse_rss map flat_map].
    match goal with |- context [download ?r] => set (req := r) end.
    destruct (Hanswered req) as [got Hgot]. rewrite Hgot.
    destruct (parse_article_one (deliver req got)) as [item [-> [Htext Hkeep]]].
    cbn [app]. constructor; [| exact IH].
    exists req, got. split; [reflexivity |]. split; [exact Hgot |].
    unfold candidate_of. split; [exact Htext |].
    cbn [deliver art_meta] in Hkeep.
    repeat split.
    all: rewrite Hkeep by (reflexivity || discriminate).
    all: apply lookup_union_Some_l; subst req; cbn [req_meta].
    all: repeat (rewrite lookup_insert_ne by discriminate).
    all: apply lookup_insert_eq. }
  split; [intros response; reflexivity |].
  split; [reflexivity |].
  split; [symmetry; eapply Forall2_length; exact Hall |].
  split; [exact Hall |].
  eapply Forall2_impl; [exact Hall |].
  intros e item [req [got [Hreq [Hgot [Htext _]]]]].
  exists req, got, (article_text_of (fetched_body got)).
  split; [exact Hreq |]. split; [exact Hgot |]. split; [exact Htext |].
  destruct (fetched_body got) as [body |]; [| reflexivity].
  apply truncate_tokens_truncated.
Qed.

Lemma news_candidate_per_entry_witness :
  (forall req, is_Some (Sample.download_article req))
  /\ length (crawl "AAPL" Sample.download_article Sample.feed) = 2%nat
  /\ (fun item => (item !! "article_text", item !! "summary"))
       <$> crawl "AAPL" Sample.download_article Sample.feed
     = [ (Some (VStr "Apple unveiled new chips today"),
          Some (VStr "Apple announced new chips."));
         (Some (VStr ""), Some (VStr "")) ]
  /\ (forall req, is_Some (MoreSamples.download_long req))
  /\ length (TextSpec.tokens (MoreSamples.words_text 2001)) = 2001%nat
  /\ Forall2
       (fun e item =>
          exists t, item !! "article_text" = Some (VStr t)
                    /\ length (TextSpec.tokens t) = 2000%nat
                    /\ Z.of_nat (String.length t) = 9999)
       MoreSamples.long_feed
       (crawl "AAPL" MoreSamples.download_long MoreSamples.long_feed).
Proof.
  assert (Hanswered : forall req, is_Some (Sample.download_article req)).
  { intros req. unfold Sample.download_article. eexists. reflexivity. }
  assert (Hlong : forall req, is_Some (MoreSamples.download_long req)).
  { intros req. unfold MoreSamples.download_long. eexists. reflexivity. }
  split; [exact Hanswered |].
  split; [exact (proj1 (proj2 (proj2
    (news_candidate_per_entry "AAPL" Sample.download_article Sample.feed
       Hanswered)))) |].
  split; [vm_compute; reflexivity |].
  split; [exact Hlong |].
  split; [vm_compute; reflexivity |].
  eapply Forall2_impl;
    [exact (proj2 (proj2 (proj2 (proj2
       (news_candidate_per_entry "AAPL" MoreSamples.download_long
          MoreSamples.long_feed Hlong))))) |].
  intros e item [req [got [t [_ [Hgot [Htext Hspec]]]]]].
  injection Hgot as <-. cbn [fetched_body TextSpec.article_text_is] in Hspec.
  destruct Hspec as [Htokens Hjoin].
  exists t. split; [exact Htext |].
  assert (Hlen : length (TextSpec.tokens t) = 2000%nat)
    by (rewrite Htokens; vm_compute; reflexivity).
  split; [exact Hlen |].
  rewrite Hjoin, Htokens. vm_compute. reflexivity.
Defined.

End NewsFacts.

(* ===================================================================== *)
(** ** Properties of the persistence stage                                *)
(* ===================================================================== *)

Section FrameFacts.
Import Scrapy Persist.
Context (rt : Runtime).

Lemma str_in_true (name : string) (names : list string) :
  str_in name names = true <-> name ∈ names.
Proof.
  unfold str_in. rewrite existsb_exists. split.
  - intros [x [Hin Heq]]. apply String.eqb_eq in Heq. subst x.
    apply list_elem_of_In. exact Hin.
  - intros Hin. exists name. split; [apply list_elem_of_In; exact Hin |].
    apply String.eqb_refl.
Qed.

Lemma str_in_app (name : string) (l1 l2 : list string) :
  str_in name (l1 ++ l2)%list = str_in name l1 || str_in name l2.
Proof. apply existsb_app. Qed.

Lemma has_column_DataFrame (items : list (gmap string pyval)) (col : string) :
  has_column (DataFrame items) col = bool_decide (col ∈ all_keys items).
Proof.
  unfold has_column, DataFrame. cbn [columns].
  destruct (str_in col (elements (all_keys items))) eqn:Hin; symmetry.
  - apply bool_decide_eq_true. apply str_in_true in Hin.
    apply elem_of_elements in Hin. exact Hin.
  - apply bool_decide_eq_false. intros Hcol.
    apply elem_of_elements, str_in_true in Hcol. congruence.
Qed.

Lemma key_in_all_keys (items : list (gmap string pyval)) (item : gmap string pyval)
    (col : string) :
  item ∈ items -> is_Some (item !! col) -> col ∈ all_keys items.
Proof.
  intros Hitem Hcol. unfold all_keys. apply elem_of_union_list.
  exists (dom item). split.
  - apply list_elem_of_fmap. exists item. split; [reflexivity | exact Hitem].
  - apply elem_of_dom. exact Hcol.
Qed.

Lemma DataFrame_aligned (items : list (gmap string pyval)) :
  aligned (DataFrame items) items.
Proof.
  split.
  - unfold DataFrame at 2. cbn [rows].
    apply Forall2_fmap_r, Forall_Forall2_diag, Forall_forall.
    intros item Hitem col. rewrite has_column_DataFrame.
    rewrite lookup_union, lookup_fmap, lookup_gset_to_gmap. unfold raw_cell.
    destruct (item !! col) as [v |] eqn:Hv; cbn.
    + rewrite bool_decide_eq_true_2 by (eapply key_in_all_keys; eauto).
      destruct (guard (col ∈ all_keys items)); reflexivity.
    + case_bool_decide as Hcol.
      * rewrite option_guard_True by exact Hcol. reflexivity.
      * rewrite option_guard_False by exact Hcol. reflexivity.
  - intros col item Hcol Hitem. rewrite has_column_DataFrame in Hcol.
    apply bool_decide_eq_false in Hcol.
    destruct (item !! col) eqn:Hv; [| reflexivity].
    exfalso. apply Hcol. eapply key_in_all_keys; eauto.
Qed.

Lemma has_column_add_null (col c : string) (df : frame) :
  has_column (add_null_column col df) c = has_column df c || String.eqb c col.
Proof.
  unfold has_column, add_null_column. cbn [columns].
  rewrite str_in_app. unfold str_in at 2. cbn [existsb]. rewrite orb_false_r.
  reflexivity.
Qed.

Lemma add_null_column_aligned (col : string) (df : frame)
    (items : list (gmap string pyval)) :
  has_column df col = false -> aligned df items ->
  aligned (add_null_column col df) items.
Proof.
  intros Hnew [Hrows Hkeys]. split.
  - unfold add_null_column at 2. cbn [rows]. apply Forall2_fmap_r.
    apply Forall2_same_length_lookup. split; [eapply Forall2_length; eauto |].
    intros i item row Hi Hr c.
    pose proof (Forall2_lookup_lr _ _ _ _ _ _ Hrows Hi Hr c) as Hc.
    rewrite has_column_add_null.
    destruct (String.eqb c col) eqn:Heq.
    + apply String.eqb_eq in Heq. subst c. rewrite orb_true_r, lookup_insert_eq.
      unfold raw_cell. rewrite (Hkeys col item Hnew); [reflexivity |].
      eapply list_elem_of_lookup_2; eauto.
    + apply String.eqb_neq in Heq. rewrite orb_false_r.
      rewrite lookup_insert_ne by congruence. exact Hc.
  - intros c item Hc Hitem. rewrite has_column_add_null in Hc.
    apply orb_false_elim in Hc as [Hc _]. eauto.
Qed.

Lemma ensure_columns_aligned (cols : list string) :
  forall (df : frame) (items : list (gmap string pyval)),
    aligned df items ->
    aligned (ensure_columns cols df) items
    /\ forall c, has_column (ensure_columns cols df) c = has_column df c || str_in c cols.
Proof.
  unfold ensure_columns.
  induction cols as [| col cols IH]; intros df items Hdf; cbn [fold_left].
  - split; [exact Hdf |]. intros c. unfold str_in. cbn. rewrite orb_false_r. reflexivity.
  - destruct (has_column df col) eqn:Hcol.
    + destruct (IH df items Hdf) as [Hal Hcols]. split; [exact Hal |].
      intros c. rewrite Hcols. unfold str_in at 2. cbn [existsb].
      fold (str_in c cols).
      destruct (String.eqb c col) eqn:Heq; [| reflexivity].
      apply String.eqb_eq in Heq. subst c. rewrite Hcol. reflexivity.
    + destruct (IH (add_null_column col df) items
                  (add_null_column_aligned col df items Hcol Hdf)) as [Hal Hcols].
      split; [exact Hal |].
      intros c. rewrite Hcols, has_column_add_null.
      unfold str_in at 2. cbn [existsb]. fold (str_in c cols).
      rewrite orb_assoc. reflexivity.
Qed.


Lemma select_holds (cols : list string) (df : frame) (items : list (gmap string pyval)) :
  aligned df items ->
  (forall c, str_in c cols = true -> has_column df c = true) ->
  exists df', select cols df = Ok df'
              /\ holds df' items cols (fun item col x => x = raw_cell item col).
Proof.
  intros [Hrows _] Hcols. unfold select.
  assert (Hall : forallb (has_column df) cols = true).
  { apply forallb_forall. intros c Hc. apply Hcols, str_in_true, list_elem_of_In, Hc. }
  rewrite Hall. eexists. split; [reflexivity |].
  split; [reflexivity |]. cbn [rows]. apply Forall2_fmap_r.
  eapply Forall2_impl; [exact Hrows |].
  intros item row Hrow col. specialize (Hrow col).
  destruct (str_in col cols) eqn:Hin.
  - rewrite (Hcols col Hin) in Hrow. exists (raw_cell item col).
    split; [| reflexivity].
    apply map_lookup_filter_Some. split; [exact Hrow | exact Hin].
  - apply map_lookup_filter_None. right. intros x _ Hp. cbn in Hp. congruence.
Qed.

Lemma map_column_holds (f : cell -> cell) (c : string) (df : frame)
    (items : list (gmap string pyval)) (cols : list string)
    (R : gmap string pyval -> string -> cell -> Prop) :
  holds df items cols R ->
  holds (map_column f c df) items cols
    (fun item col x =>
       if String.eqb col c then exists y, R item col y /\ x = f y else R item col x).
Proof.
  intros [Hcols Hrows]. split; [exact Hcols |].
  cbn [map_column rows]. apply Forall2_fmap_r.
  eapply Forall2_impl; [exact Hrows |].
  intros item row Hrow col. specialize (Hrow col).
  destruct (String.eqb col c) eqn:Heq.
  - apply String.eqb_eq in Heq. subst c. rewrite lookup_alter_eq.
    destruct (str_in col cols).
    + destruct Hrow as [y [Hy HR]]. rewrite Hy. exists (f y).
      split; [reflexivity |]. exists y. split; [exact HR | reflexivity].
    + rewrite Hrow. reflexivity.
  - apply String.eqb_neq in Heq. rewrite lookup_alter_ne by congruence.
    exact Hrow.
Qed.

Lemma convert_rows_spec (f : cell -> result cell) (c : string) :
  forall rs rs', convert_rows f c rs = Ok rs' ->
    Forall2 (fun r r' => exists x, f (default CNA (r !! c)) = Ok x /\ r' = <[c := x]> r)
      rs rs'.
Proof.
  induction rs as [| r rest IH]; intros rs' H; cbn [convert_rows] in H.
  - injection H as <-. constructor.
  - unfold bind in H.
    destruct (f (default CNA (r !! c))) as [x |] eqn:Hx; [| discriminate].
    destruct (convert_rows f c rest) as [rest' |] eqn:Hrest; [| discriminate].
    injection H as <-. constructor; [| apply IH; reflexivity].
    exists x. split; [exact Hx | reflexivity].
Qed.

Lemma convert_column_holds (f : cell -> result cell) (c : string) (df df' : frame)
    (items : list (gmap string pyval)) (cols : list string)
    (R : gmap string pyval -> string -> cell -> Prop) :
  str_in c cols = true ->
  holds df items cols R ->
  convert_column f c df = Ok df' ->
  holds df' items cols
    (fun item col x =>
       if String.eqb col c then exists y, R item col y /\ f y = Ok x else R item col x).
Proof.
  intros Hc [Hcols Hrows] Hconv. unfold convert_column, bind in Hconv.
  destruct (convert_rows f c (rows df)) as [rs |] eqn:Hrs; [| discriminate].
  injection Hconv as <-. split; [exact Hcols |]. cbn [rows].
  apply convert_rows_spec in Hrs.
  apply Forall2_same_length_lookup. split.
  { rewrite (Forall2_length _ _ _ Hrows). eapply Forall2_length; eauto. }
  intros i item row' Hi Hr' col.
  destruct (Forall2_lookup_r _ _ _ _ _ Hrs Hr') as [row [Hr [x [Hx ->]]]].
  pose proof (Forall2_lookup_lr _ _ _ _ _ _ Hrows Hi Hr) as Hrow.
  destruct (String.eqb col c) eqn:Heq.
  - apply String.eqb_eq in Heq. subst col. rewrite Hc. rewrite lookup_insert_eq.
    exists x. split; [reflexivity |].
    specialize (Hrow c). rewrite Hc in Hrow. destruct Hrow as [y [Hy HR]].
    exists y. split; [exact HR |]. rewrite Hy in Hx. exact Hx.
  - apply String.eqb_neq in Heq. rewrite lookup_insert_ne by congruence.
    exact (Hrow col).
Qed.

Lemma fill_all_cons (c : string) (v : pyval) (rest : list (string * pyval))
    (col : string) (x : cell) :
  fill_all ((c, v) :: rest) col x
  = if String.eqb c col then fill_cell v (fill_all rest col x) else fill_all rest col x.
Proof. reflexivity. Qed.

Lemma lookup_fill_row (values : list (string * pyval)) (r : gmap string cell)
    (col : string) :
  foldr (fun cv r' => alter (fill_cell cv.2) cv.1 r') r values !! col
  = fill_all values col <$> r !! col.
Proof.
  induction values as [| [c v] rest IH].
  - cbn [foldr]. destruct (r !! col); reflexivity.
  - cbn [foldr fst snd].
    destruct (String.eqb c col) eqn:Heq.
    + apply String.eqb_eq in Heq. subst c. rewrite lookup_alter_eq, IH.
      destruct (r !! col) as [x |]; [| reflexivity].
      cbn [fmap option_fmap option_map]. rewrite fill_all_cons, String.eqb_refl.
      reflexivity.
    + pose proof Heq as Hne. apply String.eqb_neq in Hne.
      rewrite lookup_alter_ne by exact Hne. rewrite IH.
      destruct (r !! col) as [x |]; [| reflexivity].
      cbn [fmap option_fmap option_map]. rewrite fill_all_cons, Heq. reflexivity.
Qed.

Lemma fillna_holds (values : list (string * pyval)) (df : frame)
    (items : list (gmap string pyval)) (cols : list string)
    (R : gmap string pyval -> string -> cell -> Prop) :
  holds df items cols R ->
  holds (fillna values df) items cols
    (fun item col x => exists y, R item col y /\ x = fill_all values col y).
Proof.
  intros [Hcols Hrows]. split; [exact Hcols |].
  cbn [fillna rows]. apply Forall2_fmap_r.
  eapply Forall2_impl; [exact Hrows |].
  intros item row Hrow col. specialize (Hrow col).
  rewrite lookup_fill_row.
  destruct (str_in col cols).
  - destruct Hrow as [y [Hy HR]]. rewrite Hy. exists (fill_all values col y).
    split; [reflexivity |]. exists y. split; [exact HR | reflexivity].
  - rewrite Hrow. reflexivity.
Qed.

End FrameFacts.

Section ReconcileFacts.
Import Scrapy Persist.
Context (rt : Runtime).

Lemma holds_impl (df : frame) (items : list (gmap string pyval)) (cols : list string)
    (R R' : gmap string pyval -> string -> cell -> Prop) :
  (forall item col x, str_in col cols = true -> R item col x -> R' item col x) ->
  holds df items cols R -> holds df items cols R'.
Proof.
  intros Himpl [Hcols Hrows]. split; [exact Hcols |].
  eapply Forall2_impl; [exact Hrows |].
  intros item row Hrow col. specialize (Hrow col).
  destruct (str_in col cols) eqn:Hin; [| exact Hrow].
  destruct Hrow as [x [Hx HR]]. exists x. split; [exact Hx | eauto].
Qed.

Lemma reconcile_sec_holds (items : list (gmap string pyval)) (df : frame) :
  reconcile_sec rt items = Ok df ->
  holds df items sec_columns
    (reconciled_cell rt (fun c => date_cell (to_datetime_cell rt c)) "filing_date" sec_fill).
Proof.
  unfold reconcile_sec, conform_sec. intros H.
  destruct (ensure_columns_aligned sec_columns (DataFrame items) items
              (DataFrame_aligned items)) as [Hal Hcols].
  destruct (select_holds sec_columns _ items Hal) as [df0 [Hsel H0]].
  { intros c Hc. rewrite Hcols, Hc. apply orb_true_r. }
  rewrite Hsel in H. cbn [bind] in H.
  pose proof (map_column_holds date_cell "filing_date" _ _ _ _
                (map_column_holds (to_datetime_cell rt) "filing_date" _ _ _ _ H0)) as H2.
  destruct (convert_column _ _ _) as [df3 |] eqn:Hconv; [| discriminate].
  cbn [bind] in H. injection H as <-.
  pose proof (convert_column_holds _ "sentiment_score" _ _ _ sec_columns _
                eq_refl H2 Hconv) as H3.
  pose proof (fillna_holds sec_fill _ _ _ _ H3) as H4.
  eapply holds_impl; [| exact H4].
  intros item col x _ [y [Hy ->]]. unfold reconciled_cell.
  destruct (String.eqb col "filing_date") eqn:Hd.
  - apply String.eqb_eq in Hd. subst col. cbn [String.eqb Ascii.eqb Bool.eqb] in Hy.
    destruct Hy as [z [[w [-> ->]] ->]]. reflexivity.
  - destruct (String.eqb col "sentiment_score") eqn:Hs.
    + destruct Hy as [z [-> Hz]]. exists y. split; [exact Hz | reflexivity].
    + subst y. reflexivity.
Qed.

Lemma reconcile_news_holds (items : list (gmap string pyval)) (df : frame) :
  reconcile_news rt items = Ok df ->
  holds df items news_columns
    (reconciled_cell rt (to_datetime_cell rt) "published" news_fill).
Proof.
  unfold reconcile_news, conform_news. intros H.
  destruct (ensure_columns_aligned news_columns (DataFrame items) items
              (DataFrame_aligned items)) as [Hal Hcols].
  destruct (select_holds news_columns _ items Hal) as [df0 [Hsel H0]].
  { intros c Hc. rewrite Hcols, Hc. apply orb_true_r. }
  rewrite Hsel in H. cbn [bind] in H.
  pose proof (map_column_holds (to_datetime_cell rt) "published" _ _ _ _ H0) as H2.
  destruct (convert_column _ _ _) as [df3 |] eqn:Hconv; [| discriminate].
  cbn [bind] in H. injection H as <-.
  pose proof (convert_column_holds _ "sentiment_score" _ _ _ news_columns _
                eq_refl H2 Hconv) as H3.
  pose proof (fillna_holds news_fill _ _ _ _ H3) as H4.
  eapply holds_impl; [| exact H4].
  intros item col x _ [y [Hy ->]]. unfold reconciled_cell.
  destruct (String.eqb col "published") eqn:Hd.
  - apply String.eqb_eq in Hd. subst col. cbn [String.eqb Ascii.eqb Bool.eqb] in Hy.
    destruct Hy as [z [-> ->]]. reflexivity.
  - destruct (String.eqb col "sentiment_score") eqn:Hs.
    + destruct Hy as [z [-> Hz]]. exists y. split; [exact Hz | reflexivity].
    + subst y. reflexivity.
Qed.

End ReconcileFacts.

Section StoreFacts.
Import Scrapy Persist.
Context (rt : Runtime).

Lemma raw_cell_cases (item : gmap string pyval) (col : string) :
  raw_cell item col = CNA
  \/ exists v, raw_cell item col = CVal v /\ item !! col = Some v
               /\ v <> VNone /\ v <> VFloat FNaN.
Proof.
  unfold raw_cell. destruct (item !! col) as [v |]; [| left; reflexivity].
  destruct v as [| b | z | [q | neg |] | s | l | m]; cbn [cell_of];
    first [ left; reflexivity
          | right; eexists; split; [reflexivity |]; split; [reflexivity |];
            split; discriminate ].
Qed.

(** A text column of the frame: filled, and text when the candidate gave
    text or nothing. *)
Lemma text_cell_ready (fills : list (string * pyval)) (col : string) (dflt : string)
    (item : gmap string pyval) (x : cell) :
  (forall c, fill_all fills col c = fill_cell (VStr dflt) c) ->
  x = fill_all fills col (raw_cell item col) ->
  x <> CNA
  /\ (raw_cell item col = CNA -> x = CVal (VStr dflt))
  /\ (text_or_missing (item !! col) = true -> exists s, x = CVal (VStr s)).
Proof.
  intros Hfill ->. rewrite Hfill.
  destruct (raw_cell_cases item col) as [-> | [v [-> [Hv [Hnone Hnan]]]]]; cbn [fill_cell].
  - split; [discriminate |]. split; [reflexivity | eauto].
  - split; [discriminate |]. split; [discriminate |].
    rewrite Hv. intros Htext.
    destruct v as [| b | z | [q | neg |] | s | l | m]; try discriminate; try congruence.
    eauto.
Qed.

(** The score column: always a number, [0.0] when the candidate gave none. *)
Lemma score_cell_ready (item : gmap string pyval) (col : string) (y : cell) :
  to_numeric_cell rt (raw_cell item col) = Ok y ->
  (exists f, fill_cell (VFloat f0) y = CVal (VFloat f) /\ is_nan f = false)
  /\ (raw_cell item col = CNA -> fill_cell (VFloat f0) y = CVal (VFloat f0)).
Proof.
  intros Hy.
  destruct (raw_cell_cases item col) as [Hraw | [v [Hraw [_ [_ Hnan]]]]];
    rewrite Hraw in Hy.
  - cbn [to_numeric_cell] in Hy. injection Hy as <-.
    split; [| reflexivity]. exists f0. split; reflexivity.
  - split; [| rewrite Hraw; discriminate].
    assert (Hcases : y = CNA \/ exists f, y = CVal (VFloat f) /\ is_nan f = false).
    { destruct v as [| b | z | f | s | l | m]; cbn [to_numeric_cell] in Hy.
      2, 3, 5, 6, 7: unfold bind in Hy;
        destruct (numeric_of rt _) as [[q | neg |] |]; try discriminate;
        injection Hy as <-; cbn [cell_of]; eauto.
      - unfold bind in Hy. destruct (numeric_of rt _) as [[q | neg |] |];
          try discriminate; injection Hy as <-; cbn [cell_of]; eauto.
      - injection Hy as <-. right. exists f. split; [reflexivity |].
        destruct f; try reflexivity. congruence. }
    destruct Hcases as [-> | [f [-> Hf]]]; cbn [fill_cell]; eauto.
Qed.

(** The date column: a date (an instant for the news) or NULL. *)
Lemma date_cell_ready (c : cell) :
  cell_fits DATE (date_cell (to_datetime_cell rt c)) = true
  /\ cell_fits TIMESTAMP (to_datetime_cell rt c) = true.
Proof.
  destruct c as [| v | d | t]; cbn [to_datetime_cell]; try (split; reflexivity).
  destruct (datetime_of rt v); split; reflexivity.
Qed.


Lemma fill_all_filled (fills : list (string * pyval)) (col : string) (c : cell) :
  c <> CNA -> fill_all fills col c = c.
Proof.
  intros Hc. induction fills as [| [c0 v0] rest IH]; [reflexivity |].
  rewrite fill_all_cons, IH. destruct (String.eqb c0 col); [| reflexivity].
  destruct c; [contradiction | reflexivity..].
Qed.

Lemma fill_all_other (fills : list (string * pyval)) (col : string) (c : cell) :
  col ∉ fills.*1 -> fill_all fills col c = c.
Proof.
  induction fills as [| [c0 v0] rest IH]; intros Hcol; [reflexivity |].
  rewrite fill_all_cons. cbn [fmap list_fmap fst] in Hcol.
  apply not_elem_of_cons in Hcol as [Hne Hrest].
  assert (String.eqb c0 col = false) as -> by (apply String.eqb_neq; congruence).
  apply IH. exact Hrest.
Qed.

(** With one entry per column, the entry of a column is its fill value. *)
Lemma fill_all_entry (fills : list (string * pyval)) (col : string) (v : pyval) :
  NoDup fills.*1 -> (col, v) ∈ fills ->
  forall c, fill_all fills col c = fill_cell v c.
Proof.
  induction fills as [| [c0 v0] rest IH]; intros Hnd Hin c.
  - inversion Hin.
  - cbn [fmap list_fmap fst] in Hnd. apply NoDup_cons in Hnd as [Hfresh Hnd].
    rewrite fill_all_cons. apply elem_of_cons in Hin as [Heq | Hin].
    + injection Heq as <- <-. rewrite String.eqb_refl.
      rewrite fill_all_other by exact Hfresh. reflexivity.
    + assert (String.eqb c0 col = false) as ->.
      { apply String.eqb_neq. intros ->. apply Hfresh.
        apply list_elem_of_fmap. exists (col, v). split; [reflexivity | exact Hin]. }
      apply IH; assumption.
Qed.

Lemma sec_fill_nodup : NoDup sec_fill.*1.
Proof. apply (bool_decide_unpack (NoDup sec_fill.*1)). vm_compute. exact I. Qed.

Lemma news_fill_nodup : NoDup news_fill.*1.
Proof. apply (bool_decide_unpack (NoDup news_fill.*1)). vm_compute. exact I. Qed.

(** The three kinds of column of a reconciled frame. *)
Lemma text_column_ready (fills : list (string * pyval)) (col : string) (ty : sqltype)
    (dflt : string) (item : gmap string pyval) (x : cell) :
  NoDup fills.*1 ->
  text_type ty = true ->
  fill_all fills col CNA = CVal (VStr dflt) ->
  x = fill_all fills col (raw_cell item col) ->
  (forall v, (col, v) ∈ fills -> x <> CNA /\ (raw_cell item col = CNA -> x = CVal v))
  /\ ((text_type ty = true -> text_or_missing (item !! col) = true) ->
      cell_fits ty x = true).
Proof.
  intros Hnd Hty Hdflt ->. split.
  - intros v Hv. rewrite (fill_all_entry fills col v Hnd Hv).
    split; [destruct (raw_cell item col); discriminate |].
    intros ->. reflexivity.
  - intros Htext. specialize (Htext Hty).
    destruct (raw_cell_cases item col) as [-> | [v [Hraw [Hv [Hnone Hnan]]]]].
    + rewrite Hdflt. destruct ty; try discriminate; reflexivity.
    + rewrite Hraw, fill_all_filled by discriminate.
      rewrite Hv in Htext.
      destruct v as [| b | z | [q | neg |] | s | l | m];
        try discriminate; try congruence;
        destruct ty; try discriminate; reflexivity.
Qed.

Lemma score_column_ready (fills : list (string * pyval)) (col : string)
    (item : gmap string pyval) (x : cell) :
  NoDup fills.*1 ->
  (forall c, fill_all fills col c = fill_cell (VFloat f0) c) ->
  (exists y, to_numeric_cell rt (raw_cell item col) = Ok y /\ x = fill_all fills col y) ->
  (forall v, (col, v) ∈ fills -> x <> CNA /\ (raw_cell item col = CNA -> x = CVal v))
  /\ cell_fits DOUBLE x = true.
Proof.
  intros Hnd Hfill [y [Hy ->]]. rewrite Hfill.
  destruct (score_cell_ready item col y Hy) as [[f [Hf Hnan]] Hdflt]. split.
  - intros v Hv.
    pose proof (fill_all_entry fills col v Hnd Hv CNA) as Hv0.
    rewrite Hfill in Hv0. injection Hv0 as <-.
    rewrite Hf. split; [discriminate |]. intros Hraw. rewrite <- Hf. auto.
  - rewrite Hf. cbn [cell_fits]. rewrite Hnan. reflexivity.
Qed.

Lemma date_column_ready (fills : list (string * pyval)) (col : string) (ty : sqltype)
    (item : gmap string pyval) (x c : cell) :
  NoDup fills.*1 ->
  (forall c', fill_all fills col c' = c') ->
  cell_fits ty c = true ->
  x = fill_all fills col c ->
  (forall v, (col, v) ∈ fills -> x <> CNA /\ (raw_cell item col = CNA -> x = CVal v))
  /\ cell_fits ty x = true.
Proof.
  intros Hnd Hfill Hfits ->. rewrite Hfill. split; [| exact Hfits].
  intros v Hv. pose proof (fill_all_entry fills col v Hnd Hv CNA) as Hv0.
  rewrite Hfill in Hv0. discriminate.
Qed.

(** Reduces the tests on the name of a concrete column. *)
Ltac column_case H :=
  match type of H with
  | if ?b then _ else _ =>
      let b' := eval vm_compute in b in change b with b' in H; cbv iota in H
  end.

Lemma reconcile_sec_ready (items : list (gmap string pyval)) (df : frame) :
  reconcile_sec rt items = Ok df ->
  store_ready sec_filings_schema sec_fill items df.
Proof.
  intros Hrec. destruct (reconcile_sec_holds rt items df Hrec) as [Hcols Hrows].
  split; [exact Hcols |].
  eapply Forall2_impl; [exact Hrows |].
  intros item row Hrow col ty Hin. specialize (Hrow col).
  unfold sec_filings_schema in Hin.
  repeat (apply elem_of_cons in Hin as [Hin | Hin]);
    [injection Hin as -> -> .. | inversion Hin];
    column_case Hrow; destruct Hrow as [x [Hx HR]];
    unfold reconciled_cell in HR; column_case HR; try column_case HR;
    exists x; (split; [exact Hx |]).
  all: first
    [ eapply text_column_ready;
        [apply sec_fill_nodup | reflexivity | reflexivity | exact HR]
    | destruct (score_column_ready sec_fill "sentiment_score" item x sec_fill_nodup
                  (fun c => eq_refl) HR) as [Hfill Hfits];
        split; [exact Hfill | intros _; exact Hfits]
    | destruct (date_column_ready sec_fill "filing_date" DATE item x
                  (date_cell (to_datetime_cell rt (raw_cell item "filing_date")))
                  sec_fill_nodup (fun c => eq_refl)
                  (proj1 (date_cell_ready (raw_cell item "filing_date"))) HR)
        as [Hfill Hfits];
        split; [exact Hfill | intros _; exact Hfits] ].
Qed.

Lemma reconcile_news_ready (items : list (gmap string pyval)) (df : frame) :
  reconcile_news rt items = Ok df ->
  store_ready news_schema news_fill items df.
Proof.
  intros Hrec. destruct (reconcile_news_holds rt items df Hrec) as [Hcols Hrows].
  split; [exact Hcols |].
  eapply Forall2_impl; [exact Hrows |].
  intros item row Hrow col ty Hin. specialize (Hrow col).
  unfold news_schema in Hin.
  repeat (apply elem_of_cons in Hin as [Hin | Hin]);
    [injection Hin as -> -> .. | inversion Hin];
    column_case Hrow; destruct Hrow as [x [Hx HR]];
    unfold reconciled_cell in HR; column_case HR; try column_case HR;
    exists x; (split; [exact Hx |]).
  all: first
    [ eapply text_column_ready;
        [apply news_fill_nodup | reflexivity | reflexivity | exact HR]
    | destruct (score_column_ready news_fill "sentiment_score" item x news_fill_nodup
                  (fun c => eq_refl) HR) as [Hfill Hfits];
        split; [exact Hfill | intros _; exact Hfits]
    | destruct (date_column_ready news_fill "published" TIMESTAMP item x
                  (to_datetime_cell rt (raw_cell item "published"))
                  news_fill_nodup (fun c => eq_refl)
                  (proj2 (date_cell_ready (raw_cell item "published"))) HR)
        as [Hfill Hfits];
        split; [exact Hfill | intros _; exact Hfits] ].
Qed.

End StoreFacts.

Section CloseSpiderFacts.
Import Scrapy Persist.
#[local] Open Scope list_scope.
Context (rt : Runtime).

Lemma positional_width (df : frame) :
  Forall (fun r => length r = length (columns df)) (positional df).
Proof.
  unfold positional. apply Forall_fmap, Forall_forall. intros r _.
  cbn. apply length_fmap.
Qed.

(** The loop of the store and the two comprehensions of the archive
    separate the items alike. *)
Lemma separate_filter (items : list (gmap string pyval)) :
  separate items
  = (List.filter is_filing items, List.filter (fun item => negb (is_filing item)) items).
Proof.
  unfold separate.
  enough (Hgen : forall acc,
    fold_left
      (fun acc item =>
         if is_filing item then (acc.1 ++ [item], acc.2) else (acc.1, acc.2 ++ [item]))
      items acc
    = (acc.1 ++ List.filter is_filing items,
       acc.2 ++ List.filter (fun item => negb (is_filing item)) items)).
  { rewrite Hgen. reflexivity. }
  induction items as [| item rest IH]; intros [a b]; cbn [fold_left List.filter fst snd].
  - rewrite !app_nil_r. reflexivity.
  - rewrite IH. destruct (is_filing item); cbn [negb fst snd];
      rewrite <- ?app_assoc; reflexivity.
Qed.

Lemma insert_sec_keeps_news (accepts : frame -> bool) (db : warehouse)
    (sec_items : list (gmap string pyval)) :
  news (insert_sec rt accepts db sec_items) = news db.
Proof.
  unfold insert_sec. destruct sec_items; [reflexivity |].
  destruct (reconcile_sec rt _) as [df |]; [| reflexivity].
  destruct (accepts df); reflexivity.
Qed.

Lemma insert_news_keeps_sec (accepts : frame -> bool) (db : warehouse)
    (news_items : list (gmap string pyval)) :
  sec_filings (insert_news rt accepts db news_items) = sec_filings db.
Proof.
  unfold insert_news. destruct news_items; [reflexivity |].
  destruct (reconcile_news rt _) as [df |]; [| reflexivity].
  destruct (accepts df); reflexivity.
Qed.

(** What one block adds to its table: nothing, or the rows of a frame that
    is ready for the table. *)
Lemma insert_sec_rows (accepts : frame -> bool) (db : warehouse)
    (sec_items : list (gmap string pyval)) :
  sec_filings (insert_sec rt accepts db sec_items) = sec_filings db
  \/ exists df,
       reconcile_sec rt sec_items = Ok df
       /\ sec_filings (insert_sec rt accepts db sec_items)
          = sec_filings db ++ positional df
       /\ store_ready sec_filings_schema sec_fill sec_items df
       /\ Forall (fun r => length r = length sec_filings_schema) (positional df).
Proof.
  unfold insert_sec. destruct sec_items as [| s0 rest]; [left; reflexivity |].
  destruct (reconcile_sec rt (s0 :: rest)) as [df |] eqn:Hdf; [| left; reflexivity].
  destruct (accepts df); [| left; reflexivity].
  right. exists df. pose proof (reconcile_sec_ready rt _ _ Hdf) as Hready.
  split; [reflexivity |]. split; [reflexivity |]. split; [exact Hready |].
  destruct Hready as [Hcols _]. pose proof (positional_width df) as Hw.
  rewrite Hcols, length_fmap in Hw. exact Hw.
Qed.

Lemma insert_news_rows (accepts : frame -> bool) (db : warehouse)
    (news_items : list (gmap string pyval)) :
  news (insert_news rt accepts db news_items) = news db
  \/ exists df,
       reconcile_news rt news_items = Ok df
       /\ news (insert_news rt accepts db news_items) = news db ++ positional df
       /\ store_ready news_schema news_fill news_items df
       /\ Forall (fun r => length r = length news_schema) (positional df).
Proof.
  unfold insert_news. destruct news_items as [| n0 rest]; [left; reflexivity |].
  destruct (reconcile_news rt (n0 :: rest)) as [df |] eqn:Hdf; [| left; reflexivity].
  destruct (accepts df); [| left; reflexivity].
  right. exists df. pose proof (reconcile_news_ready rt _ _ Hdf) as Hready.
  split; [reflexivity |]. split; [reflexivity |]. split; [exact Hready |].
  destruct Hready as [Hcols _]. pose proof (positional_width df) as Hw.
  rewrite Hcols, length_fmap in Hw. exact Hw.
Qed.

(** C5. Every row [close_spider] writes to a table comes from a frame that
    is ready for the table: its columns are those of the table's schema, in
    the schema's order; every row has a cell under each of them; a column
    with a fill value is never null and holds that value (the empty text,
    "Unknown" or 0.0) when the candidate omitted the column or gave a null;
    the score is always a number, the date a date or NULL, and a text
    column holds text whenever the candidate gave text or nothing.  A kind
    whose frame cannot be built or inserted writes no row. *)
Theorem stored_rows_complete
    (accepts : frame -> bool) (db : warehouse) (items : list (gmap string pyval)) :
  (sec_filings (close_spider rt accepts db items) = sec_filings db
   \/ exists df,
        reconcile_sec rt (separate items).1 = Ok df
        /\ sec_filings (close_spider rt accepts db items)
           = (sec_filings db ++ positional df)%list
        /\ store_ready sec_filings_schema sec_fill (separate items).1 df
        /\ Forall (fun r => length r = length sec_filings_schema) (positional df))
  /\ (news (close_spider rt accepts db items) = news db
      \/ exists df,
           reconcile_news rt (separate items).2 = Ok df
           /\ news (close_spider rt accepts db items) = (news db ++ positional df)%list
           /\ store_ready news_schema news_fill (separate items).2 df
           /\ Forall (fun r => length r = length news_schema) (positional df)).
Proof.
  assert (Hsec := insert_sec_rows accepts db (separate items).1).
  assert (Hnews := insert_news_rows accepts
                     (insert_sec rt accepts db (separate items).1) (separate items).2).
  unfold close_spider.
  destruct items as [| item0 rest]; [split; left; reflexivity |].
  destruct (separate (item0 :: rest)) as [sec_items news_items].
  cbn [fst snd] in *.
  rewrite insert_news_keeps_sec. rewrite insert_sec_keeps_news in Hnews.
  split; assumption.
Qed.

End CloseSpiderFacts.

Section ArchiveFacts.
Import Scrapy Persist.
#[local] Open Scope list_scope.
Context (rt : Runtime).

(** Both pipelines collect the items the enrichment stage returns, in the
    same order. *)
Lemma run_collects_alike (api_key : option string)
    (api : string -> Enrich.api_outcome) (items : list (gmap string pyval)) :
  Pipeline.parquet_items (Pipeline.run rt api_key api items)
  = Pipeline.duckdb_items (Pipeline.run rt api_key api items).
Proof.
  unfold Pipeline.run.
  enough (Hgen : forall st,
            Pipeline.parquet_items st = Pipeline.duckdb_items st ->
            Pipeline.parquet_items (fold_left (Pipeline.process_item rt api_key api) items st)
            = Pipeline.duckdb_items (fold_left (Pipeline.process_item rt api_key api) items st)).
  { apply Hgen. reflexivity. }
  induction items as [| item rest IH]; intros st Hst; cbn [fold_left]; [exact Hst |].
  apply IH. unfold Pipeline.process_item.
  destruct (Enrich.returned _); cbn [Pipeline.parquet_items Pipeline.duckdb_items];
    rewrite Hst; reflexivity.
Qed.

(** The files of the archive: the raw frame of the filings, then the raw
    frame of the news. *)
Lemma archive_files (writes : frame -> bool) (ts : string)
    (items : list (gmap string pyval)) (name : string) (df : frame) :
  (name, df) ∈ archive writes ts items ->
  (name = ("sec_filings_" ++ ts ++ ".parquet")%string
   /\ df = DataFrame (List.filter is_filing items))
  \/ (name = ("news_" ++ ts ++ ".parquet")%string
      /\ df = DataFrame (List.filter (fun item => negb (is_filing item)) items)).
Proof.
  assert (Hnews : forall news_items,
            (name, df) ∈ news_file writes ts news_items ->
            name = ("news_" ++ ts ++ ".parquet")%string /\ df = DataFrame news_items).
  { intros news_items Hin. unfold news_file in Hin.
    destruct news_items as [| n0 rest]; [inversion Hin |].
    destruct (writes (DataFrame (n0 :: rest))); [| inversion Hin].
    apply list_elem_of_singleton in Hin. injection Hin as -> ->. split; reflexivity. }
  unfold archive. destruct items as [| item0 rest]; [intros H; inversion H |].
  destruct (List.filter is_filing (item0 :: rest)) as [| s0 sec_rest].
  - intros Hin. right. apply Hnews. exact Hin.
  - destruct (writes (DataFrame (s0 :: sec_rest))); [| intros H; inversion H].
    intros Hin. apply elem_of_cons in Hin as [Heq | Hin].
    + left. injection Heq as -> ->. split; reflexivity.
    + right. apply Hnews. exact Hin.
Qed.

(** C6, as the code has it.  For every run and each kind, the archive file
    holds the raw frame of the kind's records: the records the store
    receives, separated the same way and in the same order, one row each,
    with the candidates' own columns and values (null where a candidate
    lacks a key).  The batch inserted into the store is the reconciliation
    of that raw frame; the archived frame itself is not reconciled. *)
Theorem archive_holds_raw_batch
    (api_key : option string) (api : string -> Enrich.api_outcome)
    (emitted : list (gmap string pyval)) (writes : frame -> bool) (ts : string) :
  Pipeline.parquet_items (Pipeline.run rt api_key api emitted)
  = Pipeline.duckdb_items (Pipeline.run rt api_key api emitted)
  /\ forall items name df,
       (name, df) ∈ archive writes ts items ->
       (name = ("sec_filings_" ++ ts ++ ".parquet")%string
        /\ df = DataFrame (separate items).1
        /\ aligned df (separate items).1
        /\ reconcile_sec rt (separate items).1 = conform_sec rt df)
       \/ (name = ("news_" ++ ts ++ ".parquet")%string
           /\ df = DataFrame (separate items).2
           /\ aligned df (separate items).2
           /\ reconcile_news rt (separate items).2 = conform_news rt df).
Proof.
  split; [apply run_collects_alike |].
  intros items name df Hin. rewrite separate_filter. cbn [fst snd].
  apply archive_files in Hin as [[-> ->] | [-> ->]]; [left | right].
  all: split; [reflexivity |]; split; [reflexivity |];
       split; [apply DataFrame_aligned | reflexivity].
Qed.

End ArchiveFacts.

(** The sample filing, not enriched, as [close_spider] writes it to an
    empty warehouse: twelve cells, the enrichment columns filled. *)
Example close_spider_sample :
  Persist.sec_filings
    (Persist.close_spider Sample.runtime Sample.always
       {| Persist.sec_filings := []; Persist.news := [] |} Sample.filing_items)
  = [ [ Persist.CVal (VStr "320193"); Persist.CVal (VStr "AAPL");
        Persist.CVal (VStr "Apple Inc."); Persist.CVal (VStr "10-K");
        Persist.CDate 20028; Persist.CVal (VStr "0000320193-24-000123");
        Persist.CVal (VStr "aapl-10k.htm");
        Persist.CVal (VStr "https://www.sec.gov/Archives/edgar/data/320193/000032019324000123/aapl-10k.htm");
        Persist.CVal (VStr "Annual report for the fiscal year");
        Persist.CVal (VStr ""); Persist.CVal (VStr "Unknown");
        Persist.CVal (VFloat f0) ] ].
Proof. vm_compute. reflexivity. Qed.

(** The archive of the sample filing and the batch the store receives for
    it: the archived frame has the nine columns the spider set, with the
    filing date as text; the store's frame has the twelve columns of the
    table, the date converted and the three enrichment columns filled. *)
Lemma archive_is_not_reconciled :
  (fun file => (file.1, Persist.frame_table (Ok file.2)))
    <$> Persist.archive Sample.always "20241104_120000" Sample.filing_items
  = [ ("sec_filings_20241104_120000.parquet",
       ([ "company_name"; "cik"; "accession_no"; "form"; "filing_date";
          "report_url"; "report_text"; "ticker"; "primary_doc" ],
        [ [ Persist.CVal (VStr "Apple Inc."); Persist.CVal (VStr "320193");
            Persist.CVal (VStr "0000320193-24-000123"); Persist.CVal (VStr "10-K");
            Persist.CVal (VStr "2024-11-01");
            Persist.CVal (VStr "https://www.sec.gov/Archives/edgar/data/320193/000032019324000123/aapl-10k.htm");
            Persist.CVal (VStr "Annual report for the fiscal year");
            Persist.CVal (VStr "AAPL"); Persist.CVal (VStr "aapl-10k.htm") ] ])) ]
  /\ Persist.frame_table (Persist.reconcile_sec Sample.runtime Sample.filing_items)
     = (Persist.sec_columns,
        [ [ Persist.CVal (VStr "320193"); Persist.CVal (VStr "AAPL");
            Persist.CVal (VStr "Apple Inc."); Persist.CVal (VStr "10-K");
            Persist.CDate 20028; Persist.CVal (VStr "0000320193-24-000123");
            Persist.CVal (VStr "aapl-10k.htm");
            Persist.CVal (VStr "https://www.sec.gov/Archives/edgar/data/320193/000032019324000123/aapl-10k.htm");
            Persist.CVal (VStr "Annual report for the fiscal year");
            Persist.CVal (VStr ""); Persist.CVal (VStr "Unknown");
            Persist.CVal (VFloat f0) ] ])
  /\ (snd <$> Persist.archive Sample.always "20241104_120000" Sample.filing_items)
     = [ Persist.DataFrame Sample.filing_items ]
  /\ Persist.frame_table (Ok (Persist.DataFrame Sample.filing_items))
     <> Persist.frame_table (Persist.reconcile_sec Sample.runtime Sample.filing_items).
Proof.
  split; [vm_compute; reflexivity |]. split; [vm_compute; reflexivity |].
  split; [reflexivity |]. vm_compute. discriminate.
Qed.

(* ===================================================================== *)
(** ** Properties of the enrichment stage                                 *)
(* ===================================================================== *)

Section EnrichFacts.
Import Scrapy Enrich.
Context (rt : Runtime).

(** The fields of the fallback. *)
Lemma fallback_fields (item : gmap string pyval) :
  fallback item !! "summary_ai" = Some (VStr "Error in analysis.")
  /\ fallback item !! "sentiment" = Some (VStr "Unknown")
  /\ fallback item !! "sentiment_score" = Some (VFloat f0)
  /\ forall key, key <> "summary_ai" -> key <> "sentiment" -> key <> "sentiment_score" ->
       fallback item !! key = item !! key.
Proof.
  unfold fallback. repeat split.
  - rewrite !lookup_insert_ne by discriminate. apply lookup_insert_eq.
  - rewrite lookup_insert_ne by discriminate. apply lookup_insert_eq.
  - apply lookup_insert_eq.
  - intros key H1 H2 H3. rewrite !lookup_insert_ne by congruence. reflexivity.
Qed.

(** The [except] branch overwrites what the [try] body had assigned. *)
Lemma fallback_overwrites (item : gmap string pyval) (x y : pyval) :
  fallback (<["sentiment" := y]> (<["summary_ai" := x]> item)) = fallback item.
Proof.
  apply map_eq. intros key. unfold fallback.
  rewrite !lookup_insert. repeat case_decide; congruence.
Qed.

(** The item after the [try] / [except] of [process_item]. *)
Lemma apply_analysis_failed (item : gmap string pyval) (reply : api_outcome) :
  analysis_failed rt reply = true -> apply_analysis rt item reply = fallback item.
Proof.
  unfold analysis_failed, apply_analysis.
  destruct reply as [| | [| b | z | f | s | l | analysis]]; try reflexivity.
  destruct (py_float rt _); [discriminate |].
  intros _. apply fallback_overwrites.
Qed.

Lemma apply_analysis_ok (item : gmap string pyval) (analysis : gmap string pyval)
    (score : pyfloat) :
  py_float rt (dict_get_or analysis "sentiment_score" (VFloat f0)) = Ok score ->
  apply_analysis rt item (Decoded (VDict analysis))
  = <["sentiment_score" := VFloat score]>
      (<["sentiment" := dict_get_or analysis "sentiment" (VStr "Unknown")]>
         (<["summary_ai" := dict_get_or analysis "summary" (VStr "")]> item)).
Proof. intros H. cbn [apply_analysis]. rewrite H. reflexivity. Qed.

(** When [process_item] calls the service: a key is configured, the text
    selected is at least 10 characters long once stripped, its first 1000
    characters are sent, and the item returned is the one the [try] /
    [except] produces. *)
Lemma process_item_call (api_key : option string) (api : string -> api_outcome)
    (item : gmap string pyval) (excerpt : string) :
  calls (process_item rt api_key api item) = [excerpt] ->
  no_api_key api_key = false
  /\ (exists s, text_content rt item = VStr s /\ (10 <= String.length (strip s))%nat
                /\ excerpt = str_take 1000 s)
  /\ returned (process_item rt api_key api item)
     = Ok (apply_analysis rt item (api excerpt)).
Proof.
  unfold process_item. destruct (no_api_key api_key); [discriminate |].
  destruct (truthy (text_content rt item)); cbn [negb]; [| discriminate].
  destruct (text_content rt item) as [| b | z | f | s | l | m]; try discriminate.
  destruct (String.length (strip s) <? 10)%nat eqn:Hlen; [discriminate |].
  cbn [calls returned]. intros Hcall. injection Hcall as <-.
  split; [reflexivity |]. split; [| reflexivity].
  exists s. split; [reflexivity |]. split; [| reflexivity].
  apply Nat.ltb_ge in Hlen. exact Hlen.
Qed.

(** When it does not: the item is returned as it is, unless the text
    selected is not text at all. *)
Lemma process_item_skip (api_key : option string) (api : string -> api_outcome)
    (item : gmap string pyval) :
  calls (process_item rt api_key api item) = [] ->
  returned (process_item rt api_key api item) = Ok item
  \/ returned (process_item rt api_key api item) = Raise "AttributeError".
Proof.
  unfold process_item. destruct (no_api_key api_key); [left; reflexivity |].
  destruct (truthy (text_content rt item)); cbn [negb]; [| left; reflexivity].
  destruct (text_content rt item) as [| b | z | f | s | l | m];
    try (right; reflexivity).
  destruct (String.length (strip s) <? 10)%nat; [left; reflexivity | discriminate].
Qed.


(** C1, as the code has it.  On every candidate for which the service is
    called, a transport error, a reply that is not JSON, a reply that is
    not a JSON object, or a score that [float] rejects gives the full
    fallback triple (summary "Error in analysis.", sentiment "Unknown",
    score 0.0), also when the first two fields had already been assigned.
    A reply object whose score converts is applied field by field: a
    missing key takes its own default (summary "", sentiment "Unknown",
    score 0.0) beside the fields that were returned, and the score is
    stored as returned, without a range check. *)
Theorem failed_analysis_gives_full_fallback
    (api_key : option string) (api : string -> api_outcome)
    (item : gmap string pyval) (excerpt : string)
    (Hcall : calls (process_item rt api_key api item) = [excerpt]) :
  analysis_failed rt TransportError = true
  /\ analysis_failed rt Malformed = true
  /\ exists out,
       returned (process_item rt api_key api item) = Ok out
       /\ (analysis_failed rt (api excerpt) = true ->
             out = fallback item
             /\ out !! "summary_ai" = Some (VStr "Error in analysis.")
             /\ out !! "sentiment" = Some (VStr "Unknown")
             /\ out !! "sentiment_score" = Some (VFloat f0)
             /\ in_unit_range f0 = true)
       /\ (forall analysis score,
             api excerpt = Decoded (VDict analysis) ->
             py_float rt (dict_get_or analysis "sentiment_score" (VFloat f0)) = Ok score ->
             out !! "summary_ai" = Some (dict_get_or analysis "summary" (VStr ""))
             /\ out !! "sentiment"
                = Some (dict_get_or analysis "sentiment" (VStr "Unknown"))
             /\ out !! "sentiment_score" = Some (VFloat score)).
Proof.
  split; [reflexivity |]. split; [reflexivity |].
  destruct (process_item_call api_key api item excerpt Hcall) as [_ [_ Hret]].
  exists (apply_analysis rt item (api excerpt)). split; [exact Hret |]. split.
  - intros Hfailed. rewrite (apply_analysis_failed item _ Hfailed).
    destruct (fallback_fields item) as [H1 [H2 [H3 _]]].
    repeat split; assumption || reflexivity.
  - intros analysis score -> Hscore. rewrite (apply_analysis_ok item _ _ Hscore).
    split; [| split].
    + rewrite !lookup_insert_ne by discriminate. apply lookup_insert_eq.
    + rewrite lookup_insert_ne by discriminate. apply lookup_insert_eq.
    + apply lookup_insert_eq.
Qed.

(** C3, as the code has it.  When the service is called, the item returned
    carries the three enrichment fields: the score is a float (0.0 when the
    analysis fails) and the label is "Unknown" when the analysis fails or
    the reply has no "sentiment" key; otherwise the label is what the reply
    holds under "sentiment", whatever it is.  When the service is not called (no key, or a text shorter than
    10 characters), the item is returned as it came and no field is
    attached. *)
Theorem enrichment_fields_after_call
    (api_key : option string) (api : string -> api_outcome)
    (item : gmap string pyval) :
  (forall excerpt,
     calls (process_item rt api_key api item) = [excerpt] ->
     exists out score,
       returned (process_item rt api_key api item) = Ok out
       /\ out !! "sentiment_score" = Some (VFloat score)
       /\ is_Some (out !! "sentiment")
       /\ is_Some (out !! "summary_ai")
       /\ (analysis_failed rt (api excerpt) = true ->
             score = f0 /\ out !! "sentiment" = Some (VStr "Unknown"))
       /\ (forall analysis,
             api excerpt = Decoded (VDict analysis) ->
             analysis_failed rt (api excerpt) = false ->
             out !! "sentiment"
             = Some (dict_get_or analysis "sentiment" (VStr "Unknown"))))
  /\ (calls (process_item rt api_key api item) = [] ->
      forall out, returned (process_item rt api_key api item) = Ok out -> out = item).
Proof.
  split.
  - intros excerpt Hcall.
    destruct (process_item_call api_key api item excerpt Hcall) as [_ [_ Hret]].
    exists (apply_analysis rt item (api excerpt)).
    destruct (analysis_failed rt (api excerpt)) eqn:Hfailed.
    + rewrite (apply_analysis_failed item _ Hfailed) in Hret |- *.
      destruct (fallback_fields item) as [H1 [H2 [H3 _]]].
      exists f0. rewrite H1, H2, H3.
      split; [exact Hret |]. split; [reflexivity |]. split; [eauto |].
      split; [eauto |]. split; [auto |]. discriminate.
    + unfold analysis_failed in Hfailed.
      destruct (api excerpt) as [| | [| b | z | f | s | l | analysis]];
        try discriminate.
      destruct (py_float rt _) as [score |] eqn:Hscore; [| discriminate].
      rewrite (apply_analysis_ok item _ _ Hscore) in Hret |- *. exists score.
      split; [exact Hret |]. split; [apply lookup_insert_eq |].
      split; [| split; [| split]].
      * rewrite lookup_insert_ne by discriminate. rewrite lookup_insert_eq. eauto.
      * rewrite !lookup_insert_ne by discriminate. rewrite lookup_insert_eq. eauto.
      * discriminate.
      * intros analysis' Heq _. injection Heq as <-.
        rewrite lookup_insert_ne by discriminate. apply lookup_insert_eq.
  - intros Hskip out Hout.
    destruct (process_item_skip api_key api item Hskip) as [H | H];
      rewrite H in Hout; [injection Hout as <-; reflexivity | discriminate].
Qed.

(** C10. Without an API key the stage returns the item as it is and calls
    nothing: no summary, sentiment or score field is attached, and the
    candidates reach the two persistence pipelines unchanged. *)
Theorem no_api_key_item_unchanged
    (api_key : option string) (api : string -> api_outcome)
    (Hkey : no_api_key api_key = true) :
  (forall item,
     process_item rt api_key api item = {| returned := Ok item; calls := [] |})
  /\ forall items,
       Pipeline.run rt api_key api items
       = {| Pipeline.duckdb_items := items;
            Pipeline.parquet_items := items;
            Pipeline.api_calls := [] |}.
Proof.
  assert (Hitem : forall item,
            process_item rt api_key api item = {| returned := Ok item; calls := [] |}).
  { intros item. unfold process_item. rewrite Hkey. reflexivity. }
  split; [exact Hitem |].
  intros items. unfold Pipeline.run.
  enough (Hgen : forall st,
            fold_left (Pipeline.process_item rt api_key api) items st
            = {| Pipeline.duckdb_items := (Pipeline.duckdb_items st ++ items)%list;
                 Pipeline.parquet_items := (Pipeline.parquet_items st ++ items)%list;
                 Pipeline.api_calls := Pipeline.api_calls st |}).
  { rewrite Hgen. reflexivity. }
  induction items as [| item rest IH]; intros st; cbn [fold_left].
  - rewrite !app_nil_r. destruct st; reflexivity.
  - rewrite IH. unfold Pipeline.process_item. rewrite Hitem.
    cbn [returned calls Pipeline.duckdb_items Pipeline.parquet_items Pipeline.api_calls].
    rewrite <- !app_assoc, app_nil_r. reflexivity.
Qed.

End EnrichFacts.

Section SkipFacts.
Import Scrapy Enrich Persist.
Context (rt : Runtime).

Lemma length_lstrip (s : string) : (String.length (lstrip s) <= String.length s)%nat.
Proof.
  induction s as [| c s IH]; cbn [lstrip String.length]; [lia |].
  destruct (is_space c); cbn [String.length]; lia.
Qed.

Lemma length_rstrip (s : string) : (String.length (rstrip s) <= String.length s)%nat.
Proof.
  induction s as [| c s IH]; cbn [rstrip String.length]; [lia |].
  destruct (rstrip s) as [| c' t]; [destruct (is_space c) |];
    cbn [String.length] in *; lia.
Qed.

Lemma length_strip (s : string) : (String.length (strip s) <= String.length s)%nat.
Proof.
  unfold strip. etransitivity; [apply length_rstrip | apply length_lstrip].
Qed.

(** The guard of [process_item]: a text of fewer than 10 characters once
    stripped ends the call before the service is reached. *)
Lemma process_item_short (api_key : option string) (api : string -> api_outcome)
    (item : gmap string pyval) (s : string) :
  text_content rt item = VStr s ->
  (String.length (strip s) < 10)%nat ->
  process_item rt api_key api item = {| returned := Ok item; calls := [] |}.
Proof.
  intros Htext Hshort. unfold process_item. rewrite Htext.
  destruct (no_api_key api_key); [reflexivity |].
  destruct (negb (truthy (VStr s))); [reflexivity |].
  apply Nat.ltb_lt in Hshort. rewrite Hshort. reflexivity.
Qed.

(** Past the guard: with a key, a text of 10 characters or more once
    stripped is sent, cut to its first 1000 characters, and the item
    returned is the one the [try] / [except] produces. *)
Lemma process_item_long (api_key : option string) (api : string -> api_outcome)
    (item : gmap string pyval) (s : string) :
  no_api_key api_key = false ->
  text_content rt item = VStr s ->
  (10 <= String.length (strip s))%nat ->
  process_item rt api_key api item
  = {| returned := Ok (apply_analysis rt item (api (str_take 1000 s)));
       calls := [str_take 1000 s] |}.
Proof.
  intros Hkey Htext Hlong. unfold process_item. rewrite Hkey, Htext.
  assert (Hne : String.eqb s "" = false).
  { destruct s as [| c s']; [cbn in Hlong; lia | reflexivity]. }
  cbn [truthy]. rewrite Hne. cbn [negb].
  apply Nat.ltb_ge in Hlong. rewrite Hlong. reflexivity.
Qed.

(** An extracted text that is not empty is the text selected: the report
    text of a filing, or the article text of a candidate without one. *)
Lemma text_content_report (item : gmap string pyval) (t : string) :
  item !! "report_text" = Some (VStr t) -> t <> "" ->
  text_content rt item = VStr t.
Proof.
  intros Hreport Hne. unfold text_content, dict_get. rewrite Hreport.
  apply String.eqb_neq in Hne.
  unfold py_or at 1. cbn [default from_option id truthy]. rewrite Hne. reflexivity.
Qed.

Lemma text_content_article (item : gmap string pyval) (t : string) :
  item !! "report_text" = None ->
  item !! "article_text" = Some (VStr t) -> t <> "" ->
  text_content rt item = VStr t.
Proof.
  intros Hreport Harticle Hne. unfold text_content, dict_get.
  rewrite Hreport, Harticle. apply String.eqb_neq in Hne.
  unfold py_or at 1. cbn [default from_option id truthy].
  unfold py_or at 1. cbn [truthy]. rewrite Hne. reflexivity.
Qed.

(** So a candidate whose extracted text is not empty and shorter than 10
    characters is never sent to the service. *)
Lemma short_extracted_text_skips (api_key : option string) (api : string -> api_outcome)
    (item : gmap string pyval) (t : string) :
  (item !! "report_text" = Some (VStr t)
   \/ (item !! "report_text" = None /\ item !! "article_text" = Some (VStr t))) ->
  t <> "" -> (String.length t < 10)%nat ->
  process_item rt api_key api item = {| returned := Ok item; calls := [] |}.
Proof.
  intros Hsrc Hne Hshort. apply process_item_short with (s := t).
  - destruct Hsrc as [Hreport | [Hreport Harticle]];
      [apply text_content_report | apply text_content_article]; assumption.
  - pose proof (length_strip t). lia.
Qed.

(** The row of a candidate that carries no value for a column with a fill
    value holds that value. *)
Lemma store_ready_default (schema : list (string * sqltype))
    (fills : list (string * pyval)) (items : list (gmap string pyval)) (df : frame)
    (i : nat) (item : gmap string pyval) (row : gmap string cell)
    (col : string) (ty : sqltype) (v : pyval) :
  store_ready schema fills items df ->
  items !! i = Some item -> rows df !! i = Some row ->
  (col, ty) ∈ schema -> (col, v) ∈ fills -> item !! col = None ->
  row !! col = Some (CVal v).
Proof.
  intros [_ Hrows] Hitem Hrow Hcol Hfill Hnone.
  destruct (Forall2_lookup_lr _ _ _ _ _ _ Hrows Hitem Hrow col ty Hcol)
    as [x [Hx [Hfilled _]]].
  destruct (Hfilled v Hfill) as [_ Hdflt].
  rewrite Hx, Hdflt; [reflexivity |].
  unfold raw_cell. rewrite Hnone. reflexivity.
Qed.

Ltac in_list := repeat first [apply list_elem_of_here | apply list_elem_of_further].

(** C4, as the code has it.  A candidate whose selected text (the report
    text, else the article text, else the title and the feed summary joined
    by the separator) has fewer than 10 characters once stripped is not
    enriched: no call is made and the item is returned unchanged.  An
    empty article text does not end the selection: the text is then the
    title and the summary, and when a key is configured and that text has
    10 characters or more once stripped, the service is called on its
    first 1000 characters and the item is enriched.  The defaults are not
    attached by this stage: a candidate without enrichment fields gets the
    empty summary, "Unknown" and 0.0 in its row of the store, from the
    reconciliation. *)
Theorem short_text_skips_enrichment
    (api_key : option string) (api : string -> api_outcome)
    (item : gmap string pyval) (s : string)
    (Htext : text_content rt item = VStr s)
    (Hshort : (String.length (strip s) < 10)%nat) :
  process_item rt api_key api item = {| returned := Ok item; calls := [] |}
  /\ (forall candidate,
        candidate !! "report_text" = None ->
        candidate !! "article_text" = Some (VStr "") ->
        text_content rt candidate
        = VStr (py_format rt (dict_get_or candidate "title" (VStr ""))
                  ++ title_separator
                  ++ py_format rt (dict_get_or candidate "summary" (VStr ""))))
  /\ (forall candidate joined,
        candidate !! "report_text" = None ->
        candidate !! "article_text" = Some (VStr "") ->
        joined = py_format rt (dict_get_or candidate "title" (VStr ""))
                   ++ title_separator
                   ++ py_format rt (dict_get_or candidate "summary" (VStr "")) ->
        no_api_key api_key = false ->
        (10 <= String.length (strip joined))%nat ->
        calls (process_item rt api_key api candidate) = [str_take 1000 joined]
        /\ returned (process_item rt api_key api candidate)
           = Ok (apply_analysis rt candidate (api (str_take 1000 joined))))
  /\ forall items df i row,
       reconcile_sec rt items = Ok df \/ reconcile_news rt items = Ok df ->
       items !! i = Some item -> rows df !! i = Some row ->
       item !! "summary_ai" = None -> item !! "sentiment" = None ->
       item !! "sentiment_score" = None ->
       row !! "summary_ai" = Some (CVal (VStr ""))
       /\ row !! "sentiment" = Some (CVal (VStr "Unknown"))
       /\ row !! "sentiment_score" = Some (CVal (VFloat f0)).
Proof.
  split; [exact (process_item_short api_key api item s Htext Hshort) |].
  assert (Hsel : forall candidate,
            candidate !! "report_text" = None ->
            candidate !! "article_text" = Some (VStr "") ->
            text_content rt candidate
            = VStr (py_format rt (dict_get_or candidate "title" (VStr ""))
                      ++ title_separator
                      ++ py_format rt (dict_get_or candidate "summary" (VStr "")))).
  { intros candidate Hreport Harticle. unfold text_content, dict_get.
    rewrite Hreport, Harticle. reflexivity. }
  split; [exact Hsel |].
  split.
  { intros candidate joined Hreport Harticle -> Hkey Hlong.
    rewrite (process_item_long api_key api candidate _ Hkey
               (Hsel candidate Hreport Harticle) Hlong).
    split; reflexivity. }
  intros items df i row [Hdf | Hdf] Hitem Hrow H1 H2 H3.
  - pose proof (reconcile_sec_ready rt items df Hdf) as Hready.
    split; [| split].
    + eapply (store_ready_default _ _ _ _ _ _ _ "summary_ai" TEXT); eauto;
        unfold sec_filings_schema, sec_fill; in_list.
    + eapply (store_ready_default _ _ _ _ _ _ _ "sentiment" VARCHAR); eauto;
        unfold sec_filings_schema, sec_fill; in_list.
    + eapply (store_ready_default _ _ _ _ _ _ _ "sentiment_score" DOUBLE); eauto;
        unfold sec_filings_schema, sec_fill; in_list.
  - pose proof (reconcile_news_ready rt items df Hdf) as Hready.
    split; [| split].
    + eapply (store_ready_default _ _ _ _ _ _ _ "summary_ai" TEXT); eauto;
        unfold news_schema, news_fill; in_list.
    + eapply (store_ready_default _ _ _ _ _ _ _ "sentiment" VARCHAR); eauto;
        unfold news_schema, news_fill; in_list.
    + eapply (store_ready_default _ _ _ _ _ _ _ "sentiment_score" DOUBLE); eauto;
        unfold news_schema, news_fill; in_list.
Qed.

End SkipFacts.

(** *** The enrichment stage on the samples *)

(** The text sent for the sample filing. *)
Lemma sample_filing_call :
  Enrich.calls (Enrich.process_item Sample.runtime Sample.api_key Sample.reply_timeout
                  Sample.filing)
  = [ "Annual report for the fiscal year" ].
Proof. vm_compute. reflexivity. Qed.

(** A call that times out: the stored fields are the fallback's. *)
Lemma failed_analysis_gives_full_fallback_witness :
  Enrich.calls (Enrich.process_item Sample.runtime Sample.api_key Sample.reply_timeout
                  Sample.filing)
  = [ "Annual report for the fiscal year" ]
  /\ Enrich.returned (Enrich.process_item Sample.runtime Sample.api_key
                        Sample.reply_timeout Sample.filing)
     = Ok (Enrich.fallback Sample.filing).
Proof.
  split; [exact sample_filing_call |].
  destruct (failed_analysis_gives_full_fallback Sample.runtime Sample.api_key
              Sample.reply_timeout Sample.filing _ sample_filing_call)
    as [_ [_ [out [Hret [Hfailed _]]]]].
  rewrite Hret. f_equal. apply Hfailed. reflexivity.
Defined.

(** A reply without the sentiment keys is applied in part: its summary is
    kept beside the two defaults; and a score of 5 is stored as it is. *)
Lemma missing_key_is_not_full_fallback :
  Enrich.output_field
    (Enrich.process_item Sample.runtime Sample.api_key Sample.reply_summary_only
       Sample.filing) "summary_ai"
  = Some (VStr "Apple reports its year.")
  /\ Enrich.output_field
       (Enrich.process_item Sample.runtime Sample.api_key Sample.reply_summary_only
          Sample.filing) "sentiment"
     = Some (VStr "Unknown")
  /\ Enrich.output_field
       (Enrich.process_item Sample.runtime Sample.api_key Sample.reply_summary_only
          Sample.filing) "sentiment_score"
     = Some (VFloat f0)
  /\ Enrich.output_field
       (Enrich.process_item Sample.runtime Sample.api_key Sample.reply_score_5
          Sample.filing) "sentiment_score"
     = Some (VFloat (FFin (inject_Z 5)))
  /\ in_unit_range (FFin (inject_Z 5)) = false.
Proof. repeat split; vm_compute; reflexivity. Qed.

(** Without a key, or on a stub of a report, the item returned has no
    score and no label; and a null label in the reply is stored as null. *)
Lemma skipped_item_has_no_score :
  Enrich.output_field
    (Enrich.process_item Sample.runtime None Sample.reply_complete Sample.filing)
    "sentiment_score"
  = None
  /\ Enrich.output_field
       (Enrich.process_item Sample.runtime None Sample.reply_complete Sample.filing)
       "sentiment"
     = None
  /\ Enrich.returned
       (Enrich.process_item Sample.runtime None Sample.reply_complete Sample.filing)
     = Ok Sample.filing
  /\ Enrich.output_field
       (Enrich.process_item Sample.runtime Sample.api_key Sample.reply_complete
          Sample.stub_filing) "sentiment_score"
     = None
  /\ Enrich.output_field
       (Enrich.process_item Sample.runtime Sample.api_key Sample.reply_null_label
          Sample.filing) "sentiment"
     = Some VNone.
Proof. repeat split; vm_compute; reflexivity. Qed.

Lemma enrichment_fields_after_call_witness :
  Enrich.output_field
    (Enrich.process_item Sample.runtime Sample.api_key Sample.reply_complete
       Sample.filing) "sentiment_score"
  = Some (VFloat (FFin (1 # 2)))
  /\ exists out score,
       Enrich.returned (Enrich.process_item Sample.runtime Sample.api_key
                          Sample.reply_complete Sample.filing) = Ok out
       /\ out !! "sentiment_score" = Some (VFloat score)
       /\ is_Some (out !! "sentiment")
       /\ is_Some (out !! "summary_ai").
Proof.
  split; [vm_compute; reflexivity |].
  destruct (proj1 (enrichment_fields_after_call Sample.runtime Sample.api_key
                     Sample.reply_complete Sample.filing)
              "Annual report for the fiscal year")
    as [out [score [Hret [Hscore [Hlabel [Hsummary _]]]]]].
  { vm_compute. reflexivity. }
  exists out, score. repeat split; assumption.
Defined.

(** The NewsCandidate without an article body is analysed on its title. *)
Lemma empty_article_is_still_analysed :
  Sample.markets_wrap !! "article_text" = Some (VStr "")
  /\ Enrich.calls
       (Enrich.process_item Sample.runtime Sample.api_key Sample.reply_complete
          Sample.markets_wrap)
     = [ ("Markets wrap" ++ Enrich.title_separator)%string ]
  /\ Enrich.output_field
       (Enrich.process_item Sample.runtime Sample.api_key Sample.reply_complete
          Sample.markets_wrap) "sentiment"
     = Some (VStr "Positive").
Proof. repeat split; vm_compute; reflexivity. Qed.

Lemma short_text_skips_enrichment_witness :
  Enrich.text_content Sample.runtime MoreSamples.padded_stub
  = VStr MoreSamples.padded_text
  /\ String.length MoreSamples.padded_text = 10%nat
  /\ (String.length (strip MoreSamples.padded_text) < 10)%nat
  /\ Enrich.process_item Sample.runtime Sample.api_key Sample.reply_complete
       MoreSamples.padded_stub
     = {| Enrich.returned := Ok MoreSamples.padded_stub; Enrich.calls := [] |}
  /\ Enrich.calls
       (Enrich.process_item Sample.runtime Sample.api_key Sample.reply_complete
          Sample.markets_wrap)
     = [ ("Markets wrap" ++ Enrich.title_separator)%string ]
  /\ Persist.frame_table (Persist.reconcile_sec Sample.runtime [ Sample.stub_filing ])
     = (Persist.sec_columns,
        [ [ Persist.CVal (VStr "320193"); Persist.CVal (VStr "AAPL");
            Persist.CVal (VStr "Apple Inc."); Persist.CVal (VStr "10-K");
            Persist.CDate 20028; Persist.CVal (VStr "0000320193-24-000123");
            Persist.CVal (VStr "aapl-10k.htm");
            Persist.CVal (VStr "https://www.sec.gov/Archives/edgar/data/320193/000032019324000123/aapl-10k.htm");
            Persist.CVal (VStr "N/A");
            Persist.CVal (VStr ""); Persist.CVal (VStr "Unknown");
            Persist.CVal (VFloat f0) ] ]).
Proof.
  assert (Htext : Enrich.text_content Sample.runtime MoreSamples.padded_stub
                  = VStr MoreSamples.padded_text)
    by (vm_compute; reflexivity).
  assert (Hshort : (String.length (strip MoreSamples.padded_text) < 10)%nat)
    by (vm_compute; lia).
  destruct (short_text_skips_enrichment Sample.runtime Sample.api_key
              Sample.reply_complete MoreSamples.padded_stub
              MoreSamples.padded_text Htext Hshort)
    as [Hskip [_ [Hcall _]]].
  split; [exact Htext |]. split; [vm_compute; reflexivity |].
  split; [exact Hshort |]. split; [exact Hskip |].
  split; [| vm_compute; reflexivity].
  refine (proj1 (Hcall Sample.markets_wrap
                   ("Markets wrap" ++ Enrich.title_separator)%string _ _ _ _ _)).
  - vm_compute. reflexivity.
  - vm_compute. reflexivity.
  - vm_compute. reflexivity.
  - reflexivity.
  - vm_compute. lia.
Defined.

Lemma no_api_key_item_unchanged_witness :
  Enrich.no_api_key None = true
  /\ Enrich.process_item Sample.runtime None Sample.reply_complete Sample.filing
     = {| Enrich.returned := Ok Sample.filing; Enrich.calls := [] |}
  /\ Pipeline.duckdb_items
       (Pipeline.run Sample.runtime None Sample.reply_complete Sample.filing_items)
     = Sample.filing_items.
Proof.
  split; [reflexivity |].
  destruct (no_api_key_item_unchanged Sample.runtime None Sample.reply_complete eq_refl)
    as [Hitem Hrun].
  split; [apply Hitem |]. rewrite Hrun. reflexivity.
Defined.

(* ===================================================================== *)
(** ** More on the resolver and the spiders' constructors                 *)
(* ===================================================================== *)

Section ResolverMore.
Import Resolver Text.

Lemma upper_char_idem (c : ascii) : upper_char (upper_char c) = upper_char c.
Proof. destruct c as [[] [] [] [] [] [] [] []]; reflexivity. Qed.

Lemma upper_idem (s : string) : upper (upper s) = upper s.
Proof.
  induction s as [| c s IH]; [reflexivity |].
  cbn [upper]. rewrite upper_char_idem, IH. reflexivity.
Qed.

Lemma search_ticker_none (companies : list company) (tk : string) :
  search_ticker companies tk = None
  <-> forall c, c ∈ companies -> upper (ticker c) <> upper tk.
Proof.
  induction companies as [| c0 rest IH]; cbn [search_ticker].
  - split; [intros _ c Hc; inversion Hc | reflexivity].
  - destruct (String.eqb (upper (ticker c0)) (upper tk)) eqn:Heq.
    + apply String.eqb_eq in Heq. split; [discriminate |].
      intros H. exfalso. apply (H c0); [left | exact Heq].
    + apply String.eqb_neq in Heq. rewrite IH. split.
      * intros H c Hc. apply elem_of_cons in Hc as [-> | Hc]; auto.
      * intros H c Hc. apply H. right. exact Hc.
Qed.

Lemma search_ticker_first (pre post : list company) (c : company) (tk : string) :
  (forall c', c' ∈ pre -> upper (ticker c') <> upper tk) ->
  upper (ticker c) = upper tk ->
  search_ticker (pre ++ c :: post)%list tk = Some (zfill 10 (str_of_int (cik_str c))).
Proof.
  intros Hpre Hc. induction pre as [| c0 pre IH]; cbn [app search_ticker].
  - rewrite Hc, String.eqb_refl. reflexivity.
  - assert (String.eqb (upper (ticker c0)) (upper tk) = false) as ->.
    { apply String.eqb_neq. apply Hpre. left. }
    apply IH. intros c' Hc'. apply Hpre. right. exact Hc'.
Qed.

(** X1. [to_cik] gives the identifier of the first entry of the table
    whose ticker is the one asked for, case apart, also when a later entry
    carries the same ticker; it gives [None] exactly when no entry does,
    and for every ticker when the table could not be fetched. *)
Theorem to_cik_first_match_or_none (companies : list company) (tk : string) :
  (to_cik (Ok companies) tk = None
   <-> forall c, c ∈ companies -> upper (ticker c) <> upper tk)
  /\ (forall pre c post,
        companies = (pre ++ c :: post)%list ->
        (forall c', c' ∈ pre -> upper (ticker c') <> upper tk) ->
        upper (ticker c) = upper tk ->
        to_cik (Ok companies) tk = Some (zfill 10 (str_of_int (cik_str c))))
  /\ forall exn, to_cik (Raise exn) tk = None.
Proof.
  split; [apply search_ticker_none |]. split; [| reflexivity].
  intros pre c post -> Hpre Hc. apply search_ticker_first; assumption.
Qed.

Lemma to_cik_first_match_or_none_witness :
  to_cik (Ok (Sample.companies ++ [ {| cik_str := 1; ticker := "aapl"; title := "Other" |} ])%list)
    "Aapl" = Some "0000320193"
  /\ to_cik (Ok Sample.companies) "TSLA" = None.
Proof.
  split.
  - apply (proj1 (proj2 (to_cik_first_match_or_none _ "Aapl"))
             [ {| cik_str := 789019; ticker := "MSFT"; title := "MICROSOFT CORP" |} ]
             {| cik_str := 320193; ticker := "AAPL"; title := "Apple Inc." |}
             [ {| cik_str := 1; ticker := "aapl"; title := "Other" |} ]).
    + reflexivity.
    + intros c' Hc'. apply list_elem_of_singleton in Hc'. subst c'. discriminate.
    + reflexivity.
  - apply (proj1 (to_cik_first_match_or_none Sample.companies "TSLA")).
    intros c Hc. unfold Sample.companies in Hc.
    repeat (apply elem_of_cons in Hc as [-> | Hc]); [discriminate .. | inversion Hc].
Defined.

(** *** The identifier read back as a number *)

Lemma digit_char_value (d : Z) :
  0 <= d < 10 ->
  is_digit (digit_char d) = true /\ Z.of_nat (nat_of_ascii (digit_char d)) - 48 = d.
Proof.
  intros Hd.
  assert (Hcases : d = 0 \/ d = 1 \/ d = 2 \/ d = 3 \/ d = 4 \/ d = 5 \/ d = 6
                   \/ d = 7 \/ d = 8 \/ d = 9) by lia.
  repeat (destruct Hcases as [-> | Hcases]; [split; reflexivity |]).
  subst d. split; reflexivity.
Qed.

Lemma decimal_from_digit (a d : Z) (s : string) :
  0 <= d < 10 ->
  decimal_from a (String (digit_char d) s) = decimal_from (10 * a + d) s.
Proof.
  intros Hd. destruct (digit_char_value d Hd) as [Hdig Hval].
  cbn [decimal_from]. rewrite Hdig, Hval. reflexivity.
Qed.

(** With enough fuel, [digits_onto] writes a number that reads back. *)
Lemma decimal_from_digits_onto (fuel : nat) :
  forall n acc, 0 <= n < 10 ^ Z.of_nat fuel ->
    exists k, 0 <= k /\
      forall a, decimal_from a (digits_onto fuel n acc) = decimal_from (a * 10 ^ k + n) acc.
Proof.
  induction fuel as [| fuel IH]; intros n acc Hn.
  - change (10 ^ Z.of_nat 0) with 1 in Hn. exists 0. split; [lia |].
    intros a. cbn [digits_onto]. f_equal. change (10 ^ 0) with 1. lia.
  - rewrite digits_onto_step.
    assert (Hmod : 0 <= n mod 10 < 10) by (apply Z.mod_pos_bound; lia).
    destruct (n <? 10) eqn:Hlt.
    + apply Z.ltb_lt in Hlt. exists 1. split; [lia |]. intros a.
      rewrite decimal_from_digit by exact Hmod. f_equal.
      rewrite Z.mod_small by lia. change (10 ^ 1) with 10. lia.
    + apply Z.ltb_ge in Hlt.
      rewrite Nat2Z.inj_succ, Z.pow_succ_r in Hn by lia.
      destruct (IH (n / 10) (String (digit_char (n mod 10)) acc)) as [k [Hk Hread]].
      { split; [apply Z.div_pos; lia | apply Z.div_lt_upper_bound; lia]. }
      exists (Z.succ k). split; [lia |]. intros a.
      rewrite Hread, decimal_from_digit by exact Hmod. f_equal.
      rewrite Z.pow_succ_r by exact Hk.
      pose proof (Z.div_mod n 10) as Hdm. lia.
Qed.

Lemma fuel_suffices (n : Z) :
  0 <= n -> n < 10 ^ Z.of_nat (S (Z.to_nat (Z.log2 n))).
Proof.
  intros Hn. rewrite Nat2Z.inj_succ, Z2Nat.id by apply Z.log2_nonneg.
  destruct (Z.eq_dec n 0) as [-> | Hpos]; [reflexivity |].
  destruct (Z.log2_spec n) as [_ Hlt]; [lia |].
  eapply Z.lt_le_trans; [exact Hlt |].
  apply Z.pow_le_mono_l. lia.
Qed.

Lemma decimal_from_str_of_int (n : Z) :
  0 <= n -> decimal_from 0 (str_of_int n) = Some n.
Proof.
  intros Hn. unfold str_of_int.
  assert ((n <? 0) = false) as -> by (apply Z.ltb_ge; exact Hn).
  destruct (decimal_from_digits_onto _ n "" (conj Hn (fuel_suffices n Hn)))
    as [k [_ Hread]].
  rewrite Hread. reflexivity.
Qed.

Lemma decimal_from_zeros (m : nat) (s : string) :
  decimal_from 0 (zeros m ++ s) = decimal_from 0 s.
Proof.
  induction m as [| m IH]; [reflexivity |].
  cbn [zeros]. rewrite append_cons. exact IH.
Qed.

Lemma zfill_all_digits (width : nat) (s : string) :
  all_digits s = true -> zfill width s = zeros (width - String.length s) ++ s.
Proof.
  intros Hs. destruct (Nat.le_gt_cases (String.length s) width) as [Hle | Hgt].
  - apply zfill_digits; assumption.
  - unfold zfill. assert ((width <=? String.length s)%nat = true) as ->
      by (apply Nat.leb_le; lia).
    replace (width - String.length s)%nat with 0%nat by lia. reflexivity.
Qed.

Lemma str_of_int_all_digits (n : Z) : 0 <= n -> all_digits (str_of_int n) = true.
Proof.
  intros Hn. unfold str_of_int.
  assert ((n <? 0) = false) as -> by (apply Z.ltb_ge; exact Hn).
  apply digits_onto_all_digits; [exact Hn | reflexivity].
Qed.

(** [zfill] never shortens a text and reaches the width asked for. *)
Lemma length_zfill (width : nat) (s : string) :
  String.length (zfill width s) = Nat.max width (String.length s).
Proof.
  unfold zfill. destruct (width <=? String.length s)%nat eqn:Hle.
  - apply Nat.leb_le in Hle. lia.
  - apply Nat.leb_gt in Hle. destruct s as [| c rest].
    + rewrite length_zeros. cbn [String.length]. lia.
    + destruct (Ascii.eqb c "+" || Ascii.eqb c "-");
        cbn [String.length] in *; rewrite ?append_cons; cbn [String.length];
        rewrite string_length_app, length_zeros; cbn [String.length]; lia.
Qed.

Lemma search_ticker_some (companies : list company) (tk id : string) :
  search_ticker companies tk = Some id ->
  exists c, c ∈ companies /\ upper (ticker c) = upper tk
            /\ id = zfill 10 (str_of_int (cik_str c)).
Proof.
  induction companies as [| c0 rest IH]; cbn [search_ticker]; [discriminate |].
  destruct (String.eqb (upper (ticker c0)) (upper tk)) eqn:Heq.
  - intros H. injection H as <-. apply String.eqb_eq in Heq.
    exists c0. split; [left |]. split; [exact Heq | reflexivity].
  - intros H. destruct (IH H) as [c [Hin Hc]]. exists c. split; [right; exact Hin | exact Hc].
Qed.

(** X2. The padding of [to_cik] loses nothing: the identifier it returns,
    read as a decimal number, is the [cik_str] of an entry of the table that
    carries the ticker, and it is never shorter than 10 characters. *)
Theorem to_cik_reads_back (companies : list company) (tk id : string)
    (Hfound : to_cik (Ok companies) tk = Some id)
    (Hnonneg : forall c, c ∈ companies -> 0 <= cik_str c) :
  (10 <= String.length id)%nat
  /\ exists c, c ∈ companies /\ upper (ticker c) = upper tk
               /\ decimal_value id = Some (cik_str c).
Proof.
  destruct (search_ticker_some companies tk id Hfound) as [c [Hin [Hc ->]]].
  split; [rewrite length_zfill; lia |].
  exists c. split; [exact Hin |]. split; [exact Hc |].
  pose proof (Hnonneg c Hin) as Hn.
  assert (Hlen : (10 <= String.length (zfill 10 (str_of_int (cik_str c))))%nat)
    by (rewrite length_zfill; lia).
  unfold decimal_value.
  destruct (zfill 10 (str_of_int (cik_str c))) as [| x rest] eqn:Hz;
    [cbn [String.length] in Hlen; lia |].
  rewrite <- Hz, (zfill_all_digits _ _ (str_of_int_all_digits _ Hn)).
  rewrite decimal_from_zeros. apply decimal_from_str_of_int. exact Hn.
Qed.

Lemma to_cik_reads_back_witness :
  to_cik (Ok Sample.companies) "msft" = Some "0000789019"
  /\ (forall c, c ∈ Sample.companies -> 0 <= cik_str c)
  /\ (10 <= String.length "0000789019")%nat
  /\ exists c, c ∈ Sample.companies /\ upper (ticker c) = upper "msft"
               /\ decimal_value "0000789019" = Some (cik_str c).
Proof.
  assert (Hfound : to_cik (Ok Sample.companies) "msft" = Some "0000789019")
    by reflexivity.
  assert (Hnonneg : forall c, c ∈ Sample.companies -> 0 <= cik_str c).
  { intros c Hc. unfold Sample.companies in Hc.
    repeat (apply elem_of_cons in Hc as [-> | Hc]); [cbn; lia .. | inversion Hc]. }
  split; [exact Hfound |]. split; [exact Hnonneg |].
  exact (to_cik_reads_back Sample.companies "msft" _ Hfound Hnonneg).
Defined.

Lemma spider_init_resolved (table : result (list company))
    (cik tk : option string) (sp : spider) :
  given cik = false -> spider_init table cik tk = Ok sp ->
  given tk = true /\ self_ticker sp = upper (default "" tk).
Proof.
  unfold spider_init. intros -> H.
  destruct (given tk); [| discriminate]. split; [reflexivity |].
  destruct (to_cik table _) as [found |]; [| discriminate].
  destruct (String.eqb found ""); [discriminate |].
  injection H as <-. reflexivity.
Qed.

(** X3. What [SecFilingsSpider.__init__] comes to.  It raises exactly when
    no cik is given and the ticker is missing, empty or not listed; the
    check [if not self.cik] after the lookup never fires on an identifier
    that was found.  When it succeeds, the cik it keeps has at least 10
    characters; with a cik argument the table is not consulted, and
    otherwise the ticker is kept in upper case with the identifier the
    table gives for the ticker as typed. *)
Theorem spider_init_outcomes (table : result (list company))
    (cik tk : option string) :
  match spider_init table cik tk with
  | Ok sp =>
      (10 <= String.length (self_cik sp))%nat
      /\ ((given cik = true /\ self_cik sp = zfill 10 (default "" cik)
           /\ forall table', spider_init table' cik tk = Ok sp)
          \/ (given cik = false /\ given tk = true
              /\ self_ticker sp = upper (default "" tk)
              /\ to_cik table (default "" tk) = Some (self_cik sp)))
  | Raise _ =>
      given cik = false
      /\ (given tk = false \/ to_cik table (default "" tk) = None)
  end.
Proof.
  assert (Hcase : forall t, to_cik table (upper t) = to_cik table t).
  { intros t. destruct table as [companies |]; [| reflexivity].
    apply search_ticker_upper, upper_idem. }
  unfold spider_init. destruct (given cik) eqn:Hcik.
  - split; [cbn [self_cik]; rewrite length_zfill; lia |].
    left. split; [reflexivity |]. split; reflexivity.
  - destruct (given tk) eqn:Htk; [| split; [reflexivity | left; reflexivity]].
    rewrite Hcase.
    destruct (to_cik table (default "" tk)) as [found |] eqn:Hfound;
      [| split; [reflexivity | right; reflexivity]].
    assert (Hlen : (10 <= String.length found)%nat).
    { destruct table as [companies |]; [| discriminate].
      destruct (search_ticker_some companies _ _ Hfound) as [c [_ [_ ->]]].
      rewrite length_zfill. lia. }
    destruct (String.eqb found "") eqn:Hempty.
    + apply String.eqb_eq in Hempty. subst found. cbn [String.length] in Hlen. lia.
    + split; [exact Hlen |]. right. repeat (split; [reflexivity |]). reflexivity.
Qed.

(** X4. Started without a cik on the same ticker argument, the two
    spiders keep the same ticker text, in upper case: when the filings
    spider starts, the news spider starts too, and the rows of both kinds
    carry one ticker. *)
Theorem spiders_agree_on_ticker (table : result (list company))
    (cik tk : option string) (sp : spider)
    (Hcik : given cik = false)
    (Hinit : spider_init table cik tk = Ok sp) :
  NewsSpider.spider_init tk = Ok (self_ticker sp)
  /\ upper (self_ticker sp) = self_ticker sp.
Proof.
  pose proof (spider_init_resolved table cik tk sp Hcik Hinit) as [Htk Hsp].
  unfold NewsSpider.spider_init. rewrite Htk, Hsp.
  split; [reflexivity | apply upper_idem].
Qed.

Lemma spiders_agree_on_ticker_witness :
  spider_init (Ok Sample.companies) None (Some "msft")
  = Ok {| self_ticker := "MSFT"; self_cik := "0000789019" |}
  /\ NewsSpider.spider_init (Some "msft") = Ok "MSFT".
Proof.
  assert (Hinit : spider_init (Ok Sample.companies) None (Some "msft")
                  = Ok {| self_ticker := "MSFT"; self_cik := "0000789019" |})
    by reflexivity.
  split; [exact Hinit |].
  exact (proj1 (spiders_agree_on_ticker _ None (Some "msft") _ eq_refl Hinit)).
Defined.

End ResolverMore.

(* ===================================================================== *)
(** ** More on the two spiders' callbacks                                 *)
(* ===================================================================== *)

Section CallbackFacts.
Import Scrapy Text.
Context (rt : Runtime).
#[local] Open Scope list_scope.

Lemma length_zip4 (a b c d : list string) :
  (length (Filings.zip4 a b c d)
   <= Nat.min (Nat.min (length a) (length b)) (Nat.min (length c) (length d)))%nat.
Proof.
  revert b c d. induction a as [| x a IH]; intros b c d; [cbn; lia |].
  destruct b as [| y b]; [cbn; lia |].
  destruct c as [| z c]; [cbn; lia |].
  destruct d as [| w d]; [cbn; lia |].
  cbn [Filings.zip4 length]. specialize (IH b c d). lia.
Qed.

(** X5. On a readable index whose ["cik"] reads as the number [n],
    [parse] yields one request per listed entry with an allowed form, in
    the order of the index and with nothing else between them; entries
    beyond the shortest of the four arrays are not seen. *)
Theorem parse_requests_in_index_order
    (tk : string) (response : Filings.index_response)
    (data : Filings.submissions) (rec : Filings.recent) (n : Z)
    (Hstatus : Filings.idx_status response = 200)
    (Hjson : Filings.idx_json response = Ok data)
    (Hrecent : Filings.sub_recent data = Some rec)
    (Hcik : py_int rt (Filings.sub_cik data) = Ok n) :
  Filings.parse rt tk response
  = map (Filings.report_request tk (Filings.sub_cik data) (Filings.sub_name data) n rt)
      (List.filter (fun e => str_in e.1.1.1 Filings.relevant_forms)
         (Filings.zip4 (Filings.form rec) (Filings.filingDate rec)
            (Filings.accessionNumber rec) (Filings.primaryDocument rec)))
  /\ (length (Filings.parse rt tk response)
      <= Nat.min (Nat.min (length (Filings.form rec)) (length (Filings.filingDate rec)))
           (Nat.min (length (Filings.accessionNumber rec))
              (length (Filings.primaryDocument rec))))%nat.
Proof.
  assert (Heq : Filings.parse rt tk response
    = map (Filings.report_request tk (Filings.sub_cik data) (Filings.sub_name data) n rt)
        (List.filter (fun e => str_in e.1.1.1 Filings.relevant_forms)
           (Filings.zip4 (Filings.form rec) (Filings.filingDate rec)
              (Filings.accessionNumber rec) (Filings.primaryDocument rec)))).
  { unfold Filings.parse. rewrite Hstatus, Hjson, Hrecent. cbn [Z.eqb Pos.eqb negb].
    rewrite parse_entries_spec, Hcik. reflexivity. }
  split; [exact Heq |].
  rewrite Heq, length_map.
  etransitivity; [apply filter_length_le | apply length_zip4].
Qed.

(** X6. A submissions document whose ["cik"] does not read as a number
    gives no filing at all: [int(cik)] raises at the first allowed entry
    and ends the generator, so no request is made and the run emits no
    candidate, whatever the index lists. *)
Theorem parse_needs_numeric_cik
    (tk : string) (response : Filings.index_response)
    (data : Filings.submissions) (exn : string)
    (Hjson : Filings.idx_json response = Ok data)
    (Hcik : py_int rt (Filings.sub_cik data) = Raise exn) :
  Filings.parse rt tk response = []
  /\ forall download, Filings.crawl rt tk download response = [].
Proof.
  assert (Hnone : Filings.parse rt tk response = []).
  { unfold Filings.parse. rewrite Hjson.
    destruct (negb (Filings.idx_status response =? 200)); [reflexivity |].
    destruct (Filings.sub_recent data) as [rec |]; [| reflexivity].
    rewrite parse_entries_spec, Hcik. reflexivity. }
  split; [exact Hnone |].
  intros download. unfold Filings.crawl. rewrite Hnone. reflexivity.
Qed.

(** The requests of [parse] are built by [report_request]. *)
Lemma parse_requests_shape (tk : string) (response : Filings.index_response) :
  Forall (fun req => exists cik company n entry,
            req = Filings.report_request tk cik company n rt entry)
    (Filings.parse rt tk response).
Proof.
  unfold Filings.parse.
  destruct (negb (Filings.idx_status response =? 200)); [constructor |].
  destruct (Filings.idx_json response) as [data |]; [| constructor].
  destruct (Filings.sub_recent data) as [rec |]; [| constructor].
  rewrite parse_entries_spec.
  destruct (py_int rt (Filings.sub_cik data)) as [n |]; [| constructor].
  cbn [fst]. apply Forall_forall. intros req Hreq.
  apply list_elem_of_In, in_map_iff in Hreq as [entry [<- _]].
  eauto.
Qed.

Lemma report_request_keys (tk : string) (cik company : pyval) (n : Z)
    (entry : string * string * string * string) (key : string) :
  is_Some (req_meta (Filings.report_request tk cik company n rt entry) !! key) ->
  str_in key sec_fields = true /\ key <> "report_text".
Proof.
  destruct entry as [[[fm date] acc] pdoc]. cbn [Filings.report_request req_meta].
  intros [v Hv].
  repeat (apply lookup_insert_Some in Hv as [[<- _] | [_ Hv]];
          [split; [reflexivity | discriminate] |]).
  rewrite lookup_empty in Hv. discriminate.
Qed.

Lemma report_request_url (tk : string) (cik company : pyval) (n : Z)
    (entry : string * string * string * string) :
  let req := Filings.report_request tk cik company n rt entry in
  req_meta req !! "report_url" = Some (VStr (req_url req))
  /\ req_meta req !! "ticker" = Some (VStr tk).
Proof.
  destruct entry as [[[fm date] acc] pdoc]. split; reflexivity.
Qed.

(** [parse_report] yields nothing or one item. *)
Lemma parse_report_cases (response : Filings.report_response) :
  Filings.parse_report rt response = []
  \/ exists text,
       Filings.rep_text response = Ok text
       /\ Filings.parse_report rt response
          = [ <["report_text" := VStr (truncate_tokens 4000 text)]>
                (restrict_keys sec_fields (Filings.rep_meta response)) ].
Proof.
  unfold Filings.parse_report.
  destruct (negb (Filings.rep_status response =? 200)); [left; reflexivity |].
  destruct (Filings.rep_text response) as [text |]; [| left; reflexivity].
  destruct (String.eqb text ""); [left; reflexivity |].
  destruct (bool_decide _); [left; reflexivity |].
  right. exists text. split; reflexivity.
Qed.

(** The fields [parse_report] copies from [response.meta]. *)
Lemma parse_report_copies (response : Filings.report_response) (item : gmap string pyval)
    (key : string) :
  item ∈ Filings.parse_report rt response ->
  str_in key sec_fields = true -> key <> "report_text" ->
  item !! key = Filings.rep_meta response !! key.
Proof.
  intros Hitem Hfield Hne.
  destruct (parse_report_cases response) as [Hnone | [text [_ Hone]]];
    [rewrite Hnone in Hitem; inversion Hitem |].
  rewrite Hone in Hitem. apply list_elem_of_singleton in Hitem. subst item.
  rewrite lookup_insert_ne by congruence. unfold restrict_keys.
  destruct (Filings.rep_meta response !! key) as [v |] eqn:Hkey.
  - apply map_lookup_filter_Some. split; [exact Hkey | exact Hfield].
  - apply map_lookup_filter_None. left. exact Hkey.
Qed.

(** X7. Every FilingCandidate of a run repeats the [meta] of the request
    that led to its report: each field [parse] put there reaches the item
    unchanged, whatever keys the engine adds to [response.meta] on the
    way.  In particular the item's [report_url] is the address that was
    fetched and its [ticker] is the spider's. *)
Theorem crawl_items_repeat_request_meta
    (tk : string) (download : request -> option Filings.fetched)
    (response : Filings.index_response) :
  Forall
    (fun item => exists req got,
       req ∈ Filings.parse rt tk response
       /\ download req = Some got
       /\ item ∈ Filings.parse_report rt (Filings.deliver req got)
       /\ item !! "report_url" = Some (VStr (req_url req))
       /\ item !! "ticker" = Some (VStr tk)
       /\ forall key, is_Some (req_meta req !! key) ->
            item !! key = req_meta req !! key)
    (Filings.crawl rt tk download response).
Proof.
  apply Forall_forall. intros item Hitem. unfold Filings.crawl in Hitem.
  apply list_elem_of_In, in_flat_map in Hitem as [req [Hreq Hitem]].
  apply list_elem_of_In in Hreq, Hitem.
  destruct (download req) as [got |] eqn:Hgot; [| inversion Hitem].
  pose proof (proj1 (Forall_forall _ _) (parse_requests_shape tk response) req Hreq)
    as [cik [company [n [entry Hshape]]]].
  assert (Hcopy : forall key, is_Some (req_meta req !! key) ->
                    item !! key = req_meta req !! key).
  { intros key Hkey. pose proof Hkey as Hkey'. rewrite Hshape in Hkey'.
    apply report_request_keys in Hkey' as [Hfield Hne].
    rewrite (parse_report_copies _ _ key Hitem Hfield Hne).
    cbn [Filings.deliver Filings.rep_meta]. destruct Hkey as [v Hv].
    rewrite Hv. apply lookup_union_Some_l. exact Hv. }
  destruct (report_request_url tk cik company n entry) as [Hurl Htk].
  rewrite <- Hshape in Hurl, Htk.
  exists req, got. split; [exact Hreq |]. split; [exact Hgot |].
  split; [exact Hitem |].
  split; [rewrite Hcopy; [exact Hurl | rewrite Hurl; eauto] |].
  split; [rewrite Hcopy; [exact Htk | rewrite Htk; eauto] |].
  exact Hcopy.
Qed.

Lemma parse_report_keys (response : Filings.report_response)
    (item : gmap string pyval) (key : string) :
  item ∈ Filings.parse_report rt response -> is_Some (item !! key) ->
  str_in key sec_fields = true.
Proof.
  intros Hitem [v Hv].
  destruct (parse_report_cases response) as [Hnone | [text [_ Hone]]];
    [rewrite Hnone in Hitem; inversion Hitem |].
  rewrite Hone in Hitem. apply list_elem_of_singleton in Hitem. subst item.
  apply lookup_insert_Some in Hv as [[<- _] | [_ Hv]]; [reflexivity |].
  unfold restrict_keys in Hv. apply map_lookup_filter_Some in Hv as [_ Hin].
  exact Hin.
Qed.

Lemma parse_article_keys (response : News.article_response)
    (item : gmap string pyval) (key : string) :
  item ∈ News.parse_article response -> is_Some (item !! key) ->
  str_in key News.allowed = true.
Proof.
  unfold News.parse_article. intros Hitem [v Hv].
  apply list_elem_of_singleton in Hitem. subst item.
  apply lookup_insert_Some in Hv as [[<- _] | [_ Hv]]; [reflexivity |].
  unfold restrict_keys in Hv. apply map_lookup_filter_Some in Hv as [_ Hin].
  exact Hin.
Qed.

(** X8. The items of both callbacks hold declared fields only:
    [parse_report] yields at most one item, whose keys are fields of
    [SecFilingItem], and the item of [parse_article] has the keys of
    [allowed] only, all of them fields of [NewsItem]; no other key of
    [response.meta] reaches an item. *)
Theorem callbacks_yield_declared_fields
    (report : Filings.report_response) (article : News.article_response) :
  (length (Filings.parse_report rt report) <= 1)%nat
  /\ Forall (fun item => forall key, is_Some (item !! key) -> str_in key sec_fields = true)
       (Filings.parse_report rt report)
  /\ Forall (fun item => forall key, is_Some (item !! key) ->
               str_in key News.allowed = true /\ str_in key news_fields = true)
       (News.parse_article article).
Proof.
  assert (Hallowed : forall key, str_in key News.allowed = true ->
                       str_in key news_fields = true).
  { intros key Hkey. apply str_in_true in Hkey.
    unfold News.allowed in Hkey.
    repeat (apply elem_of_cons in Hkey as [-> | Hkey]; [reflexivity |]).
    inversion Hkey. }
  split; [| split].
  - destruct (parse_report_cases report) as [-> | [text [_ ->]]];
      cbn [length]; lia.
  - apply Forall_forall. intros item Hitem key Hkey.
    exact (parse_report_keys report item key Hitem Hkey).
  - apply Forall_forall. intros item Hitem key Hkey.
    pose proof (parse_article_keys article item key Hitem Hkey) as Hin.
    split; [exact Hin | apply Hallowed, Hin].
Qed.

Lemma truncate_tokens_idem (n : nat) (text : string) :
  truncate_tokens n (truncate_tokens n text) = truncate_tokens n text.
Proof.
  unfold truncate_tokens at 1. rewrite split_truncate_tokens, take_take, Nat.min_id.
  reflexivity.
Qed.

Lemma truncate_tokens_count (n : nat) (text : string) :
  (length (split (truncate_tokens n text)) <= n)%nat.
Proof. rewrite split_truncate_tokens, length_take. lia. Qed.

(** X9. The text a candidate carries is the leading tokens of the page:
    the tokens of [report_text] are the first 4000 blank-separated tokens
    of the report's text, those of [article_text] the first 2000 of the
    article body (none when no body was found), in the same order; the
    text is in normal form, so that truncating it again changes nothing.
    The same holds of the tokens as the specification words them (the
    maximal runs of characters that are not blanks, a no-break space being
    a blank): the text is the page's truncated to that many tokens. *)
Theorem candidate_text_is_leading_tokens
    (report : Filings.report_response) (article : News.article_response) :
  Forall
    (fun item => exists text t,
       Filings.rep_text report = Ok text
       /\ item !! "report_text" = Some (VStr t)
       /\ split t = take 4000 (split text)
       /\ (length (split t) <= 4000)%nat
       /\ truncate_tokens 4000 t = t
       /\ TextSpec.truncated_to 4000 text t)
    (Filings.parse_report rt report)
  /\ Forall
       (fun item => exists t,
          item !! "article_text" = Some (VStr t)
          /\ split t = take 2000 (split (default "" (News.art_body article)))
          /\ (length (split t) <= 2000)%nat
          /\ truncate_tokens 2000 t = t
          /\ TextSpec.truncated_to 2000 (default "" (News.art_body article)) t)
       (News.parse_article article).
Proof.
  split.
  - destruct (parse_report_cases report) as [-> | [text [Htext ->]]]; [constructor |].
    constructor; [| constructor].
    exists text, (truncate_tokens 4000 text).
    split; [exact Htext |]. split; [apply lookup_insert_eq |].
    split; [apply split_truncate_tokens |].
    split; [apply truncate_tokens_count |].
    split; [apply truncate_tokens_idem | apply truncate_tokens_truncated].
  - unfold News.parse_article. constructor; [| constructor].
    exists (truncate_tokens 2000 (default "" (News.art_body article))).
    split; [apply lookup_insert_eq |].
    split; [apply split_truncate_tokens |].
    split; [apply truncate_tokens_count |].
    split; [apply truncate_tokens_idem | apply truncate_tokens_truncated].
Qed.

End CallbackFacts.

Lemma parse_requests_in_index_order_witness :
  py_int Sample.runtime (VStr "320193") = Ok 320193
  /\ (length (Filings.parse Sample.runtime "AAPL" Sample.index) <= 2)%nat.
Proof.
  split; [reflexivity |].
  exact (proj2 (parse_requests_in_index_order Sample.runtime "AAPL" Sample.index
                  _ _ 320193 eq_refl eq_refl eq_refl eq_refl)).
Defined.

Lemma parse_needs_numeric_cik_witness :
  py_int Sample.runtime VNone = Raise "TypeError"
  /\ Filings.parse Sample.runtime "AAPL" MoreSamples.index_without_cik = [].
Proof.
  split; [reflexivity |].
  exact (proj1 (parse_needs_numeric_cik Sample.runtime "AAPL"
                  MoreSamples.index_without_cik _ "TypeError" eq_refl eq_refl)).
Defined.

(** A report and an article with no-break spaces between their first
    words: six tokens, joined by single blanks in the candidate. *)
Lemma candidate_text_is_leading_tokens_witness :
  length (Filings.parse_report Sample.runtime MoreSamples.nbsp_report) = 1%nat
  /\ TextSpec.tokens MoreSamples.nbsp_text
     = [ "Annual"; "report"; "for"; "the"; "fiscal"; "year" ]
  /\ Forall
       (fun item => item !! "report_text"
                    = Some (VStr "Annual report for the fiscal year"))
       (Filings.parse_report Sample.runtime MoreSamples.nbsp_report)
  /\ Forall
       (fun item => item !! "article_text"
                    = Some (VStr "Annual report for the fiscal year"))
       (News.parse_article MoreSamples.nbsp_article).
Proof.
  destruct (candidate_text_is_leading_tokens Sample.runtime
              MoreSamples.nbsp_report MoreSamples.nbsp_article) as [Hreport Harticle].
  split; [vm_compute; reflexivity |].
  split; [vm_compute; reflexivity |].
  split.
  - eapply Forall_impl; [exact Hreport |].
    intros item [text [t [Htext [Hitem [_ [_ [_ [Htokens Hjoin]]]]]]]].
    injection Htext as <-. rewrite Hitem, Hjoin, Htokens. vm_compute. reflexivity.
  - eapply Forall_impl; [exact Harticle |].
    intros item [t [Hitem [_ [_ [_ [Htokens Hjoin]]]]]].
    rewrite Hitem, Hjoin, Htokens. vm_compute. reflexivity.
Defined.

(* ===================================================================== *)
(** ** More on the enrichment stage and on a whole run                    *)
(* ===================================================================== *)

Section RunFacts.
Import Enrich.
Context (rt : Runtime).
#[local] Open Scope list_scope.

Lemma length_str_take (n : nat) (s : string) :
  (String.length (str_take n s) <= n)%nat.
Proof.
  revert s. induction n as [| n IH]; intros s; [cbn; lia |].
  destruct s as [| c s]; cbn [str_take String.length]; [lia |].
  specialize (IH s). lia.
Qed.

Lemma apply_analysis_other (item : gmap string pyval) (reply : api_outcome)
    (key : string) :
  key <> "summary_ai" -> key <> "sentiment" -> key <> "sentiment_score" ->
  apply_analysis rt item reply !! key = item !! key.
Proof.
  intros H1 H2 H3.
  assert (Hfb : forall it, fallback it !! key = it !! key).
  { intros it. apply fallback_fields; assumption. }
  unfold apply_analysis.
  destruct reply as [| | [| b | z | f | s | l | analysis]]; try apply Hfb.
  destruct (py_float rt _).
  - rewrite !lookup_insert_ne by congruence. reflexivity.
  - rewrite Hfb, !lookup_insert_ne by congruence. reflexivity.
Qed.

(** One call of [process_item], whatever the branch taken. *)
Lemma process_item_shape (api_key : option string) (api : string -> api_outcome)
    (item : gmap string pyval) :
  let p := process_item rt api_key api item in
  (calls p = [] \/ exists s, text_content rt item = VStr s /\ calls p = [str_take 1000 s])
  /\ match returned p with
     | Ok out =>
         forall key, key <> "summary_ai" -> key <> "sentiment" ->
           key <> "sentiment_score" -> out !! key = item !! key
     | Raise _ => calls p = [] /\ forall s, text_content rt item <> VStr s
     end
  /\ (no_api_key api_key = true -> returned p = Ok item /\ calls p = []).
Proof.
  unfold process_item. destruct (no_api_key api_key).
  { cbn [returned calls]. split; [left; reflexivity |].
    split; [intros; reflexivity |]. intros _. split; reflexivity. }
  split; [| split; [| discriminate]].
  - destruct (negb (truthy (text_content rt item))); [left; reflexivity |].
    destruct (text_content rt item) as [| b | z | f | s | l | m];
      try (left; reflexivity).
    destruct (String.length (strip s) <? 10)%nat; [left; reflexivity |].
    right. exists s. split; reflexivity.
  - destruct (negb (truthy (text_content rt item)));
      [cbn [returned]; intros; reflexivity |].
    destruct (text_content rt item) as [| b | z | f | s | l | m];
      try (split; [reflexivity | discriminate]).
    destruct (String.length (strip s) <? 10)%nat;
      [cbn [returned]; intros; reflexivity |].
    cbn [returned]. intros key H1 H2 H3. apply apply_analysis_other; assumption.
Qed.

(** X10. [process_item] writes three fields at most: the item it returns
    agrees with the candidate on every key other than [summary_ai],
    [sentiment] and [sentiment_score].  It sends at most one text per
    candidate, of at most 1000 characters, and when it raises (the text
    selected is not a [str]) nothing was sent. *)
Theorem process_item_keeps_other_fields (api_key : option string)
    (api : string -> api_outcome) (item : gmap string pyval) :
  match returned (process_item rt api_key api item) with
  | Ok out =>
      forall key, key <> "summary_ai" -> key <> "sentiment" ->
        key <> "sentiment_score" -> out !! key = item !! key
  | Raise _ =>
      calls (process_item rt api_key api item) = []
      /\ forall s, text_content rt item <> VStr s
  end
  /\ (length (calls (process_item rt api_key api item)) <= 1)%nat
  /\ Forall (fun excerpt => (String.length excerpt <= 1000)%nat)
       (calls (process_item rt api_key api item)).
Proof.
  destruct (process_item_shape api_key api item) as [Hcalls [Hret _]].
  split; [exact Hret |].
  destruct Hcalls as [-> | [s [_ ->]]]; cbn [length].
  - split; [lia | constructor].
  - split; [lia |]. constructor; [apply length_str_take | constructor].
Qed.

(** The text selected for a candidate whose extracted texts are text. *)
Lemma text_content_is_text (item : gmap string pyval) :
  (forall v, item !! "report_text" = Some v -> exists t, v = VStr t) ->
  (forall v, item !! "article_text" = Some v -> exists t, v = VStr t) ->
  exists s, text_content rt item = VStr s.
Proof.
  intros Hreport Harticle. unfold text_content, dict_get.
  destruct (item !! "report_text") as [v |].
  - destruct (Hreport v eq_refl) as [t ->]. cbn [default from_option id].
    unfold py_or at 1. destruct (truthy (VStr t)); [eauto |].
    destruct (item !! "article_text") as [w |].
    + destruct (Harticle w eq_refl) as [u ->]. cbn [default from_option id].
      unfold py_or. destruct (truthy (VStr u)); eauto.
    + cbn [default from_option id]. unfold py_or. cbn [truthy]. eauto.
  - cbn [default from_option id]. unfold py_or at 1. cbn [truthy].
    destruct (item !! "article_text") as [w |].
    + destruct (Harticle w eq_refl) as [u ->]. cbn [default from_option id].
      unfold py_or. destruct (truthy (VStr u)); eauto.
    + cbn [default from_option id]. unfold py_or. cbn [truthy]. eauto.
Qed.

(** A run from any state: what it appends to the lists of the pipelines. *)
Lemma run_from (api_key : option string) (api : string -> api_outcome)
    (items : list (gmap string pyval)) :
  forall st,
    exists outs cs,
      Pipeline.duckdb_items (fold_left (Pipeline.process_item rt api_key api) items st)
      = Pipeline.duckdb_items st ++ outs
      /\ Pipeline.api_calls (fold_left (Pipeline.process_item rt api_key api) items st)
         = Pipeline.api_calls st ++ cs
      /\ (length outs <= length items)%nat
      /\ (length cs <= length outs)%nat
      /\ Forall (fun excerpt => (String.length excerpt <= 1000)%nat) cs
      /\ ((forall item, item ∈ items -> exists s, text_content rt item = VStr s) ->
          Forall2
            (fun item out => returned (process_item rt api_key api item) = Ok out)
            items outs)
      /\ (no_api_key api_key = true -> outs = items /\ cs = []).
Proof.
  induction items as [| item rest IH]; intros st; cbn [fold_left].
  - exists [], []. rewrite !app_nil_r.
    split; [reflexivity |]. split; [reflexivity |]. split; [reflexivity |].
    split; [reflexivity |]. split; [constructor |]. split; [constructor |].
    intros _. split; reflexivity.
  - destruct (IH (Pipeline.process_item rt api_key api st item))
      as [outs [cs [Hd [Hc [Hlo [Hlc [Hshort [Hkept Hnokey]]]]]]]].
    rewrite Hd, Hc. clear Hd Hc IH.
    destruct (process_item_shape api_key api item) as [Hcalls [Hret Hskip]].
    unfold Pipeline.process_item.
    destruct (returned (process_item rt api_key api item)) as [out | exn] eqn:Hout;
      cbn [Pipeline.duckdb_items Pipeline.api_calls].
    + exists (out :: outs), (calls (process_item rt api_key api item) ++ cs).
      rewrite <- !app_assoc. cbn [app].
      split; [reflexivity |]. split; [reflexivity |].
      split; [cbn [length]; lia |].
      split; [rewrite length_app; destruct Hcalls as [-> | [s [_ ->]]]; cbn [length]; lia |].
      split.
      { apply Forall_app. split; [| exact Hshort].
        destruct Hcalls as [-> | [s [_ ->]]]; [constructor |].
        constructor; [apply length_str_take | constructor]. }
      split.
      { intros Htext. constructor; [exact Hout |].
        apply Hkept. intros it Hit. apply Htext. right. exact Hit. }
      intros Hkey. destruct (Hskip Hkey) as [Hitem ->]. destruct (Hnokey Hkey) as [-> ->].
      injection Hitem as ->. split; reflexivity.
    + destruct Hret as [Hnocall Hnotext]. rewrite Hnocall.
      exists outs, cs. rewrite <- !app_assoc. cbn [app].
      split; [reflexivity |]. split; [reflexivity |].
      split; [cbn [length]; lia |]. split; [exact Hlc |]. split; [exact Hshort |].
      split.
      { intros Htext. destruct (Htext item) as [s Hs]; [left |].
        exfalso. exact (Hnotext s Hs). }
      intros Hkey. destruct (Hskip Hkey) as [Hitem _]. discriminate.
Qed.

(** The extracted texts of the spiders' items are text. *)
Lemma filing_item_texts (response : Filings.report_response) (item : gmap string pyval) :
  item ∈ Filings.parse_report rt response ->
  (forall v, item !! "report_text" = Some v -> exists t, v = VStr t)
  /\ item !! "article_text" = None.
Proof.
  intros Hitem. split.
  - destruct (parse_report_cases rt response) as [Hnone | [text [_ Hone]]];
      [rewrite Hnone in Hitem; inversion Hitem |].
    rewrite Hone in Hitem. apply list_elem_of_singleton in Hitem. subst item.
    intros v Hv. rewrite lookup_insert_eq in Hv. injection Hv as <-. eauto.
  - destruct (item !! "article_text") as [v |] eqn:Hv; [| reflexivity].
    assert (Hin : Scrapy.str_in "article_text" Scrapy.sec_fields = true)
      by (apply (parse_report_keys rt response item); [exact Hitem | rewrite Hv; eauto]).
    discriminate.
Qed.

Lemma news_item_texts (response : News.article_response) (item : gmap string pyval) :
  item ∈ News.parse_article response ->
  item !! "report_text" = None
  /\ forall v, item !! "article_text" = Some v -> exists t, v = VStr t.
Proof.
  intros Hitem. split.
  - destruct (item !! "report_text") as [v |] eqn:Hv; [| reflexivity].
    assert (Hin : Scrapy.str_in "report_text" News.allowed = true)
      by (apply (parse_article_keys response item); [exact Hitem | rewrite Hv; eauto]).
    discriminate.
  - unfold News.parse_article in Hitem.
    apply list_elem_of_singleton in Hitem. subst item.
    intros v Hv. rewrite lookup_insert_eq in Hv. injection Hv as <-. eauto.
Qed.

(** On items whose selected text is text, a run collects what
    [process_item] returns for each, in order. *)
Lemma run_collects_returned (api_key : option string) (api : string -> api_outcome)
    (items : list (gmap string pyval)) :
  (forall item, item ∈ items -> exists s, text_content rt item = VStr s) ->
  Forall2
    (fun item out => returned (process_item rt api_key api item) = Ok out)
    items (Pipeline.duckdb_items (Pipeline.run rt api_key api items)).
Proof.
  intros Htext. unfold Pipeline.run.
  destruct (run_from api_key api items Pipeline.initial)
    as [outs [cs [-> [_ [_ [_ [_ [Hkept _]]]]]]]].
  cbn [Pipeline.initial Pipeline.duckdb_items app]. apply Hkept, Htext.
Qed.

(** The text selected for an item of either spider is text. *)
Lemma crawled_filing_text (tk : string)
    (download : Scrapy.request -> option Filings.fetched)
    (response : Filings.index_response) (item : gmap string pyval) :
  item ∈ Filings.crawl rt tk download response ->
  exists s, text_content rt item = VStr s.
Proof.
  intros Hitem. unfold Filings.crawl in Hitem.
  apply list_elem_of_In, in_flat_map in Hitem as [req [_ Hitem]].
  apply list_elem_of_In in Hitem.
  destruct (download req) as [got |]; [| inversion Hitem].
  destruct (filing_item_texts _ item Hitem) as [Hreport Harticle].
  apply text_content_is_text; [exact Hreport |].
  intros v Hv. rewrite Harticle in Hv. discriminate.
Qed.

Lemma crawled_news_text (tk : string)
    (download : Scrapy.request -> option News.fetched)
    (entries : list News.feed_entry) (item : gmap string pyval) :
  item ∈ News.crawl tk download entries ->
  exists s, text_content rt item = VStr s.
Proof.
  intros Hitem. unfold News.crawl in Hitem.
  apply list_elem_of_In, in_flat_map in Hitem as [req [_ Hitem]].
  apply list_elem_of_In in Hitem.
  destruct (download req) as [got |]; [| inversion Hitem].
  destruct (news_item_texts _ item Hitem) as [Hreport Harticle].
  apply text_content_is_text; [| exact Harticle].
  intros v Hv. rewrite Hreport in Hv. discriminate.
Qed.

(** X11. A run never collects more items than the spider yields, never
    makes more calls to the service than it collects items, and every text
    it sends has at most 1000 characters. *)
Theorem run_calls_bounded (api_key : option string) (api : string -> api_outcome)
    (items : list (gmap string pyval)) :
  (length (Pipeline.api_calls (Pipeline.run rt api_key api items))
   <= length (Pipeline.duckdb_items (Pipeline.run rt api_key api items)))%nat
  /\ (length (Pipeline.duckdb_items (Pipeline.run rt api_key api items))
      <= length items)%nat
  /\ Forall (fun excerpt => (String.length excerpt <= 1000)%nat)
       (Pipeline.api_calls (Pipeline.run rt api_key api items)).
Proof.
  unfold Pipeline.run.
  destruct (run_from api_key api items Pipeline.initial)
    as [outs [cs [-> [-> [Hlo [Hlc [Hshort _]]]]]]].
  cbn [Pipeline.initial Pipeline.duckdb_items Pipeline.api_calls app].
  split; [exact Hlc |]. split; [exact Hlo | exact Hshort].
Qed.

(** X12. Without an API key a whole run is the identity: both pipelines
    collect the spider's items as they are, in order, and the service is
    never called. *)
Theorem run_without_key_collects_items_unchanged (api_key : option string)
    (api : string -> api_outcome) (items : list (gmap string pyval))
    (Hkey : no_api_key api_key = true) :
  Pipeline.run rt api_key api items
  = {| Pipeline.duckdb_items := items;
       Pipeline.parquet_items := items;
       Pipeline.api_calls := [] |}.
Proof.
  pose proof (run_collects_alike rt api_key api items) as Halike.
  unfold Pipeline.run in *.
  destruct (run_from api_key api items Pipeline.initial)
    as [outs [cs [Hd [Hc [_ [_ [_ [_ Hnokey]]]]]]]].
  destruct (Hnokey Hkey) as [-> ->].
  cbn [Pipeline.initial Pipeline.duckdb_items Pipeline.api_calls app] in Hd, Hc.
  destruct (fold_left _ items Pipeline.initial) as [d p c].
  cbn [Pipeline.duckdb_items Pipeline.parquet_items Pipeline.api_calls] in *.
  subst. reflexivity.
Qed.

(** X13. No candidate of a spider is lost on the way to the store: on the
    items of a filings run, and on those of a news run, [process_item]
    never raises, so both pipelines collect one item per candidate, in
    order, equal to the candidate outside the three enrichment fields. *)
Theorem crawled_items_all_collected (api_key : option string)
    (api : string -> api_outcome)
    (tk : string) (download : Scrapy.request -> option Filings.fetched)
    (response : Filings.index_response)
    (download' : Scrapy.request -> option News.fetched)
    (entries : list News.feed_entry) :
  Forall2
    (fun item out =>
       forall key, key <> "summary_ai" -> key <> "sentiment" ->
         key <> "sentiment_score" -> out !! key = item !! key)
    (Filings.crawl rt tk download response)
    (Pipeline.duckdb_items
       (Pipeline.run rt api_key api (Filings.crawl rt tk download response)))
  /\ Forall2
       (fun item out =>
          forall key, key <> "summary_ai" -> key <> "sentiment" ->
            key <> "sentiment_score" -> out !! key = item !! key)
       (News.crawl tk download' entries)
       (Pipeline.duckdb_items
          (Pipeline.run rt api_key api (News.crawl tk download' entries))).
Proof.
  assert (Hkept : forall items,
            (forall item, item ∈ items -> exists s, text_content rt item = VStr s) ->
            Forall2
              (fun item out =>
                 forall key, key <> "summary_ai" -> key <> "sentiment" ->
                   key <> "sentiment_score" -> out !! key = item !! key)
              items (Pipeline.duckdb_items (Pipeline.run rt api_key api items))).
  { intros items Htext.
    eapply Forall2_impl; [apply (run_collects_returned api_key api items Htext) |].
    intros item out Hout.
    destruct (process_item_shape api_key api item) as [_ [Hret _]].
    rewrite Hout in Hret. exact Hret. }
  split; apply Hkept; intros item Hitem.
  - exact (crawled_filing_text _ _ _ _ Hitem).
  - exact (crawled_news_text _ _ _ _ Hitem).
Qed.

End RunFacts.

Lemma run_without_key_collects_items_unchanged_witness :
  Enrich.no_api_key None = true
  /\ Pipeline.api_calls
       (Pipeline.run Sample.runtime None Sample.reply_complete Sample.filing_items) = [].
Proof.
  split; [reflexivity |].
  rewrite (run_without_key_collects_items_unchanged Sample.runtime None
             Sample.reply_complete Sample.filing_items eq_refl).
  reflexivity.
Defined.

(* ===================================================================== *)
(** ** More on the persistence stage                                      *)
(* ===================================================================== *)

Section StoreMore.
Import Scrapy Persist.
Context (rt : Runtime).
#[local] Open Scope list_scope.

Lemma filter_sublist {A : Type} (f : A -> bool) (l : list A) :
  List.filter f l `sublist_of` l.
Proof.
  induction l as [| x l IH]; cbn [List.filter]; [constructor |].
  destruct (f x); [apply sublist_skip | apply sublist_cons]; exact IH.
Qed.

(** X14. The loop of [close_spider] sends every item to one batch and to
    one only: an item is a filing exactly when it has a ["form"] key, the
    two batches keep the order of the items, and together they are as many
    as the items. *)
Theorem separate_partitions_items (items : list (gmap string pyval)) :
  Forall (fun item => is_Some (item !! "form")) (separate items).1
  /\ Forall (fun item => item !! "form" = None) (separate items).2
  /\ (separate items).1 `sublist_of` items
  /\ (separate items).2 `sublist_of` items
  /\ (length (separate items).1 + length (separate items).2 = length items)%nat
  /\ forall item, item ∈ items <-> item ∈ (separate items).1 \/ item ∈ (separate items).2.
Proof.
  rewrite separate_filter. cbn [fst snd].
  split; [| split; [| split; [| split; [| split]]]].
  - apply Forall_forall. intros item Hitem.
    apply list_elem_of_In, filter_In in Hitem as [_ Hf].
    unfold is_filing in Hf. apply bool_decide_eq_true in Hf. exact Hf.
  - apply Forall_forall. intros item Hitem.
    apply list_elem_of_In, filter_In in Hitem as [_ Hf].
    apply negb_true_iff in Hf. unfold is_filing in Hf.
    apply bool_decide_eq_false in Hf.
    destruct (item !! "form") as [v |]; [exfalso; apply Hf; eauto | reflexivity].
  - apply filter_sublist.
  - apply filter_sublist.
  - apply List.filter_length.
  - intros item. rewrite !list_elem_of_In, !filter_In. split.
    + intros Hin. destruct (is_filing item) eqn:Hf; [left | right]; split; auto.
    + intros [[Hin _] | [Hin _]]; exact Hin.
Qed.

(** *** When the reconciliation succeeds *)

Lemma convert_rows_total (f : cell -> result cell) (c : string)
    (rs : list (gmap string cell)) :
  Forall (fun r => exists x, f (default CNA (r !! c)) = Ok x) rs ->
  exists rs', convert_rows f c rs = Ok rs'.
Proof.
  induction 1 as [| r rest [x Hx] _ [rest' IH]]; cbn [convert_rows].
  - eauto.
  - rewrite Hx, IH. cbn [bind]. eauto.
Qed.

Lemma Forall2_right {A B : Type} (P : A -> B -> Prop) (Q : A -> Prop) (R : B -> Prop)
    (l : list A) (k : list B) :
  Forall2 P l k -> Forall Q l -> (forall x y, P x y -> Q x -> R y) -> Forall R k.
Proof.
  intros H2 HQ Himpl. induction H2 as [| x y l k Hxy _ IH]; [constructor |].
  apply Forall_cons in HQ as [Hx HQ]. constructor; [eapply Himpl; eauto | apply IH, HQ].
Qed.

(** A score that is missing, [None] or a [float] converts. *)
Lemma to_numeric_raw_score (item : gmap string pyval) :
  (forall v, item !! "sentiment_score" = Some v -> v = VNone \/ exists f, v = VFloat f) ->
  exists x, to_numeric_cell rt (raw_cell item "sentiment_score") = Ok x.
Proof.
  intros Hscore. unfold raw_cell.
  destruct (item !! "sentiment_score") as [v |]; [| cbn; eauto].
  destruct (Hscore v eq_refl) as [-> | [f ->]]; [cbn; eauto |].
  destruct f as [q | neg |]; cbn; eauto.
Qed.

Lemma reconcile_sec_total (items : list (gmap string pyval)) :
  Forall (fun item => forall v, item !! "sentiment_score" = Some v ->
            v = VNone \/ exists f, v = VFloat f) items ->
  exists df, reconcile_sec rt items = Ok df /\ length (rows df) = length items.
Proof.
  intros Hscores.
  assert (Hok : exists df, reconcile_sec rt items = Ok df).
  { unfold reconcile_sec, conform_sec.
    destruct (ensure_columns_aligned sec_columns (DataFrame items) items
                (DataFrame_aligned items)) as [Hal Hcols].
    destruct (select_holds sec_columns _ items Hal) as [df0 [Hsel H0]].
    { intros c Hc. rewrite Hcols, Hc. apply orb_true_r. }
    rewrite Hsel. cbn [bind].
    pose proof (map_column_holds date_cell "filing_date" _ _ _ _
                  (map_column_holds (to_datetime_cell rt) "filing_date" _ _ _ _ H0))
      as [_ Hrows].
    unfold convert_column.
    destruct (convert_rows_total (to_numeric_cell rt) "sentiment_score"
                (rows (map_column date_cell "filing_date"
                         (map_column (to_datetime_cell rt) "filing_date" df0))))
      as [rs Hrs].
    { eapply Forall2_right; [exact Hrows | exact Hscores |].
      intros item row Hrow Hscore. specialize (Hrow "sentiment_score").
      change (str_in "sentiment_score" sec_columns) with true in Hrow.
      cbn [String.eqb Ascii.eqb Bool.eqb] in Hrow.
      destruct Hrow as [x [-> ->]]. cbn [default from_option id].
      apply to_numeric_raw_score, Hscore. }
    rewrite Hrs. cbn [bind]. eauto. }
  destruct Hok as [df Hdf]. exists df. split; [exact Hdf |].
  destruct (reconcile_sec_holds rt items df Hdf) as [_ Hrows].
  symmetry. exact (Forall2_length _ _ _ Hrows).
Qed.

Lemma reconcile_news_total (items : list (gmap string pyval)) :
  Forall (fun item => forall v, item !! "sentiment_score" = Some v ->
            v = VNone \/ exists f, v = VFloat f) items ->
  exists df, reconcile_news rt items = Ok df /\ length (rows df) = length items.
Proof.
  intros Hscores.
  assert (Hok : exists df, reconcile_news rt items = Ok df).
  { unfold reconcile_news, conform_news.
    destruct (ensure_columns_aligned news_columns (DataFrame items) items
                (DataFrame_aligned items)) as [Hal Hcols].
    destruct (select_holds news_columns _ items Hal) as [df0 [Hsel H0]].
    { intros c Hc. rewrite Hcols, Hc. apply orb_true_r. }
    rewrite Hsel. cbn [bind].
    pose proof (map_column_holds (to_datetime_cell rt) "published" _ _ _ _ H0)
      as [_ Hrows].
    unfold convert_column.
    destruct (convert_rows_total (to_numeric_cell rt) "sentiment_score"
                (rows (map_column (to_datetime_cell rt) "published" df0)))
      as [rs Hrs].
    { eapply Forall2_right; [exact Hrows | exact Hscores |].
      intros item row Hrow Hscore. specialize (Hrow "sentiment_score").
      change (str_in "sentiment_score" news_columns) with true in Hrow.
      cbn [String.eqb Ascii.eqb Bool.eqb] in Hrow.
      destruct Hrow as [x [-> ->]]. cbn [default from_option id].
      apply to_numeric_raw_score, Hscore. }
    rewrite Hrs. cbn [bind]. eauto. }
  destruct Hok as [df Hdf]. exists df. split; [exact Hdf |].
  destruct (reconcile_news_holds rt items df Hdf) as [_ Hrows].
  symmetry. exact (Forall2_length _ _ _ Hrows).
Qed.

Lemma length_positional (df : frame) : length (positional df) = length (rows df).
Proof. unfold positional. apply length_fmap. Qed.

(** Each block of [close_spider] appends to its own table, and what it
    appends does not depend on what the warehouse holds. *)
Lemma insert_sec_appends (accepts : frame -> bool) (db : warehouse)
    (sec_items : list (gmap string pyval)) :
  insert_sec rt accepts db sec_items
  = {| sec_filings :=
         sec_filings db
         ++ sec_filings (insert_sec rt accepts {| sec_filings := []; news := [] |} sec_items);
       news := news db |}.
Proof.
  destruct db as [s n]. unfold insert_sec. cbn [sec_filings news].
  destruct sec_items as [| s0 rest]; [cbn; rewrite app_nil_r; reflexivity |].
  destruct (reconcile_sec rt (s0 :: rest)) as [df |];
    [| cbn; rewrite app_nil_r; reflexivity].
  destruct (accepts df); cbn; [reflexivity | rewrite app_nil_r; reflexivity].
Qed.

Lemma insert_news_appends (accepts : frame -> bool) (db : warehouse)
    (news_items : list (gmap string pyval)) :
  insert_news rt accepts db news_items
  = {| sec_filings := sec_filings db;
       news :=
         news db
         ++ news (insert_news rt accepts {| sec_filings := []; news := [] |} news_items) |}.
Proof.
  destruct db as [s n]. unfold insert_news. cbn [sec_filings news].
  destruct news_items as [| n0 rest]; [cbn; rewrite app_nil_r; reflexivity |].
  destruct (reconcile_news rt (n0 :: rest)) as [df |];
    [| cbn; rewrite app_nil_r; reflexivity].
  destruct (accepts df); cbn; [reflexivity | rewrite app_nil_r; reflexivity].
Qed.

Lemma close_spider_blocks (accepts : frame -> bool) (db : warehouse)
    (items : list (gmap string pyval)) :
  close_spider rt accepts db items
  = insert_news rt accepts (insert_sec rt accepts db (List.filter is_filing items))
      (List.filter (fun item => negb (is_filing item)) items).
Proof.
  unfold close_spider. destruct items as [| item0 rest]; [reflexivity |].
  rewrite separate_filter. reflexivity.
Qed.

(** X15. [close_spider] only appends, each kind on its own.  The rows the
    warehouse held stay where they were; the rows added to a table are
    those of the items of its kind alone and do not depend on what the
    warehouse holds or on the fate of the other kind (a batch of filings
    that cannot be built or inserted does not keep the news from being
    stored).  Nothing is compared with the rows already there: closing
    twice on the same items appends their rows twice. *)
Theorem close_spider_appends_per_kind (accepts : frame -> bool) (db : warehouse)
    (items : list (gmap string pyval)) :
  let empty := {| sec_filings := []; news := [] |} in
  let added_filings :=
    sec_filings (insert_sec rt accepts empty (List.filter is_filing items)) in
  let added_news :=
    news (insert_news rt accepts empty
            (List.filter (fun item => negb (is_filing item)) items)) in
  close_spider rt accepts db items
  = {| sec_filings := sec_filings db ++ added_filings;
       news := news db ++ added_news |}
  /\ close_spider rt accepts (close_spider rt accepts db items) items
     = {| sec_filings := sec_filings db ++ added_filings ++ added_filings;
          news := news db ++ added_news ++ added_news |}.
Proof.
  intros empty added_filings added_news.
  assert (Hone : forall db',
            close_spider rt accepts db' items
            = {| sec_filings := sec_filings db' ++ added_filings;
                 news := news db' ++ added_news |}).
  { intros db'. rewrite close_spider_blocks, insert_news_appends.
    rewrite (insert_sec_appends accepts db'). reflexivity. }
  split; [apply Hone |].
  rewrite (Hone (close_spider rt accepts db items)), (Hone db).
  cbn [sec_filings news]. rewrite <- !app_assoc. reflexivity.
Qed.

Lemma insert_sec_all (accepts : frame -> bool) (db : warehouse)
    (sec_items : list (gmap string pyval)) :
  (forall df, accepts df = true) ->
  Forall (fun item => forall v, item !! "sentiment_score" = Some v ->
            v = VNone \/ exists f, v = VFloat f) sec_items ->
  length (sec_filings (insert_sec rt accepts db sec_items))
  = (length (sec_filings db) + length sec_items)%nat.
Proof.
  intros Haccepts Hscores. unfold insert_sec.
  destruct sec_items as [| s0 rest]; [cbn [length]; lia |].
  destruct (reconcile_sec_total _ Hscores) as [df [-> Hlen]].
  rewrite Haccepts. cbn [sec_filings].
  rewrite length_app, length_positional, Hlen. reflexivity.
Qed.

Lemma insert_news_all (accepts : frame -> bool) (db : warehouse)
    (news_items : list (gmap string pyval)) :
  (forall df, accepts df = true) ->
  Forall (fun item => forall v, item !! "sentiment_score" = Some v ->
            v = VNone \/ exists f, v = VFloat f) news_items ->
  length (news (insert_news rt accepts db news_items))
  = (length (news db) + length news_items)%nat.
Proof.
  intros Haccepts Hscores. unfold insert_news.
  destruct news_items as [| n0 rest]; [cbn [length]; lia |].
  destruct (reconcile_news_total _ Hscores) as [df [-> Hlen]].
  rewrite Haccepts. cbn [news].
  rewrite length_app, length_positional, Hlen. reflexivity.
Qed.

Lemma Forall_filter_keep {A : Type} (P : A -> Prop) (f : A -> bool) (l : list A) :
  Forall P l -> Forall P (List.filter f l).
Proof.
  intros H. apply Forall_forall. intros x Hx.
  apply list_elem_of_In, filter_In in Hx as [Hx _].
  apply (proj1 (Forall_forall _ _) H), list_elem_of_In, Hx.
Qed.

(** X16. When the score of every item is a [float], [None] or missing
    (the enrichment stage writes a [float] or nothing), the reconciliation
    cannot raise, whatever the conversions of the runtime do; and when the
    engine then accepts the insertions, each table grows by one row per
    item of its kind: no item is lost by [close_spider]. *)
Theorem float_scores_store_every_item (items : list (gmap string pyval))
    (Hscores : Forall (fun item => forall v, item !! "sentiment_score" = Some v ->
                         v = VNone \/ exists f, v = VFloat f) items) :
  (exists df, reconcile_sec rt (separate items).1 = Ok df
              /\ length (rows df) = length (separate items).1)
  /\ (exists df, reconcile_news rt (separate items).2 = Ok df
                 /\ length (rows df) = length (separate items).2)
  /\ forall accepts db, (forall df, accepts df = true) ->
       length (sec_filings (close_spider rt accepts db items))
       = (length (sec_filings db) + length (separate items).1)%nat
       /\ length (news (close_spider rt accepts db items))
          = (length (news db) + length (separate items).2)%nat.
Proof.
  rewrite separate_filter. cbn [fst snd].
  pose proof (Forall_filter_keep _ is_filing items Hscores) as Hsec.
  pose proof (Forall_filter_keep _ (fun item => negb (is_filing item)) items Hscores)
    as Hnews.
  split; [apply reconcile_sec_total, Hsec |].
  split; [apply reconcile_news_total, Hnews |].
  intros accepts db Haccepts. rewrite close_spider_blocks. split.
  - rewrite insert_news_keeps_sec. apply insert_sec_all; assumption.
  - rewrite (insert_news_all accepts _ _ Haccepts Hnews), insert_sec_keeps_news.
    reflexivity.
Qed.

(** *** What the reconciliation keeps *)

Lemma reconciled_cell_keeps (date_conv : cell -> cell) (date_col : string)
    (fills : list (string * pyval)) (item : gmap string pyval) (col : string) (x : cell) :
  reconciled_cell rt date_conv date_col fills item col x ->
  (col <> date_col -> col <> "sentiment_score" ->
   forall v, item !! col = Some v -> v <> VNone -> v <> VFloat FNaN -> x = CVal v)
  /\ (col <> date_col -> col = "sentiment_score" ->
      forall f, item !! col = Some (VFloat f) -> is_nan f = false -> x = CVal (VFloat f))
  /\ (col = date_col -> date_col ∉ fills.*1 -> date_conv CNA = CNA ->
      raw_cell item col = CNA -> x = CNA).
Proof.
  unfold reconciled_cell. intros Hx.
  assert (Hcell : forall v, item !! col = Some v -> v <> VNone -> v <> VFloat FNaN ->
                    raw_cell item col = CVal v).
  { intros v Hv H1 H2. unfold raw_cell. rewrite Hv.
    destruct v as [| b | z | [q | neg |] | s | l | m]; try reflexivity; congruence. }
  split; [| split].
  - intros Hd Hs v Hv H1 H2.
    apply String.eqb_neq in Hd, Hs. rewrite Hd, Hs in Hx. subst x.
    rewrite (Hcell v Hv H1 H2). apply fill_all_filled. discriminate.
  - intros Hd Hs f Hv Hnan.
    apply String.eqb_neq in Hd. rewrite Hd in Hx.
    apply String.eqb_eq in Hs. rewrite Hs in Hx.
    destruct Hx as [y [Hy ->]].
    rewrite (Hcell (VFloat f) Hv) in Hy;
      [| discriminate | intros Heq; injection Heq as ->; discriminate].
    cbn [to_numeric_cell] in Hy. injection Hy as <-.
    apply fill_all_filled. discriminate.
  - intros Hd Hfresh Hconv Hraw.
    apply String.eqb_eq in Hd. rewrite Hd in Hx. subst x.
    apply String.eqb_eq in Hd. subst col.
    rewrite Hraw, Hconv. apply fill_all_other. exact Hfresh.
Qed.

Lemma holds_rows (df : frame) (items : list (gmap string pyval)) (cols : list string)
    (R : gmap string pyval -> string -> cell -> Prop)
    (Q : gmap string pyval -> gmap string cell -> Prop) :
  holds df items cols R ->
  (forall item row,
     (forall col, if str_in col cols
                  then exists x, row !! col = Some x /\ R item col x
                  else row !! col = None) -> Q item row) ->
  Forall2 Q items (rows df).
Proof.
  intros [_ Hrows] Himpl. eapply Forall2_impl; [exact Hrows |].
  intros item row Hrow. apply Himpl, Hrow.
Qed.

(** X17. The reconciliation changes no value it was given.  In the frame
    of the filings and in that of the news, a row holds under every column
    other than the date and the score the value of its item as it is,
    whenever the item has one that is not null, and under the score column
    the item's score when it is a [float] other than NaN; a date that is
    missing stays NULL (no default date is written); and a row has no cell
    outside the columns of the table. *)
Theorem reconcile_keeps_given_values
    (sec_items news_items : list (gmap string pyval)) (sec_df news_df : frame)
    (Hsec : reconcile_sec rt sec_items = Ok sec_df)
    (Hnews : reconcile_news rt news_items = Ok news_df) :
  Forall2
    (fun item row =>
       (forall col v, str_in col sec_columns = true ->
          col <> "filing_date" -> col <> "sentiment_score" ->
          item !! col = Some v -> v <> VNone -> v <> VFloat FNaN ->
          row !! col = Some (CVal v))
       /\ (forall f, item !! "sentiment_score" = Some (VFloat f) -> is_nan f = false ->
             row !! "sentiment_score" = Some (CVal (VFloat f)))
       /\ (raw_cell item "filing_date" = CNA -> row !! "filing_date" = Some CNA)
       /\ (forall col, str_in col sec_columns = false -> row !! col = None))
    sec_items (rows sec_df)
  /\ Forall2
       (fun item row =>
          (forall col v, str_in col news_columns = true ->
             col <> "published" -> col <> "sentiment_score" ->
             item !! col = Some v -> v <> VNone -> v <> VFloat FNaN ->
             row !! col = Some (CVal v))
          /\ (forall f, item !! "sentiment_score" = Some (VFloat f) -> is_nan f = false ->
                row !! "sentiment_score" = Some (CVal (VFloat f)))
          /\ (raw_cell item "published" = CNA -> row !! "published" = Some CNA)
          /\ (forall col, str_in col news_columns = false -> row !! col = None))
       news_items (rows news_df).
Proof.
  split.
  - eapply holds_rows; [exact (reconcile_sec_holds rt _ _ Hsec) |].
    intros item row Hrow. split; [| split; [| split]].
    + intros col v Hcol Hd Hs Hv H1 H2. specialize (Hrow col). rewrite Hcol in Hrow.
      destruct Hrow as [x [-> Hx]]. f_equal.
      exact (proj1 (reconciled_cell_keeps _ _ _ _ _ _ Hx) Hd Hs v Hv H1 H2).
    + intros f Hv Hnan. specialize (Hrow "sentiment_score").
      change (str_in "sentiment_score" sec_columns) with true in Hrow.
      destruct Hrow as [x [-> Hx]]. f_equal.
      apply (proj1 (proj2 (reconciled_cell_keeps _ _ _ _ _ _ Hx)));
        [discriminate | reflexivity | exact Hv | exact Hnan].
    + intros Hraw. specialize (Hrow "filing_date").
      change (str_in "filing_date" sec_columns) with true in Hrow.
      destruct Hrow as [x [-> Hx]]. f_equal.
      apply (proj2 (proj2 (reconciled_cell_keeps _ _ _ _ _ _ Hx)));
        [reflexivity | | reflexivity | exact Hraw].
      apply (bool_decide_unpack ("filing_date" ∉ sec_fill.*1)). vm_compute. exact I.
    + intros col Hcol. specialize (Hrow col). rewrite Hcol in Hrow. exact Hrow.
  - eapply holds_rows; [exact (reconcile_news_holds rt _ _ Hnews) |].
    intros item row Hrow. split; [| split; [| split]].
    + intros col v Hcol Hd Hs Hv H1 H2. specialize (Hrow col). rewrite Hcol in Hrow.
      destruct Hrow as [x [-> Hx]]. f_equal.
      exact (proj1 (reconciled_cell_keeps _ _ _ _ _ _ Hx) Hd Hs v Hv H1 H2).
    + intros f Hv Hnan. specialize (Hrow "sentiment_score").
      change (str_in "sentiment_score" news_columns) with true in Hrow.
      destruct Hrow as [x [-> Hx]]. f_equal.
      apply (proj1 (proj2 (reconciled_cell_keeps _ _ _ _ _ _ Hx)));
        [discriminate | reflexivity | exact Hv | exact Hnan].
    + intros Hraw. specialize (Hrow "published").
      change (str_in "published" news_columns) with true in Hrow.
      destruct Hrow as [x [-> Hx]]. f_equal.
      apply (proj2 (proj2 (reconciled_cell_keeps _ _ _ _ _ _ Hx)));
        [reflexivity | | reflexivity | exact Hraw].
      apply (bool_decide_unpack ("published" ∉ news_fill.*1)). vm_compute. exact I.
    + intros col Hcol. specialize (Hrow col). rewrite Hcol in Hrow. exact Hrow.
Qed.

(** *** The archive *)

Lemma length_rows_DataFrame (items : list (gmap string pyval)) :
  length (rows (DataFrame items)) = length items.
Proof. unfold DataFrame. cbn [rows]. apply length_fmap. Qed.

Lemma list_sum_cons (x : nat) (l : list nat) :
  list_sum (x :: l) = (x + list_sum l)%nat.
Proof. reflexivity. Qed.

Lemma news_file_rows (writes : frame -> bool) (ts : string)
    (news_items : list (gmap string pyval)) :
  (length (news_file writes ts news_items) <= 1)%nat
  /\ (list_sum ((fun file => length (rows file.2)) <$> news_file writes ts news_items)
      <= length news_items)%nat
  /\ ((forall df, writes df = true) ->
      list_sum ((fun file => length (rows file.2)) <$> news_file writes ts news_items)
      = length news_items).
Proof.
  unfold news_file. destruct news_items as [| n0 rest]; [cbn; lia |].
  destruct (writes (DataFrame (n0 :: rest))) eqn:Hw.
  - rewrite fmap_cons, list_sum_cons. cbn [snd fmap list_fmap list_sum fold_right].
    rewrite length_rows_DataFrame. cbn [length]. lia.
  - cbn [fmap list_fmap list_sum fold_right length].
    split; [lia |]. split; [lia |]. intros Hall. rewrite Hall in Hw. discriminate.
Qed.

(** X18. What [ParquetPipeline.close_spider] leaves in the lake: at most
    two files; each record of the run is a row of at most one of them, and
    of exactly one when every write succeeds.  Both writes stand in one
    [try], so a failed write of the filings leaves no file at all: the news
    of that run are not archived either. *)
Theorem archive_rows_account_for_items (writes : frame -> bool) (ts : string)
    (items : list (gmap string pyval)) :
  (length (archive writes ts items) <= 2)%nat
  /\ (list_sum ((fun file => length (rows file.2)) <$> archive writes ts items)
      <= length items)%nat
  /\ ((forall df, writes df = true) ->
      list_sum ((fun file => length (rows file.2)) <$> archive writes ts items)
      = length items)
  /\ (List.filter is_filing items <> [] ->
      writes (DataFrame (List.filter is_filing items)) = false ->
      archive writes ts items = []).
Proof.
  pose proof (List.filter_length is_filing items) as Hparts.
  destruct (news_file_rows writes ts
              (List.filter (fun item => negb (is_filing item)) items))
    as [Hn1 [Hn2 Hn3]].
  unfold archive. destruct items as [| item0 rest]; [cbn; repeat split; auto; lia |].
  destruct (List.filter is_filing (item0 :: rest)) as [| s0 srest] eqn:Hsec.
  - cbn [length] in *.
    split; [lia |]. split; [lia |]. split; [intros Hall; rewrite Hn3; [lia | exact Hall] |].
    intros Hne. contradiction.
  - destruct (writes (DataFrame (s0 :: srest))) eqn:Hw.
    + rewrite fmap_cons, list_sum_cons. cbn [snd].
      rewrite length_rows_DataFrame. cbn [length] in *.
      split; [lia |]. split; [lia |].
      split; [intros Hall; specialize (Hn3 Hall); lia |].
      intros _ Hfalse. discriminate.
    + cbn [fmap list_fmap list_sum fold_right length].
      split; [lia |]. split; [lia |].
      split; [intros Hall; rewrite Hall in Hw; discriminate |].
      intros _ _. reflexivity.
Qed.

End StoreMore.

Lemma float_scores_store_every_item_witness :
  Forall (fun item => forall v, item !! "sentiment_score" = Some v ->
            v = VNone \/ exists f, v = VFloat f)
    [ {[ "form" := VStr "10-K" ]} : gmap string pyval;
      {[ "title" := VStr "Markets wrap" ]};
      <["sentiment_score" := VFloat f1]> {[ "title" := VStr "Apple" ]} ]
  /\ length
       (Persist.news
          (Persist.close_spider Sample.runtime Sample.always
             {| Persist.sec_filings := []; Persist.news := [] |}
             [ {[ "form" := VStr "10-K" ]};
               {[ "title" := VStr "Markets wrap" ]};
               <["sentiment_score" := VFloat f1]> {[ "title" := VStr "Apple" ]} ]))
     = 2%nat.
Proof.
  assert (Hscores :
    Forall (fun item : gmap string pyval =>
              forall v, item !! "sentiment_score" = Some v ->
                v = VNone \/ exists f, v = VFloat f)
      [ {[ "form" := VStr "10-K" ]};
        {[ "title" := VStr "Markets wrap" ]};
        <["sentiment_score" := VFloat f1]> {[ "title" := VStr "Apple" ]} ]).
  { constructor; [| constructor; [| constructor; [| constructor]]];
      intros v Hv; vm_compute in Hv;
      first [discriminate | injection Hv as <-; right; eauto]. }
  split; [exact Hscores |].
  destruct (float_scores_store_every_item Sample.runtime _ Hscores)
    as [_ [_ Hstore]].
  destruct (Hstore Sample.always {| Persist.sec_filings := []; Persist.news := [] |}
              (fun _ => eq_refl)) as [_ Hnews].
  rewrite Hnews. reflexivity.
Defined.

Lemma reconcile_keeps_given_values_witness :
  exists sec_df news_df,
    Persist.reconcile_sec Sample.runtime Sample.filing_items = Ok sec_df
    /\ Persist.reconcile_news Sample.runtime Sample.news_items = Ok news_df
    /\ length (Persist.rows sec_df) = 1%nat
    /\ length (Persist.rows news_df) = 2%nat.
Proof.
  destruct (Persist.reconcile_sec Sample.runtime Sample.filing_items)
    as [sec_df | exn] eqn:Hsec; [| vm_compute in Hsec; discriminate].
  destruct (Persist.reconcile_news Sample.runtime Sample.news_items)
    as [news_df | exn] eqn:Hnews; [| vm_compute in Hnews; discriminate].
  exists sec_df, news_df. split; [reflexivity |]. split; [reflexivity |].
  destruct (reconcile_keeps_given_values Sample.runtime _ _ _ _ Hsec Hnews)
    as [Hs Hn].
  apply Forall2_length in Hs, Hn. rewrite <- Hs, <- Hn. split; reflexivity.
Defined.

(* ===================================================================== *)
(** ** The dashboard's list of tickers                                    *)
(* ===================================================================== *)

Section DashboardFacts.
Import Dashboard.
#[local] Open Scope list_scope.

(** X19. [load_ticker_list] always offers the five default tickers.  When
    the warehouse answers, the list is in ascending order without
    repetition and holds exactly the tickers of the warehouse and the
    defaults; when the query fails it is the list of the defaults as
    written. *)
Theorem load_ticker_list_sorted_with_defaults (queried : result (list string)) :
  (forall t, t ∈ default_tickers -> t ∈ load_ticker_list queried)
  /\ match queried with
     | Ok items =>
         Sorted String.le (load_ticker_list queried)
         /\ NoDup (load_ticker_list queried)
         /\ forall t, t ∈ load_ticker_list queried <-> t ∈ items \/ t ∈ default_tickers
     | Raise _ => load_ticker_list queried = default_tickers
     end.
Proof.
  assert (Hmem : forall items t,
            t ∈ load_ticker_list (Ok items) <-> t ∈ items \/ t ∈ default_tickers).
  { intros items t. unfold load_ticker_list.
    rewrite merge_sort_Permutation, elem_of_remove_dups, elem_of_app. reflexivity. }
  split.
  - intros t Ht. destruct queried as [items | exn]; [| exact Ht].
    apply Hmem. right. exact Ht.
  - destruct queried as [items | exn]; [| reflexivity].
    split; [| split; [| apply Hmem]].
    + unfold load_ticker_list. apply Sorted_merge_sort. apply _.
    + unfold load_ticker_list. rewrite merge_sort_Permutation. apply NoDup_remove_dups.
Qed.

End DashboardFacts.

(* ===================================================================== *)
(** ** From the spider to the warehouse                                   *)
(* ===================================================================== *)

Section EndToEnd.
Import Scrapy Enrich Persist.
Context (rt : Runtime).
#[local] Open Scope list_scope.

Lemma apply_analysis_score (item : gmap string pyval) (reply : api_outcome) :
  exists f, apply_analysis rt item reply !! "sentiment_score" = Some (VFloat f).
Proof.
  assert (Hfb : forall it, exists f, fallback it !! "sentiment_score" = Some (VFloat f)).
  { intros it. exists f0. apply fallback_fields. }
  unfold apply_analysis.
  destruct reply as [| | [| b | z | f | s | l | analysis]]; try apply Hfb.
  destruct (py_float rt _) as [score |]; [| apply Hfb].
  exists score. apply lookup_insert_eq.
Qed.

(** What [process_item] returns: the item as it came, or the item after
    the three assignments. *)
Lemma process_item_returns (api_key : option string) (api : string -> api_outcome)
    (item out : gmap string pyval) :
  returned (process_item rt api_key api item) = Ok out ->
  out = item \/ exists reply, out = apply_analysis rt item reply.
Proof.
  unfold process_item. destruct (no_api_key api_key).
  { cbn [returned]. intros H. injection H as <-. left. reflexivity. }
  destruct (negb (truthy (text_content rt item))).
  { cbn [returned]. intros H. injection H as <-. left. reflexivity. }
  destruct (text_content rt item) as [| b | z | f | s | l | m]; try discriminate.
  destruct (String.length (strip s) <? 10)%nat; cbn [returned]; intros H;
    injection H as <-; [left; reflexivity | right; eauto].
Qed.

(** An item without a score leaves the enrichment stage without a score
    or with a [float]; its other fields are kept. *)
Lemma process_item_score (api_key : option string) (api : string -> api_outcome)
    (item out : gmap string pyval) :
  returned (process_item rt api_key api item) = Ok out ->
  item !! "sentiment_score" = None ->
  (forall v, out !! "sentiment_score" = Some v -> v = VNone \/ exists f, v = VFloat f)
  /\ out !! "form" = item !! "form".
Proof.
  intros Hout Hscore.
  destruct (process_item_shape rt api_key api item) as [_ [Hret _]].
  rewrite Hout in Hret. split; [| apply Hret; discriminate].
  destruct (process_item_returns api_key api item out Hout) as [-> | [reply ->]].
  - intros v Hv. rewrite Hscore in Hv. discriminate.
  - intros v Hv. destruct (apply_analysis_score item reply) as [f Hf].
    rewrite Hf in Hv. injection Hv as <-. right. eauto.
Qed.

Lemma filter_all {A : Type} (f : A -> bool) (l : list A) :
  Forall (fun x => f x = true) l ->
  List.filter f l = l /\ List.filter (fun x => negb (f x)) l = [].
Proof.
  induction 1 as [| x l Hx _ [IH1 IH2]]; [split; reflexivity |].
  cbn [List.filter]. rewrite Hx, IH1, IH2. split; reflexivity.
Qed.

Lemma filter_none {A : Type} (f : A -> bool) (l : list A) :
  Forall (fun x => f x = false) l ->
  List.filter f l = [] /\ List.filter (fun x => negb (f x)) l = l.
Proof.
  induction 1 as [| x l Hx _ [IH1 IH2]]; [split; reflexivity |].
  cbn [List.filter]. rewrite Hx, IH1, IH2. split; reflexivity.
Qed.

(** The items of a filings run have a form and, unless the engine's own
    [meta] brings one, no score; those of a news run have neither. *)
Lemma crawled_filing_keys (tk : string)
    (download : request -> option Filings.fetched)
    (response : Filings.index_response) (item : gmap string pyval) :
  (forall req got, download req = Some got ->
     Filings.fetched_extra_meta got !! "sentiment_score" = None) ->
  item ∈ Filings.crawl rt tk download response ->
  is_Some (item !! "form") /\ item !! "sentiment_score" = None.
Proof.
  intros Hextra Hitem. unfold Filings.crawl in Hitem.
  apply list_elem_of_In, in_flat_map in Hitem as [req [Hreq Hitem]].
  apply list_elem_of_In in Hreq, Hitem.
  destruct (download req) as [got |] eqn:Hgot; [| inversion Hitem].
  pose proof (proj1 (Forall_forall _ _) (parse_requests_shape rt tk response) req Hreq)
    as [cik [company [n [[[[fm date] acc] pdoc] Hshape]]]].
  rewrite !(parse_report_copies rt _ item _ Hitem) by (reflexivity || discriminate).
  cbn [Filings.deliver Filings.rep_meta]. subst req. split.
  - exists (VStr fm). apply lookup_union_Some_l. reflexivity.
  - apply lookup_union_None. split; [reflexivity | exact (Hextra _ _ Hgot)].
Qed.

Lemma crawled_news_keys (tk : string)
    (download : request -> option News.fetched)
    (entries : list News.feed_entry) (item : gmap string pyval) :
  item ∈ News.crawl tk download entries ->
  item !! "form" = None /\ item !! "sentiment_score" = None.
Proof.
  intros Hitem. unfold News.crawl in Hitem.
  apply list_elem_of_In, in_flat_map in Hitem as [req [_ Hitem]].
  apply list_elem_of_In in Hitem.
  destruct (download req) as [got |]; [| inversion Hitem].
  split.
  - destruct (item !! "form") as [v |] eqn:Hv; [| reflexivity].
    assert (Hin : str_in "form" News.allowed = true)
      by (apply (parse_article_keys (News.deliver req got) item); [exact Hitem | rewrite Hv; eauto]).
    discriminate.
  - destruct (item !! "sentiment_score") as [v |] eqn:Hv; [| reflexivity].
    assert (Hin : str_in "sentiment_score" News.allowed = true)
      by (apply (parse_article_keys (News.deliver req got) item); [exact Hitem | rewrite Hv; eauto]).
    discriminate.
Qed.

(** X20. From the spider to the warehouse, no candidate is lost and none
    lands in the wrong table.  When the engine accepts the insertions (and
    its own [meta] brings no score), a filings run adds exactly one row to
    [sec_filings] per candidate the spider emits and leaves [news] as it
    was; a news run adds exactly one row to [news] per candidate and leaves
    [sec_filings] as it was; whatever the analysis service replies and
    whatever the conversions of the runtime do. *)
Theorem crawled_candidates_all_stored
    (api_key : option string) (api : string -> api_outcome)
    (accepts : frame -> bool) (db : warehouse)
    (tk : string) (download : request -> option Filings.fetched)
    (response : Filings.index_response)
    (download' : request -> option News.fetched) (entries : list News.feed_entry)
    (Hextra : forall req got, download req = Some got ->
                Filings.fetched_extra_meta got !! "sentiment_score" = None)
    (Haccepts : forall df, accepts df = true) :
  let filings_run :=
    close_spider rt accepts db
      (Pipeline.duckdb_items
         (Pipeline.run rt api_key api (Filings.crawl rt tk download response))) in
  let news_run :=
    close_spider rt accepts db
      (Pipeline.duckdb_items
         (Pipeline.run rt api_key api (News.crawl tk download' entries))) in
  (length (sec_filings filings_run)
   = length (sec_filings db) + length (Filings.crawl rt tk download response))%nat
  /\ news filings_run = news db
  /\ (length (news news_run)
      = length (news db) + length (News.crawl tk download' entries))%nat
  /\ sec_filings news_run = sec_filings db.
Proof.
  intros filings_run news_run. subst filings_run news_run.
  pose proof (run_collects_returned rt api_key api _
                (crawled_filing_text rt tk download response)) as Hf.
  pose proof (run_collects_returned rt api_key api _
                (crawled_news_text rt tk download' entries)) as Hn.
  set (fouts := Pipeline.duckdb_items
                  (Pipeline.run rt api_key api (Filings.crawl rt tk download response)))
    in *.
  set (nouts := Pipeline.duckdb_items
                  (Pipeline.run rt api_key api (News.crawl tk download' entries)))
    in *.
  assert (Hfout : Forall (fun out =>
             is_filing out = true
             /\ forall v, out !! "sentiment_score" = Some v ->
                  v = VNone \/ exists f, v = VFloat f) fouts).
  { eapply Forall2_right;
      [exact Hf | apply Forall_forall; intros item Hitem;
                  exact (crawled_filing_keys tk download response item Hextra Hitem) |].
    intros item out Hout [Hform Hscore].
    destruct (process_item_score api_key api item out Hout Hscore) as [Hs Hfm].
    split; [| exact Hs].
    unfold is_filing. apply bool_decide_eq_true. rewrite Hfm. exact Hform. }
  assert (Hnout : Forall (fun out =>
             is_filing out = false
             /\ forall v, out !! "sentiment_score" = Some v ->
                  v = VNone \/ exists f, v = VFloat f) nouts).
  { eapply Forall2_right;
      [exact Hn | apply Forall_forall; intros item Hitem;
                  exact (crawled_news_keys tk download' entries item Hitem) |].
    intros item out Hout [Hform Hscore].
    destruct (process_item_score api_key api item out Hout Hscore) as [Hs Hfm].
    split; [| exact Hs].
    unfold is_filing. apply bool_decide_eq_false. rewrite Hfm, Hform.
    intros [v Hv]. discriminate. }
  apply Forall_and in Hfout as [Hfkind Hfscore].
  apply Forall_and in Hnout as [Hnkind Hnscore].
  destruct (filter_all is_filing fouts Hfkind) as [Hf1 Hf2].
  destruct (filter_none is_filing nouts Hnkind) as [Hn1 Hn2].
  rewrite !close_spider_blocks, Hf1, Hf2, Hn1, Hn2.
  split; [| split; [| split]].
  - cbn [insert_news]. rewrite (insert_sec_all rt accepts db fouts Haccepts Hfscore).
    rewrite (Forall2_length _ _ _ Hf). reflexivity.
  - cbn [insert_news]. apply insert_sec_keeps_news.
  - cbn [insert_sec]. rewrite (insert_news_all rt accepts db nouts Haccepts Hnscore).
    rewrite (Forall2_length _ _ _ Hn). reflexivity.
  - cbn [insert_sec]. apply insert_news_keeps_sec.
Qed.

End EndToEnd.

Lemma crawled_candidates_all_stored_witness :
  (forall req got, Sample.download_report req = Some got ->
     Filings.fetched_extra_meta got !! "sentiment_score" = None)
  /\ (forall df, Sample.always df = true)
  /\ length
       (Persist.sec_filings
          (Persist.close_spider Sample.runtime Sample.always
             {| Persist.sec_filings := []; Persist.news := [] |}
             (Pipeline.duckdb_items
                (Pipeline.run Sample.runtime Sample.api_key Sample.reply_complete
                   Sample.filing_items)))) = 1%nat
  /\ length
       (Persist.news
          (Persist.close_spider Sample.runtime Sample.always
             {| Persist.sec_filings := []; Persist.news := [] |}
             (Pipeline.duckdb_items
                (Pipeline.run Sample.runtime Sample.api_key Sample.reply_complete
                   Sample.news_items)))) = 2%nat.
Proof.
  assert (Hextra : forall req got, Sample.download_report req = Some got ->
            Filings.fetched_extra_meta got !! "sentiment_score" = None).
  { intros req got Hgot. injection Hgot as <-. reflexivity. }
  assert (Haccepts : forall df, Sample.always df = true) by reflexivity.
  split; [exact Hextra |]. split; [exact Haccepts |].
  destruct (crawled_candidates_all_stored Sample.runtime Sample.api_key
              Sample.reply_complete Sample.always
              {| Persist.sec_filings := []; Persist.news := [] |}
              "AAPL" Sample.download_report Sample.index
              Sample.download_article Sample.feed Hextra Haccepts)
    as [Hsec [_ [Hnews _]]].
  split; [exact Hsec | exact Hnews].
Defined.
